(** * Behavioural matching pipeline: a shallow embedding

    The development follows the Python sources module by module:
    [DataProcessor], [Text], [TimeFeatures] and [Preprocess]
    (analysis/data_processing.py), [BehaviorAnalyzer]
    (analysis/behavior_analyzer.py), [RecommendationSystem]
    (analysis/recommendation_system.py), [RedditDatingAnalysis] and
    [Interactive] and [Printer] (main.py), [Visualizer]
    (analysis/visualizer.py), [Collector] (data_collection.py).

    Conventions of the embedding.
    - A number is a rational ([Q]).  The features of the comments of a post
      and the engagement score are computed as numpy does, in binary64:
      every operation is the exact one followed by rounding to the nearest
      double ([F64]); overflow is not modelled.  The means of pandas, the
      scores of the matcher and the quantiles are exact rationals, and
      equalities between computed numbers are stated with [==].  A missing
      cell of a pandas column (NaN, NaT, None) is [None] in an [option]; the
      one place where numpy produces an infinity, the division in the
      engagement score, is modelled with [ext].
    - A Python exception is the [Raise] outcome of the [result] monad; a
      [try ... except Exception] block is [try_except].
    - A pandas frame is the list of its rows, in row order; a frame indexed
      by author is an association list in index order.
    - Library calls are modelled by what they compute: [sorted] and
      [list.sort] by a stable insertion sort, [pd.cut] and [pd.qcut] by
      their common binning step, [Series.mode] by the most frequent
      categories in category order, [kneighbors] by its checks of the
      request followed by the ranking of all fitted rows by distance,
      [re.sub] and [str.split] by a scan of the text from the left.
    - A text is a string of code points below 128, a timestamp the number
      of nanoseconds since 1970-01-01 00:00; the sentiment analyser and the
      sentence tokenizer are parameters of the model.  A field of a
      collected comment may be absent or [null]; a collected post has its
      author and its timestamp, as the collector writes them. *)

From Stdlib Require Import ZArith QArith Qabs Qpower List String Ascii Bool Lia Lqa.
From Stdlib Require Import Permutation Sorted DecimalString DecimalPos.
Import ListNotations.

Open Scope Q_scope.

(** ** Python runtime helpers *)

Module Py.

(** Exceptions the modelled code can meet. *)
Inductive exn : Type :=
| KeyError (key : string)
| IndexError
| ValueError (msg : string)
| NotFittedError.

Inductive result (A : Type) : Type :=
| Ok (a : A)
| Raise (e : exn).
Arguments Ok {A} a.
Arguments Raise {A} e.

Definition bind {A B : Type} (m : result A) (k : A -> result B) : result B :=
  match m with
  | Ok a => k a
  | Raise e => Raise e
  end.

(** [try: m except Exception: h] *)
Definition try_except {A : Type} (m : result A) (h : exn -> A) : A :=
  match m with
  | Ok a => a
  | Raise e => h e
  end.

(** A loop that collects one result per element and stops at the first
    exception. *)
Fixpoint traverse {A B : Type} (f : A -> result B) (l : list A) : result (list B) :=
  match l with
  | [] => Ok []
  | x :: l' =>
      match f x with
      | Raise e => Raise e
      | Ok y =>
          match traverse f l' with
          | Raise e => Raise e
          | Ok ys => Ok (y :: ys)
          end
      end
  end.

(** [x < y] and [x > y] on numbers. *)
Definition lt (x y : Q) : bool := negb (Qle_bool y x).
Definition gt (x y : Q) : bool := lt y x.
Definition le (x y : Q) : bool := Qle_bool x y.

(** The builtin [max(a, b)] keeps [a] unless [b > a]; [min(a, b)] keeps [a]
    unless [b < a]. *)
Definition max (a b : Q) : Q := if gt b a then b else a.
Definition min (a b : Q) : Q := if lt b a then b else a.

(** [sum(xs)] and the exact mean of a non-empty [xs]. *)
Definition sum (xs : list Q) : Q := fold_right Qplus 0 xs.
Definition mean (xs : list Q) : Q := sum xs / inject_Z (Z.of_nat (List.length xs)).

(** A dictionary literal read with [d[k]]: the first binding of [k], or
    [KeyError]. *)
Fixpoint getitem {V : Type} (d : list (string * V)) (k : string) : result V :=
  match d with
  | [] => Raise (KeyError k)
  | (k', v) :: d' => if String.eqb k k' then Ok v else getitem d' k
  end.

Definition str_of_Z (n : Z) : string := NilZero.string_of_int (Z.to_int n).

(** Rounding of a rational to the nearest integer, ties to even, as the
    float formatter does. *)
Definition round_half_even (x : Q) : Z :=
  let n := Qnum x in
  let d := Zpos (Qden x) in
  let q := (n / d)%Z in
  let r := (n mod d)%Z in
  match (2 * r ?= d)%Z with
  | Lt => q
  | Gt => (q + 1)%Z
  | Eq => if Z.even q then q else (q + 1)%Z
  end.

(** The format specification [:.1f]. *)
Definition format_1f (x : Q) : string :=
  let t := round_half_even (Qabs x * 10) in
  ((if lt x 0 then "-" else "") ++ str_of_Z (t / 10) ++ "." ++ str_of_Z (t mod 10))%string.

End Py.

Declare Scope py_scope.
Delimit Scope py_scope with py.
Notation "x <- m ;; k" := (Py.bind m (fun x => k))
  (at level 61, m at next level, right associativity) : py_scope.
Notation "'ret' a" := (Py.Ok a) (at level 60) : py_scope.

(** ** Binary64 arithmetic

    A double is the rational it stands for.  Every operation of numpy and
    pandas on floats is the exact operation followed by rounding to the
    nearest double, ties to the even significand.  Overflow is not
    modelled: the numbers computed here are counts, hours and polarities. *)

Module F64.

(** The exponent of the leading bit of [x <> 0]:
    [2^ilog2 x <= |x| < 2^(ilog2 x + 1)]. *)
Definition ilog2 (x : Q) : Z :=
  let e := (Z.log2 (Z.abs (Qnum x)) - Z.log2 (Zpos (Qden x)))%Z in
  if Qle_bool (2 ^ e) (Qabs x) then e else (e - 1)%Z.

(** The exponent of the last bit of the 53-bit significand; below [2^-1022]
    the spacing stays [2^-1074]. *)
Definition quantum (x : Q) : Z := Z.max (ilog2 x - 52) (-1074).

(** Rounding to the nearest double, ties to even. *)
Definition round (x : Q) : Q :=
  let x := Qred x in
  if Qeq_bool x 0 then 0
  else
    let e := quantum x in
    Qred (inject_Z (Py.round_half_even (x / 2 ^ e)) * 2 ^ e).

(** The operations; [div] is used with a divisor that is not 0. *)
Definition add (x y : Q) : Q := round (x + y).
Definition mul (x y : Q) : Q := round (x * y).
Definition div (x y : Q) : Q := round (x / y).

(** The rationals that are doubles. *)
Definition is_double (x : Q) : bool := Qeq_bool (round x) x.

(** *** [np.mean] of a list of floats

    [np.add.reduce] sums a contiguous array pairwise: fewer than 8 numbers
    one after the other; up to 128 numbers in eight interleaved running
    sums, which are then added in pairs, followed one after the other by the
    numbers left over once fewer than 8 remain; more numbers in two parts,
    each summed in this way. *)

(** [r[j] += a[i + j]] for the eight running sums. *)
Fixpoint add_lanes (r xs : list Q) : list Q :=
  match r, xs with
  | a :: r', x :: xs' => add a x :: add_lanes r' xs'
  | _, _ => []
  end.

(** The unrolled loop: as long as 8 numbers remain they are added to the
    running sums.  Returns the sums and the numbers left over. *)
Fixpoint unrolled (fuel : nat) (r xs : list Q) : list Q * list Q :=
  match fuel with
  | O => (r, xs)
  | S fuel' =>
      if (8 <=? List.length xs)%nat
      then unrolled fuel' (add_lanes r (firstn 8 xs)) (skipn 8 xs)
      else (r, xs)
  end.

(** [((r[0] + r[1]) + (r[2] + r[3])) + ((r[4] + r[5]) + (r[6] + r[7]))] *)
Definition pair_lanes (r : list Q) : Q :=
  match r with
  | [r0; r1; r2; r3; r4; r5; r6; r7] =>
      add (add (add r0 r1) (add r2 r3)) (add (add r4 r5) (add r6 r7))
  | _ => 0
  end.

Definition block_sum (xs : list Q) : Q :=
  let (r, rest) := unrolled (List.length xs) (firstn 8 xs) (skipn 8 xs) in
  fold_left add rest (pair_lanes r).

Fixpoint pairwise_sum (fuel : nat) (xs : list Q) : Q :=
  let n := List.length xs in
  if (n <? 8)%nat then fold_left add xs 0
  else if (n <=? 128)%nat then block_sum xs
  else
    match fuel with
    | O => block_sum xs
    | S fuel' =>
        let n2 := (n / 2 - (n / 2) mod 8)%nat in
        add (pairwise_sum fuel' (firstn n2 xs)) (pairwise_sum fuel' (skipn n2 xs))
    end.

Definition np_sum (xs : list Q) : Q := pairwise_sum (List.length xs) xs.

(** [np.mean(xs)] for a non-empty list: the sum divided by the count. *)
Definition np_mean (xs : list Q) : Q :=
  div (np_sum xs) (inject_Z (Z.of_nat (List.length xs))).

End F64.

(** ** Data model *)

(** Categories of [pd.cut(..., labels=['low', 'medium', 'high'])], an ordered
    categorical: the code of a category is its position in [labels]. *)
Inductive Engagement : Type := low | medium | high.

Definition engagement_code (l : Engagement) : nat :=
  match l with low => 0 | medium => 1 | high => 2 end.

Definition engagement_label (l : Engagement) : string :=
  match l with low => "low" | medium => "medium" | high => "high" end.

(** Categories of [pd.qcut(..., labels=['quick', 'moderate', 'slow'])]. *)
Inductive ResponseCategory : Type := quick | moderate | slow.

(** One processed comment, as built by [_process_comments]; [created_utc] is
    the timestamp in nanoseconds since the epoch, [None] for [NaT]; the
    score is [None] when the collected score is [null]; the sentiment is a
    double. *)
Record Comment : Type := {
  c_author : string;
  c_text : string;
  c_score : option Z;
  c_created_utc : option Z;
  c_word_count : Z;
  c_sentiment : Q
}.

(** The dictionary returned by [_extract_comment_features]; the response
    time is [None] when it is [nan]. *)
Record CommentFeatures : Type := {
  cf_avg_comment_length : Q;
  cf_total_comments : Q;
  cf_avg_words_per_comment : Q;
  cf_comment_sentiment_mean : Q;
  cf_avg_response_time : option Q
}.

(** A row of the processed frame: the columns that the analysis reads or
    writes.  A numeric or categorical cell may be missing ([None]); a stage
    that assigns a column overwrites the field. *)
Record Post : Type := {
  author : string;
  hour_posted : Z;
  is_weekend : Z;
  sentiment_polarity : Q;
  total_comments : option Q;
  avg_words_per_comment : option Q;
  comment_sentiment_mean : option Q;
  post_avg_response_time : option Q;
  post_engagement_level : option Engagement;
  user_response_category : option ResponseCategory;
  communication_style : string
}.

(** A row of the behaviour table built by [analyze_user_behavior]. *)
Record UserBehavior : Type := {
  avg_response_time : Q;
  message_frequency : Z;
  avg_message_length : Q;
  sentiment_mean : Q;
  engagement_level : string;
  active_hours : Z;
  weekend_activity : Q
}.

(** The [preferences] dictionary of [get_user_preferences]. *)
Record Preferences : Type := {
  pref_communication_style : string;
  pref_response_time : Q;
  pref_engagement_level : string
}.

(** The nested dictionary returned by [get_user_profile]. *)
Record ProfileView : Type := {
  view_response_time : string;
  view_message_frequency : Z;
  view_engagement_level : string;
  view_communication_style : string;
  view_active_hours : Z;
  view_weekend_activity : string
}.

(** ** Generic list utilities *)

Section ListUtil.

Context {A : Type}.

(** Stable insertion sort: the model of [sorted] and [list.sort], which are
    stable. *)
Fixpoint insert (leb : A -> A -> bool) (x : A) (l : list A) : list A :=
  match l with
  | [] => [x]
  | y :: l' => if leb x y then x :: l else y :: insert leb x l'
  end.

Definition isort (leb : A -> A -> bool) (l : list A) : list A :=
  fold_right (insert leb) [] l.

(** [Series.unique()]: the distinct values in order of first appearance. *)
Fixpoint unique (eqb : A -> A -> bool) (l : list A) : list A :=
  match l with
  | [] => []
  | x :: l' => x :: filter (fun y => negb (eqb x y)) (unique eqb l')
  end.

(** [s.dropna()] and [s.fillna(v)]. *)
Fixpoint dropna (l : list (option A)) : list A :=
  match l with
  | [] => []
  | Some x :: l' => x :: dropna l'
  | None :: l' => dropna l'
  end.

Definition fillna (v : A) (x : option A) : A :=
  match x with Some a => a | None => v end.

(** The values of a list without a missing one. *)
Fixpoint notna_all (l : list (option A)) : option (list A) :=
  match l with
  | [] => Some []
  | None :: _ => None
  | Some x :: l' =>
      match notna_all l' with
      | Some xs => Some (x :: xs)
      | None => None
      end
  end.

End ListUtil.

(** [Series.mean()]: the mean of the cells that are present, missing when
    there is none. *)
Definition pd_mean (xs : list (option Q)) : option Q :=
  match dropna xs with
  | [] => None
  | v :: vs => Some (Py.mean (v :: vs))
  end.

(** A float that may be infinite: bin edges of [pd.cut] and the result of a
    numpy division by zero. *)
Inductive ext : Type := NegInf | Fin (q : Q) | PosInf.

Definition ext_lt (a b : ext) : bool :=
  match a, b with
  | NegInf, NegInf => false
  | NegInf, _ => true
  | Fin _, NegInf => false
  | Fin x, Fin y => Py.lt x y
  | Fin _, PosInf => true
  | PosInf, _ => false
  end.

Definition ext_eqb (a b : ext) : bool :=
  match a, b with
  | NegInf, NegInf => true
  | Fin x, Fin y => Qeq_bool x y
  | PosInf, PosInf => true
  | _, _ => false
  end.

(** [bins.searchsorted(x, side='left')]: the number of edges below [x], for
    increasing [bins]. *)
Definition searchsorted_left (bins : list ext) (x : ext) : nat :=
  List.length (filter (fun b => ext_lt b x) bins).

(** The binning shared by [pd.cut] and [pd.qcut] (right-closed intervals): a
    value below every edge or above the last one gets no category. *)
Definition bins_to_cuts {L : Type} (bins : list ext) (labels : list L)
    (include_lowest : bool) (x : ext) : option L :=
  let ids := searchsorted_left bins x in
  let ids := if include_lowest && ext_eqb x (hd PosInf bins) then 1%nat else ids in
  if (ids =? 0)%nat || (ids =? List.length bins)%nat then None
  else nth_error labels (ids - 1).

(** ** analysis/data_processing.py *)

Module DataProcessor.

Definition _get_default_comment_features : CommentFeatures :=
  {| cf_avg_comment_length := 0;
     cf_total_comments := 0;
     cf_avg_words_per_comment := 0;
     cf_comment_sentiment_mean := 0;
     cf_avg_response_time := Some 0 |}.

(** [Timedelta.total_seconds()] of a difference of [ns] nanoseconds:
    [days * 24 * 3600 + seconds + microseconds / 1_000_000] on the three
    components of the difference (an integer plus a float).  Older versions
    of pandas return [value / 1e9]; for a whole number of seconds, the only
    differences between the timestamps that the collector writes, both are
    that number. *)
Definition total_seconds (ns : Z) : Q :=
  let days := (ns / 86400000000000)%Z in
  let seconds := ((ns mod 86400000000000) / 1000000000)%Z in
  let microseconds := ((ns mod 1000000000) / 1000)%Z in
  F64.add (F64.round (inject_Z (days * 24 * 3600 + seconds)))
          (F64.div (inject_Z microseconds) 1000000).

(** [(t1 - t0).total_seconds() / 3600] for timestamps in nanoseconds. *)
Definition hours_between (t0 t1 : Z) : Q :=
  F64.div (total_seconds (t1 - t0)) 3600.

(** The comprehension over [range(1, len(times))]. *)
Fixpoint consecutive_hours (times : list Z) : list Q :=
  match times with
  | t0 :: ((t1 :: _) as rest) => hours_between t0 t1 :: consecutive_hours rest
  | _ => []
  end.

(** [NaT] compares false with every timestamp, so that the order in which
    [sorted] leaves a list with a [NaT] is not determined by the values;
    every difference with a [NaT] is [NaT], whose [total_seconds()] is
    [nan].  Two or more timestamps with a [NaT] among them therefore give a
    list with a [nan]: this outcome is [None].  A single comment gives no
    difference, whatever its timestamp. *)
Definition _calculate_response_times (comments : list Comment) : option (list Q) :=
  match notna_all (map c_created_utc comments) with
  | Some times => Some (consecutive_hours (isort Z.leb times))
  | None =>
      match comments with
      | [_] => Some []
      | _ => None
      end
  end.

Definition of_nat (n : nat) : Q := inject_Z (Z.of_nat n).

Definition _extract_comment_features (comments : list Comment) : CommentFeatures :=
  match comments with
  | [] => _get_default_comment_features
  | _ :: _ =>
      let comment_lengths := map (fun c => of_nat (String.length (c_text c))) comments in
      let word_counts := map (fun c => inject_Z (c_word_count c)) comments in
      let sentiments := map c_sentiment comments in
      let response_times := _calculate_response_times comments in
      {| cf_avg_comment_length := F64.np_mean comment_lengths;
         cf_total_comments := of_nat (List.length comments);
         cf_avg_words_per_comment := F64.np_mean word_counts;
         cf_comment_sentiment_mean := F64.np_mean sentiments;
         cf_avg_response_time :=
           match response_times with
           | Some [] => Some 0
           | Some ((_ :: _) as response_times) => Some (F64.np_mean response_times)
           | None => None
           end |}
  end.

(** [pd.concat([processed_df, comment_features_df], axis=1)], row by row:
    both frames carry the default index, so row [i] receives the features of
    the comments of post [i]. *)
Definition concat_comment_features (p : Post) (f : CommentFeatures) : Post :=
  {| author := author p; hour_posted := hour_posted p; is_weekend := is_weekend p;
     sentiment_polarity := sentiment_polarity p;
     total_comments := Some (cf_total_comments f);
     avg_words_per_comment := Some (cf_avg_words_per_comment f);
     comment_sentiment_mean := Some (cf_comment_sentiment_mean f);
     post_avg_response_time := cf_avg_response_time f;
     post_engagement_level := post_engagement_level p;
     user_response_category := user_response_category p;
     communication_style := communication_style p |}.

(** The score of one row, in the order in which the expression is
    evaluated.  numpy yields [inf] for [1 / 0.0]; the two other summands are
    finite, so the score is then [inf]. *)
Definition engagement_score (p : Post) : ext :=
  let tc := fillna 0 (total_comments p) in
  let art := fillna 24 (post_avg_response_time p) in
  let sent := fillna 0 (comment_sentiment_mean p) in
  let d := F64.add 1 art in
  if Qeq_bool d 0 then PosInf
  else
    Fin (F64.div
           (F64.add (F64.add (F64.div tc 10) (F64.div 1 d)) (F64.div (F64.add sent 1) 2))
           3).

(** The edges are the doubles written [0.3] and [0.7]. *)
Definition engagement_bins : list ext :=
  [NegInf; Fin (F64.round 0.3); Fin (F64.round 0.7); PosInf].
Definition engagement_labels : list Engagement := [low; medium; high].

Definition set_engagement_level (l : option Engagement) (p : Post) : Post :=
  {| author := author p; hour_posted := hour_posted p; is_weekend := is_weekend p;
     sentiment_polarity := sentiment_polarity p; total_comments := total_comments p;
     avg_words_per_comment := avg_words_per_comment p;
     comment_sentiment_mean := comment_sentiment_mean p;
     post_avg_response_time := post_avg_response_time p;
     post_engagement_level := l;
     user_response_category := user_response_category p;
     communication_style := communication_style p |}.

(** The [except] branch guards against a missing column; every row of the
    model has the three columns, so the [try] body always completes. *)
Definition _calculate_engagement_levels (df : list Post) : list Post :=
  map (fun p =>
         set_engagement_level
           (bins_to_cuts engagement_bins engagement_labels false (engagement_score p)) p)
      df.

(** *** [_extract_user_patterns] *)

(** [np.quantile(s, j/3)] with linear interpolation, for a sorted,
    non-empty [s]: position [j*(n-1)/3], split into its integer part and the
    interpolation weight. *)
Definition tercile (s : list Q) (j : nat) : Q :=
  let n := List.length s in
  let pos := (j * (n - 1))%nat in
  let lo := (pos / 3)%nat in
  let gamma := of_nat (pos mod 3) / 3 in
  let hi := Nat.min (lo + 1) (n - 1) in
  let a := nth lo s 0 in
  let b := nth hi s 0 in
  a + (b - a) * gamma.

Fixpoint all_distinct (l : list Q) : bool :=
  match l with
  | [] => true
  | x :: l' => forallb (fun y => negb (Qeq_bool x y)) l' && all_distinct l'
  end.

Definition response_labels : list ResponseCategory := [quick; moderate; slow].

(** [pd.qcut(x, q=3, labels=[...])]: the edges are the terciles of the
    cells that are present; equal edges are refused (all edges are NaN when
    no cell is present, which is refused in the same way). *)
Definition qcut (x : list (option Q)) : Py.result (list (option ResponseCategory)) :=
  match isort Qle_bool (dropna x) with
  | [] => Py.Raise (Py.ValueError "Bin edges must be unique")
  | (_ :: _) as s =>
      let bins := map (tercile s) [0; 1; 2; 3]%nat in
      if all_distinct bins then
        Py.Ok (map (fun c =>
                      match c with
                      | None => None
                      | Some v => bins_to_cuts (map Fin bins) response_labels true (Fin v)
                      end) x)
      else Py.Raise (Py.ValueError "Bin edges must be unique")
  end.

(** [df.groupby('author')]: one group per author, groups ordered by key. *)
Definition groupby_author (df : list Post) : list (string * list Post) :=
  map (fun a => (a, filter (fun p => String.eqb (author p) a) df))
      (isort String.leb (unique String.eqb (map author df))).

(** The [avg_response_time] column of [author_patterns] after [fillna]; the
    two other aggregated columns are not read again. *)
Definition author_patterns (df : list Post) : list (string * option Q) :=
  let agg := map (fun g => (fst g, pd_mean (map post_avg_response_time (snd g))))
                 (groupby_author df) in
  let overall := pd_mean (map snd agg) in
  map (fun r => (fst r, match snd r with Some v => Some v | None => overall end)) agg.

Definition set_user_response_category (c : option ResponseCategory) (p : Post) : Post :=
  {| author := author p; hour_posted := hour_posted p; is_weekend := is_weekend p;
     sentiment_polarity := sentiment_polarity p; total_comments := total_comments p;
     avg_words_per_comment := avg_words_per_comment p;
     comment_sentiment_mean := comment_sentiment_mean p;
     post_avg_response_time := post_avg_response_time p;
     post_engagement_level := post_engagement_level p;
     user_response_category := c;
     communication_style := communication_style p |}.

Fixpoint lookup_category (tbl : list (string * option ResponseCategory)) (a : string)
  : option ResponseCategory :=
  match tbl with
  | [] => None
  | (a', c) :: tbl' => if String.eqb a a' then c else lookup_category tbl' a
  end.

(** The category column of [author_patterns]: the [try] body up to the
    merge. *)
Definition response_categories (df : list Post)
  : Py.result (list (string * option ResponseCategory)) :=
  let patterns := author_patterns df in
  (cats <- (if (3 <=? List.length patterns)%nat
            then qcut (map snd patterns)
            else ret (map (fun _ => Some moderate) patterns)) ;;
   ret (combine (map fst patterns) cats))%py.

(** [df.merge(..., on='author', how='left')] *)
Definition merge_category (df : list Post) (tbl : list (string * option ResponseCategory))
  : list Post :=
  map (fun p => set_user_response_category (lookup_category tbl (author p)) p) df.

Definition _extract_user_patterns (df : list Post) : list Post :=
  Py.try_except
    (tbl <- response_categories df ;; ret (merge_category df tbl))%py
    (fun _ => map (set_user_response_category (Some moderate)) df).

(** *** [_extract_communication_features] *)

(** The lambda applied to [sentiment_polarity]. *)
Definition style_of_polarity (x : Q) : string :=
  if Py.gt x 0.2 then "positive"
  else if Py.lt x (-0.2) then "critical"
  else "neutral".

Definition set_communication_style (s : string) (p : Post) : Post :=
  {| author := author p; hour_posted := hour_posted p; is_weekend := is_weekend p;
     sentiment_polarity := sentiment_polarity p; total_comments := total_comments p;
     avg_words_per_comment := avg_words_per_comment p;
     comment_sentiment_mean := comment_sentiment_mean p;
     post_avg_response_time := post_avg_response_time p;
     post_engagement_level := post_engagement_level p;
     user_response_category := user_response_category p;
     communication_style := s |}.

Definition _extract_communication_features (df : list Post) : list Post :=
  map (fun p => set_communication_style (style_of_polarity (sentiment_polarity p)) p) df.

End DataProcessor.

(** ** analysis/behavior_analyzer.py *)

Module BehaviorAnalyzer.

Definition engagement_eqb (a b : Engagement) : bool :=
  (engagement_code a =? engagement_code b)%nat.

Definition count_level (l : Engagement) (xs : list Engagement) : nat :=
  List.length (filter (engagement_eqb l) xs).

(** [Series.mode()] of a categorical column: missing cells are dropped and
    the most frequent categories are returned sorted by category code. *)
Definition mode (xs : list (option Engagement)) : list Engagement :=
  let present := dropna xs in
  let top := Nat.max (count_level low present)
               (Nat.max (count_level medium present) (count_level high present)) in
  filter (fun l => (0 <? count_level l present)%nat && (count_level l present =? top)%nat)
         [low; medium; high].

(** [s.iloc[0]] *)
Definition iloc0 {A : Type} (s : list A) : Py.result A :=
  match s with
  | [] => Py.Raise Py.IndexError
  | x :: _ => Py.Ok x
  end.

(** [s.nunique()] *)
Definition nunique (zs : list Z) : Z := Z.of_nat (List.length (unique Z.eqb zs)).

Definition user_metrics (df : list Post) (user : string) : Py.result UserBehavior :=
  let user_posts := filter (fun p => String.eqb (author p) user) df in
  (level <- match user_posts with
            | _ :: _ => l <- iloc0 (mode (map post_engagement_level user_posts)) ;;
                        ret (engagement_label l)
            | [] => ret "medium"%string
            end ;;
   ret {| avg_response_time := Py.mean (map (fun p => fillna 0 (post_avg_response_time p)) user_posts);
          message_frequency := Z.of_nat (List.length user_posts);
          avg_message_length := Py.mean (map (fun p => fillna 0 (avg_words_per_comment p)) user_posts);
          sentiment_mean := Py.mean (map (fun p => fillna 0 (comment_sentiment_mean p)) user_posts);
          engagement_level := level;
          active_hours := nunique (map hour_posted user_posts);
          weekend_activity := Py.mean (map (fun p => inject_Z (is_weekend p)) user_posts) |})%py.

(** The behaviour table: one row per author, in order of first appearance. *)
Definition analyze_user_behavior (df : list Post) : Py.result (list (string * UserBehavior)) :=
  Py.traverse (fun user => (m <- user_metrics df user ;; ret (user, m))%py)
              (unique String.eqb (map author df)).

Definition _get_communication_style (profile : UserBehavior) : string :=
  if Py.gt (sentiment_mean profile) 0.2 then "Positive"
  else if Py.lt (sentiment_mean profile) (-0.2) then "Critical"
  else "Neutral".

(** [behavior_data.loc[user]] for a label of the index. *)
Fixpoint loc (behavior_data : list (string * UserBehavior)) (user : string)
  : option UserBehavior :=
  match behavior_data with
  | [] => None
  | (u, row) :: rest => if String.eqb user u then Some row else loc rest user
  end.

Definition get_user_profile (user : string) (behavior_data : list (string * UserBehavior))
  : ProfileView :=
  match loc behavior_data user with
  | None =>
      {| view_response_time := "0 hours";
         view_message_frequency := 0;
         view_engagement_level := "medium";
         view_communication_style := "neutral";
         view_active_hours := 0;
         view_weekend_activity := "0%" |}
  | Some profile =>
      {| view_response_time := (Py.format_1f (avg_response_time profile) ++ " hours")%string;
         view_message_frequency := message_frequency profile;
         view_engagement_level := engagement_level profile;
         view_communication_style := _get_communication_style profile;
         view_active_hours := active_hours profile;
         view_weekend_activity :=
           (Py.format_1f (F64.mul (weekend_activity profile) 100) ++ "%")%string |}
  end.

End BehaviorAnalyzer.

(** ** analysis/recommendation_system.py *)

Module RecommendationSystem.

Definition vector : Type := list Q.

Fixpoint dot (u v : vector) : Q :=
  match u, v with
  | x :: u', y :: v' => x * y + dot u' v'
  | _, _ => 0
  end.

(** Square root to sixteen decimal places (exact on rational squares of
    that precision). *)
Definition sqrt16 (x : Q) : Q :=
  Z.sqrt (Qnum x * Zpos (Qden x) * 10 ^ 32) # (Qden x * 10 ^ 16).

(** [metric='cosine']: one minus the cosine of the angle; a zero vector has
    similarity 0 to everything. *)
Definition cosine_distance (u v : vector) : Q :=
  1 - dot u v / (sqrt16 (dot u u) * sqrt16 (dot v v)).

(** The state of the [NearestNeighbors] model: its metric and, once [fit]
    was called, the training rows. *)
Record NearestNeighbors : Type := {
  metric : vector -> vector -> Q;
  fit_X : option (list vector)
}.

Definition new (m : vector -> vector -> Q) : NearestNeighbors :=
  {| metric := m; fit_X := None |}.

Definition fit (knn_model : NearestNeighbors) (features : list vector) : NearestNeighbors :=
  {| metric := metric knn_model; fit_X := Some features |}.

Definition by_distance (a b : nat * Q) : bool := Qle_bool (snd a) (snd b).

(** Every training row with its distance to the query, nearest first.  The
    library does not fix the order of rows at equal distance; in the model
    they stay in index order. *)
Definition ranked (m : vector -> vector -> Q) (X : list vector) (x : vector)
  : list (nat * Q) :=
  isort by_distance (combine (seq 0 (List.length X)) (map (m x) X)).

(** The check of the query against [n_features_in_]: the fitted rows are
    the rows of a 2-D array, all of one length, and a query of another
    length is refused. *)
Definition has_fitted_features (X : list vector) (x : vector) : bool :=
  existsb (fun row => (List.length row =? List.length x)%nat) X.

(** [knn_model.kneighbors(x, n_neighbors)] for one query row: the pair
    (distances, indices) of the first result row. *)
Definition kneighbors (knn_model : NearestNeighbors) (x : vector) (n_neighbors : Z)
  : Py.result (list Q * list nat) :=
  match fit_X knn_model with
  | None => Py.Raise Py.NotFittedError
  | Some X =>
      if (n_neighbors <=? 0)%Z then
        Py.Raise (Py.ValueError "Expected n_neighbors > 0")
      else if negb (has_fitted_features X x) then
        Py.Raise (Py.ValueError "X has a different number of features than NearestNeighbors is expecting")
      else if (Z.of_nat (List.length X) <? n_neighbors)%Z then
        Py.Raise (Py.ValueError "Expected n_neighbors <= n_samples_fit")
      else
        let nearest := firstn (Z.to_nat n_neighbors) (ranked (metric knn_model) X x) in
        Py.Ok (map snd nearest, map fst nearest)
  end.

Definition get_recommendations (knn_model : NearestNeighbors) (user_features : vector)
    (n_recommendations : Z) : Py.result (list nat * list Q) :=
  (r <- kneighbors knn_model user_features (n_recommendations + 1) ;;
   let distances := fst r in
   let indices := snd r in
   ret (tl indices, tl distances))%py.

End RecommendationSystem.

(** ** main.py *)

Module RedditDatingAnalysis.

Import BehaviorAnalyzer.

Record Match : Type := {
  user : string;
  score : Q;
  profile : ProfileView
}.

Definition weights_communication_style : Q := 35.
Definition weights_response_time : Q := 25.
Definition weights_engagement_level : Q := 25.
Definition weights_activity : Q := 15.

Definition level_rank : list (string * Z) :=
  [("low"%string, 0%Z); ("medium"%string, 1%Z); ("high"%string, 2%Z)].
Definition level_expected_freq : list (string * Z) :=
  [("low"%string, 1%Z); ("medium"%string, 3%Z); ("high"%string, 5%Z)].

(** The body of the [try] block of [calculate_match_score]. *)
Definition match_score_body (preferences : Preferences) (user_data : UserBehavior)
  : Py.result Q :=
  let score := 0 in
  let user_style := _get_communication_style user_data in
  let pref_style := pref_communication_style preferences in
  let score :=
    if String.eqb user_style pref_style then
      score + weights_communication_style
    else if (String.eqb user_style "neutral" && negb (String.eqb pref_style "critical"))
            || (String.eqb pref_style "neutral" && negb (String.eqb user_style "critical"))
    then score + weights_communication_style * 0.5
    else score in
  let response_time_diff :=
    Qabs (avg_response_time user_data - pref_response_time preferences) in
  let time_score :=
    if Py.le response_time_diff 1 then 1.0
    else if Py.le response_time_diff 3 then 0.8
    else if Py.le response_time_diff 6 then 0.6
    else if Py.le response_time_diff 12 then 0.4
    else Py.max 0 (1 - response_time_diff / 24) in
  let score := score + weights_response_time * time_score in
  (score <-
     (if String.eqb (engagement_level user_data) (pref_engagement_level preferences) then
        ret (score + weights_engagement_level)
      else
        a <- Py.getitem level_rank (engagement_level user_data) ;;
        b <- Py.getitem level_rank (pref_engagement_level preferences) ;;
        if (Z.abs (a - b) =? 1)%Z then ret (score + weights_engagement_level * 0.5)
        else ret score) ;;
   let user_msg_freq := message_frequency user_data in
   expected_freq <- Py.getitem level_expected_freq (pref_engagement_level preferences) ;;
   let activity_diff := Z.abs (user_msg_freq - expected_freq) in
   let activity_score := Py.max 0 (1 - inject_Z activity_diff / 5) in
   let score := score + weights_activity * activity_score in
   let score :=
     if Py.gt (avg_response_time user_data) 24 && Py.lt (pref_response_time preferences) 6
     then score * 0.8 else score in
   let score :=
     if Py.lt (sentiment_mean user_data) (-0.5)
        && String.eqb (pref_communication_style preferences) "positive"
     then score * 0.9 else score in
   ret (Py.min 100 (Py.max 0 score)))%py.

Definition calculate_match_score (preferences : Preferences) (user_data : UserBehavior) : Q :=
  Py.try_except (match_score_body preferences user_data) (fun _ => 0).

Definition by_score_desc (a b : Match) : bool := Qle_bool (score b) (score a).

(** The loop of [find_matches]: one entry per label of the index. *)
Definition candidates (preferences : Preferences) (behavior_data : list (string * UserBehavior))
  : Py.result (list Match) :=
  Py.traverse
    (fun u =>
       match loc behavior_data u with
       | None => Py.Raise (Py.KeyError u)
       | Some user_data =>
           Py.Ok {| user := u;
                    score := calculate_match_score preferences user_data;
                    profile := get_user_profile u behavior_data |}
       end)
    (map fst behavior_data).

Definition find_matches (preferences : Preferences)
    (behavior_data : list (string * UserBehavior)) (n_recommendations : nat)
  : Py.result (list Match) :=
  (matches <- candidates preferences behavior_data ;;
   ret (firstn n_recommendations (isort by_score_desc matches)))%py.

End RedditDatingAnalysis.

(** ** Text cleaning (analysis/data_processing.py)

    Characters are modelled on the code points below 128, where Python's
    classes are: white space = tab to carriage return, the four separators
    28 to 31 and the blank; word characters = letters, digits and the
    underscore.  The results about text are stated for such strings. *)

Module Text.

Definition code (c : ascii) : nat := nat_of_ascii c.

Definition is_ascii (s : string) : bool :=
  forallb (fun c => (code c <? 128)%nat) (list_ascii_of_string s).

(** [str.isspace], the class [\s] and the separators of [str.split()]. *)
Definition isspace (c : ascii) : bool :=
  let n := code c in
  ((n =? 32) || ((9 <=? n) && (n <=? 13)) || ((28 <=? n) && (n <=? 31)))%nat.

Definition isupper (c : ascii) : bool :=
  let n := code c in ((65 <=? n) && (n <=? 90))%nat.

(** The class [\w]. *)
Definition isword (c : ascii) : bool :=
  let n := code c in
  (isupper c || ((97 <=? n) && (n <=? 122)) || ((48 <=? n) && (n <=? 57)) || (n =? 95))%nat.

Definition lower_char (c : ascii) : ascii :=
  if isupper c then ascii_of_nat (code c + 32) else c.

(** [text.lower()] *)
Fixpoint lower (s : string) : string :=
  match s with
  | EmptyString => EmptyString
  | String c r => String (lower_char c) (lower r)
  end.

(** The rest of [s] behind the prefix [p]. *)
Fixpoint after (p s : string) : option string :=
  match p, s with
  | EmptyString, _ => Some s
  | String a p', String b s' => if Ascii.eqb a b then after p' s' else None
  | String _ _, EmptyString => None
  end.

(** Whether [p\S+] matches at the head of [s]. *)
Definition starts (p s : string) : bool :=
  match after p s with
  | Some (String c _) => negb (isspace c)
  | _ => false
  end.

(** Whether [http\S+|www\S+|https\S+] matches at the head of [s]. *)
Definition url_starts (s : string) : bool :=
  starts "http" s || starts "www" s || starts "https" s.

(** [re.sub(r'http\S+|www\S+|https\S+', '', text)], scanning from the left:
    a match runs up to the next white space (or the end), so while
    [skipping] the characters of the current match are dropped. *)
Fixpoint strip_urls (skipping : bool) (s : string) : string :=
  match s with
  | EmptyString => EmptyString
  | String c r =>
      if skipping then
        if isspace c then String c (strip_urls false r) else strip_urls true r
      else if url_starts s then strip_urls true r
      else String c (strip_urls false r)
  end.

(** [re.sub(r'[^\w\s]', ' ', text)] *)
Fixpoint blank_punctuation (s : string) : string :=
  match s with
  | EmptyString => EmptyString
  | String c r =>
      String (if isword c || isspace c then c else " "%char) (blank_punctuation r)
  end.

(** [text.split()]: the maximal runs without white space; [word] is the run
    read so far. *)
Fixpoint split_from (word : string) (s : string) : list string :=
  match s with
  | EmptyString => match word with EmptyString => [] | _ => [word] end
  | String c r =>
      if isspace c then
        match word with
        | EmptyString => split_from EmptyString r
        | _ => word :: split_from EmptyString r
        end
      else split_from (word ++ String c EmptyString) r
  end.

Definition split (s : string) : list string := split_from EmptyString s.

(** [' '.join(words)] *)
Definition join (words : list string) : string := String.concat " " words.

Fixpoint lstrip (s : string) : string :=
  match s with
  | EmptyString => EmptyString
  | String c r => if isspace c then lstrip r else s
  end.

Fixpoint rstrip (s : string) : string :=
  match s with
  | EmptyString => EmptyString
  | String c r =>
      match rstrip r with
      | EmptyString => if isspace c then EmptyString else String c EmptyString
      | r' => String c r'
      end
  end.

(** [text.strip()] *)
Definition strip (s : string) : string := rstrip (lstrip s).

(** [_clean_text]; a missing text ([pd.isna]) is [None]. *)
Definition _clean_text (text : option string) : string :=
  match text with
  | None => EmptyString
  | Some t =>
      let text := lower t in
      let text := strip_urls false text in
      let text := blank_punctuation text in
      let text := join (split text) in
      strip text
  end.

(** *** Notions used to state the properties of the cleaned text *)

Fixpoint all (P : ascii -> bool) (s : string) : bool :=
  match s with
  | EmptyString => true
  | String c r => P c && all P r
  end.

(** A lower-case letter, a digit, the underscore or the blank. *)
Definition clean_char (c : ascii) : bool :=
  (isword c && negb (isupper c)) || Ascii.eqb c " ".

(** The URL pattern matches nowhere in [s]. *)
Fixpoint no_url (s : string) : bool :=
  match s with
  | EmptyString => true
  | String _ r => negb (url_starts s) && no_url r
  end.


(** A lower-case letter, a digit or the underscore. *)
Definition lower_word_char (c : ascii) : bool := isword c && negb (isupper c).

(** A non-empty run without white space whose characters satisfy [P]. *)
Definition is_word (P : ascii -> bool) (w : string) : Prop :=
  w <> EmptyString /\ all (fun c => negb (isspace c) && P c)%bool w = true.

(** No white space at the end. *)
Fixpoint ends_in_word (s : string) : bool :=
  match s with
  | EmptyString => true
  | String c EmptyString => negb (isspace c)
  | String _ r => ends_in_word r
  end.


(** [len(str(x).split())] *)
Definition word_count (x : string) : Z := Z.of_nat (List.length (split x)).

(** [_average_word_length] *)
Definition _average_word_length (text : string) : Q :=
  match split text with
  | [] => 0
  | (_ :: _) as words =>
      Py.mean (map (fun word => DataProcessor.of_nat (String.length word)) words)
  end.

End Text.

(** ** Time features (analysis/data_processing.py)

    A timestamp is the number of nanoseconds since 1970-01-01 00:00, a
    Thursday. *)

Module TimeFeatures.

Definition ns_per_hour : Z := 3600 * 1000000000.
Definition ns_per_day : Z := 24 * ns_per_hour.

(** [ts.hour] *)
Definition hour (created_utc : Z) : Z := (created_utc / ns_per_hour) mod 24.

(** [ts.dayofweek], Monday = 0 *)
Definition dayofweek (created_utc : Z) : Z := (created_utc / ns_per_day + 3) mod 7.

Definition _categorize_time_of_day (hour : Z) : string :=
  if ((5 <=? hour) && (hour <? 12))%Z then "morning"
  else if ((12 <=? hour) && (hour <? 17))%Z then "afternoon"
  else if ((17 <=? hour) && (hour <? 22))%Z then "evening"
  else "night".

(** The four columns added by [_extract_time_features]. *)
Record Columns : Type := {
  tf_hour_posted : Z;
  tf_day_of_week : Z;
  tf_is_weekend : Z;
  tf_time_of_day : string
}.

Definition _extract_time_features (created_utc : Z) : Columns :=
  let hour_posted := hour created_utc in
  let day_of_week := dayofweek created_utc in
  {| tf_hour_posted := hour_posted;
     tf_day_of_week := day_of_week;
     tf_is_weekend := if ((day_of_week =? 5) || (day_of_week =? 6))%Z then 1 else 0;
     tf_time_of_day := _categorize_time_of_day hour_posted |}.

End TimeFeatures.

(** ** Preprocessing (analysis/data_processing.py)

    The sentiment analyser is a library outside the sources: its three
    readings of a text are parameters of the model. *)

Module Preprocess.

Import DataProcessor.

(** A value read from a dictionary of the data file: the key may be absent;
    when it is present its value may be [null]. *)
Inductive field (A : Type) : Type :=
| Absent
| Null
| Value (a : A).
Arguments Absent {A}.
Arguments Null {A}.
Arguments Value {A} a.

(** A comment as collected.  The value of [created_utc] is the text of a
    time: [Some t] when [pd.to_datetime] reads it as [t], [None] when it
    refuses it. *)
Record RawComment : Type := {
  rc_author : field string;
  rc_text : field string;
  rc_score : field Z;
  rc_created_utc : field (option Z)
}.

(** A post as collected. *)
Record RawPost : Type := {
  raw_title : option string;
  raw_text : option string;
  raw_author : string;
  raw_created_utc : Z;
  raw_comments : list RawComment
}.

(** A row of the frame returned by [preprocess_data]: the columns read by
    the analysis ([post]) and the other derived columns. *)
Record ProcessedPost : Type := {
  post : Post;
  clean_title : string;
  clean_text : string;
  day_of_week : Z;
  time_of_day : string;
  word_count : Z;
  sentence_count : Z;
  avg_word_length : Q;
  sentiment_subjectivity : Q;
  avg_comment_length : Q
}.

(** [comment[k]]: [KeyError] for an absent key, [None] for a [null]. *)
Definition key {A : Type} (k : string) (v : field A) : Py.result (option A) :=
  match v with
  | Absent => Py.Raise (Py.KeyError k)
  | Null => Py.Ok None
  | Value a => Py.Ok (Some a)
  end.

(** [str(v)] for a text or [None]. *)
Definition str (v : option string) : string :=
  match v with
  | Some s => s
  | None => "None"
  end.

(** [pd.to_datetime(v)]: [NaT] for [None]; a text that is no time raises. *)
Definition to_datetime (v : option (option Z)) : Py.result (option Z) :=
  match v with
  | None => Py.Ok None
  | Some (Some t) => Py.Ok (Some t)
  | Some None => Py.Raise (Py.ValueError "Unknown datetime string format")
  end.

Section TextBlob.

(** [TextBlob(s).sentiment.polarity], [TextBlob(s).sentiment.subjectivity]
    and [len(TextBlob(s).sentences)]; the last one raises when the
    tokenizer cannot be loaded. *)
Variable polarity : string -> Q.
Variable subjectivity : string -> Q.
Variable sentences : string -> Py.result Z.

(** The body of the [try] block of [_process_comments]. *)
Definition process_comment (comment : RawComment) : Py.result Comment :=
  (author <- key "author" (rc_author comment) ;;
   text <- key "text" (rc_text comment) ;;
   score <- key "score" (rc_score comment) ;;
   created_utc <- key "created_utc" (rc_created_utc comment) ;;
   created_utc <- to_datetime created_utc ;;
   ret {| c_author := str author;
          c_text := Text._clean_text text;
          c_score := score;
          c_created_utc := created_utc;
          c_word_count := Text.word_count (str text);
          c_sentiment := polarity (str text) |})%py.

Fixpoint _process_comments (comments : list RawComment) : list Comment :=
  match comments with
  | [] => []
  | comment :: rest =>
      match process_comment comment with
      | Py.Ok processed_comment => processed_comment :: _process_comments rest
      | Py.Raise _ => _process_comments rest
      end
  end.

(** One row up to the comment features, for a given number of sentences:
    cleaning, time features, text features and the features of the processed
    comments. *)
Definition derive_row (sentence_count : Z) (r : RawPost) : ProcessedPost :=
  let clean_title := Text._clean_text (raw_title r) in
  let clean_text := Text._clean_text (raw_text r) in
  let time := TimeFeatures._extract_time_features (raw_created_utc r) in
  let comment_features := _extract_comment_features (_process_comments (raw_comments r)) in
  {| post :=
       concat_comment_features
         {| author := raw_author r;
            hour_posted := TimeFeatures.tf_hour_posted time;
            is_weekend := TimeFeatures.tf_is_weekend time;
            sentiment_polarity := polarity clean_text;
            total_comments := None;
            avg_words_per_comment := None;
            comment_sentiment_mean := None;
            post_avg_response_time := None;
            post_engagement_level := None;
            user_response_category := None;
            communication_style := EmptyString |}
         comment_features;
     clean_title := clean_title;
     clean_text := clean_text;
     day_of_week := TimeFeatures.tf_day_of_week time;
     time_of_day := TimeFeatures.tf_time_of_day time;
     word_count := Text.word_count clean_text;
     sentence_count := sentence_count;
     avg_word_length := Text._average_word_length clean_text;
     sentiment_subjectivity := subjectivity clean_text;
     avg_comment_length := cf_avg_comment_length comment_features |}.

(** The only step of a row that can raise is the count of its sentences. *)
Definition derive (r : RawPost) : Py.result ProcessedPost :=
  (sentence_count <- sentences (Text._clean_text (raw_text r)) ;;
   ret (derive_row sentence_count r))%py.

Definition set_post (row : Post) (p : ProcessedPost) : ProcessedPost :=
  {| post := row;
     clean_title := clean_title p;
     clean_text := clean_text p;
     day_of_week := day_of_week p;
     time_of_day := time_of_day p;
     word_count := word_count p;
     sentence_count := sentence_count p;
     avg_word_length := avg_word_length p;
     sentiment_subjectivity := sentiment_subjectivity p;
     avg_comment_length := avg_comment_length p |}.

(** The block "Engagement and patterns" of [preprocess_data]. *)
Definition engagement_and_patterns (df : list Post) : list Post :=
  let df := _calculate_engagement_levels df in
  let df := _extract_user_patterns df in
  _extract_communication_features df.

(** [preprocess_data] on the frame [pd.DataFrame(data)] of the collected
    posts.  The frame of an empty collection has no column, so that the
    first column read raises [KeyError]; otherwise every stage adds columns
    and keeps the rows in place, and an exception of the tokenizer is raised
    again. *)
Definition preprocess_data (df : list RawPost) : Py.result (list ProcessedPost) :=
  match df with
  | [] => Py.Raise (Py.KeyError "title")
  | _ :: _ =>
      (processed_df <- Py.traverse derive df ;;
       let rows := engagement_and_patterns (map post processed_df) in
       ret (map (fun pr => set_post (snd pr) (fst pr)) (combine processed_df rows)))%py
  end.

End TextBlob.

End Preprocess.

(** ** The prompt and the data file (main.py) *)

Module Interactive.

(** [d.get(k, default)] *)
Definition dict_get {V : Type} (d : list (string * V)) (k : string) (default : V) : V :=
  Py.try_except (Py.getitem d k) (fun _ => default).

(** [get_user_preferences]; the three arguments are the answers typed at the
    three prompts. *)
Definition get_user_preferences (style_choice time_choice engagement_choice : string)
  : Preferences :=
  {| pref_communication_style :=
       dict_get [("1", "positive"); ("2", "neutral"); ("3", "critical")]%string
                style_choice "neutral"%string;
     pref_response_time :=
       dict_get [("1"%string, 1); ("2"%string, 6); ("3"%string, 24)] time_choice 6;
     pref_engagement_level :=
       dict_get [("1", "high"); ("2", "medium"); ("3", "low")]%string
                engagement_choice "medium"%string |}.

(** [max(data_files)] for a non-empty list of names: the first of the
    greatest names. *)
Fixpoint max_name (first : string) (rest : list string) : string :=
  match rest with
  | [] => first
  | f :: rest' => max_name (if String.ltb first f then f else first) rest'
  end.

(** The file that [load_latest_data] opens among the names of the raw
    directory; [None] stands for its [FileNotFoundError]. *)
Definition latest_data_file (listing : list string) : option string :=
  match filter (String.prefix "dating_posts_") listing with
  | [] => None
  | f :: data_files => Some ("data/raw/" ++ max_name f data_files)%string
  end.

End Interactive.

(** ** The dashboard (visualizer.py) *)

Module Visualizer.

(** The lambda behind the pie of communication styles. *)
Definition pie_style (x : UserBehavior) : string :=
  if Py.gt (sentiment_mean x) 0.2 then "Positive"
  else if Py.lt (sentiment_mean x) (-0.2) then "Negative"
  else "Neutral".

End Visualizer.

(** ** Printing the matches (main.py) *)

Module Printer.

(** [l[0]] *)
Definition item0 {A : Type} (l : list A) : Py.result A :=
  match l with
  | [] => Py.Raise Py.IndexError
  | x :: _ => Py.Ok x
  end.

(** [s.strip(c)] for a single character [c]. *)
Fixpoint lstrip_char (c : ascii) (s : string) : string :=
  match s with
  | EmptyString => EmptyString
  | String a r => if Ascii.eqb a c then lstrip_char c r else s
  end.

Fixpoint rstrip_char (c : ascii) (s : string) : string :=
  match s with
  | EmptyString => EmptyString
  | String a r =>
      match rstrip_char c r with
      | EmptyString => if Ascii.eqb a c then EmptyString else String a EmptyString
      | r' => String a r'
      end
  end.

Definition strip_char (c : ascii) (s : string) : string := rstrip_char c (lstrip_char c s).

(** The number written by a run of decimal digits; the empty run counts 0. *)
Definition digits (s : string) : option Z :=
  option_map Z.of_uint (NilEmpty.uint_of_string s).

(** A literal cut at its first point. *)
Fixpoint cut_at_point (s : string) : string * option string :=
  match s with
  | EmptyString => (EmptyString, None)
  | String c r =>
      if Ascii.eqb c "." then (EmptyString, Some r)
      else let (whole, fraction) := cut_at_point r in (String c whole, fraction)
  end.

Definition unsigned_float (s : string) : Py.result Q :=
  let (whole, point) := cut_at_point s in
  let fraction := match point with Some f => f | None => EmptyString end in
  match whole, fraction with
  | EmptyString, EmptyString => Py.Raise (Py.ValueError "could not convert string to float")
  | _, _ =>
      match digits whole, digits fraction with
      | Some n, Some m =>
          Py.Ok (inject_Z n + inject_Z m / inject_Z (10 ^ Z.of_nat (String.length fraction)))
      | _, _ => Py.Raise (Py.ValueError "could not convert string to float")
      end
  end.

(** [float(s)] for a decimal literal: an optional sign, digits and an
    optional fraction.  The other spellings that Python reads (exponents,
    underscores, white space around the literal, [inf], [nan]) are not in
    the model: they do not occur in the strings of a profile view. *)
Definition float (s : string) : Py.result Q :=
  match s with
  | EmptyString => Py.Raise (Py.ValueError "could not convert string to float")
  | String c r =>
      if Ascii.eqb c "-" then (x <- unsigned_float r ;; ret (- x))%py
      else if Ascii.eqb c "+" then unsigned_float r
      else unsigned_float s
  end.

(** The compatibility factors that [print_matches] lists for one match. *)
Definition compatibility_factors (profile : ProfileView) : Py.result (list string) :=
  let style :=
    if String.eqb (view_communication_style profile) "Positive" then ["Positive communicator"%string]
    else if String.eqb (view_communication_style profile) "Neutral" then ["Balanced communicator"%string]
    else [] in
  (word <- item0 (Text.split (view_response_time profile)) ;;
   response_time <- float word ;;
   let speed :=
     if Py.lt response_time 1 then ["Quick responder"%string]
     else if Py.lt response_time 3 then ["Timely responder"%string]
     else [] in
   let engagement :=
     if String.eqb (view_engagement_level profile) "high" then ["Highly engaged"%string]
     else if String.eqb (view_engagement_level profile) "medium" then ["Consistently engaged"%string]
     else [] in
   weekend_activity <- float (strip_char "%" (view_weekend_activity profile)) ;;
   let weekend :=
     if Py.gt weekend_activity 50 then ["Active on weekends"%string] else [] in
   ret (style ++ speed ++ engagement ++ weekend))%py.

Definition isdigit (c : ascii) : bool :=
  let n := Text.code c in ((48 <=? n) && (n <=? 57))%nat.

(** The characters of a number printed with [:.1f]. *)
Definition numeric (c : ascii) : bool :=
  isdigit c || Ascii.eqb c "." || Ascii.eqb c "-".

End Printer.

(** ** Saving a collection (data_collection.py) *)

Module Collector.

(** A reading of the clock, [datetime.now()]. *)
Record datetime : Type := {
  dt_year : nat;
  dt_month : nat;
  dt_day : nat;
  dt_hour : nat;
  dt_minute : nat;
  dt_second : nat
}.

(** The readings of a clock; in years of four digits, for which [%Y] has a
    fixed width. *)
Definition valid (now : datetime) : bool :=
  ((10 * 100 <=? dt_year now) && (dt_year now <? 100 * 100)
   && (1 <=? dt_month now) && (dt_month now <=? 12)
   && (1 <=? dt_day now) && (dt_day now <=? 31)
   && (dt_hour now <=? 23) && (dt_minute now <=? 59) && (dt_second now <=? 59))%nat.

Definition digit (n : nat) : ascii := ascii_of_nat (48 + n).

(** The directives [%m], [%d], [%H], [%M] and [%S]: two digits. *)
Definition two_digits (n : nat) : string :=
  String (digit (n / 10)) (String (digit (n mod 10)) EmptyString).

(** The directive [%Y]. *)
Definition four_digits (n : nat) : string :=
  (two_digits (n / 100) ++ two_digits (n mod 100))%string.

(** [now.strftime('%Y%m%d_%H%M%S')] *)
Definition strftime (now : datetime) : string :=
  (four_digits (dt_year now) ++ two_digits (dt_month now) ++ two_digits (dt_day now)
   ++ "_" ++ two_digits (dt_hour now) ++ two_digits (dt_minute now)
   ++ two_digits (dt_second now))%string.

(** The name that the file gets in the raw directory. *)
Definition file_name (filename : string) (now : datetime) : string :=
  (filename ++ "_" ++ strftime now ++ ".json")%string.

(** The path returned by [save_data(data, filename)] when the clock reads
    [now]. *)
Definition save_data (filename : string) (now : datetime) : string :=
  ("data/raw/" ++ file_name filename now)%string.

(** The order of two readings: by year, then month, day, hour, minute and
    second. *)
Definition then_by (c rest : comparison) : comparison :=
  match c with
  | Eq => rest
  | Lt => Lt
  | Gt => Gt
  end.

Definition clock_compare (a b : datetime) : comparison :=
  then_by (dt_year a ?= dt_year b)%nat
    (then_by (dt_month a ?= dt_month b)%nat
       (then_by (dt_day a ?= dt_day b)%nat
          (then_by (dt_hour a ?= dt_hour b)%nat
             (then_by (dt_minute a ?= dt_minute b)%nat
                (dt_second a ?= dt_second b)%nat)))).

End Collector.

(** ** Notions used to state the properties *)

Module Spec.

Import DataProcessor BehaviorAnalyzer RedditDatingAnalysis.

(** The entry the loop of [find_matches] appends for a label. *)
Definition entry (preferences : Preferences) (behavior_data : list (string * UserBehavior))
    (u : string) : Match :=
  {| user := u;
     score := match loc behavior_data u with
              | Some row => calculate_match_score preferences row
              | None => 0
              end;
     profile := get_user_profile u behavior_data |}.

(** The view of an author that is not in the table. *)
Definition default_view : ProfileView :=
  {| view_response_time := "0 hours";
     view_message_frequency := 0;
     view_engagement_level := "medium";
     view_communication_style := "neutral";
     view_active_hours := 0;
     view_weekend_activity := "0%" |}.

(** The tie-break in the spec's words: among the most frequent bins, the one
    met first in post order. *)
Definition first_encountered_mode (xs : list Engagement) : option Engagement :=
  let top := Nat.max (count_level low xs) (Nat.max (count_level medium xs) (count_level high xs)) in
  find (fun l => (count_level l xs =? top)%nat) xs.




(** Two rows that agree on every column but [engagement_level]. *)
Definition same_but_level (p q : Post) : Prop :=
  author p = author q /\ hour_posted p = hour_posted q /\ is_weekend p = is_weekend q /\
  sentiment_polarity p = sentiment_polarity q /\ total_comments p = total_comments q /\
  avg_words_per_comment p = avg_words_per_comment q /\
  comment_sentiment_mean p = comment_sentiment_mean q /\
  post_avg_response_time p = post_avg_response_time q /\
  user_response_category p = user_response_category q /\
  communication_style p = communication_style q.

End Spec.

(** ** Inputs of the worked examples *)

Module Examples.

Import DataProcessor BehaviorAnalyzer RecommendationSystem.

(** The profile and the preferences of the worked example. *)
Definition example_profile : UserBehavior :=
  {| avg_response_time := 1;
     message_frequency := 5;
     avg_message_length := 0;
     sentiment_mean := 0.3;
     engagement_level := "high";
     active_hours := 0;
     weekend_activity := 0 |}.

Definition example_preferences : Preferences :=
  {| pref_communication_style := "positive";
     pref_response_time := 1;
     pref_engagement_level := "high" |}.

(** A profile whose engagement level is not one of the three bins, and a
    table that holds it next to the profile of the worked example. *)
Definition failing_profile : UserBehavior :=
  {| avg_response_time := 1;
     message_frequency := 5;
     avg_message_length := 0;
     sentiment_mean := 0;
     engagement_level := "unknown";
     active_hours := 0;
     weekend_activity := 0 |}.

Definition mixed_table : list (string * UserBehavior) :=
  [("a"%string, failing_profile); ("b"%string, example_profile)].

(** A table with one known author. *)
Definition one_user_table : list (string * UserBehavior) :=
  [("alice"%string, example_profile)].

(** A comment posted [hours] hours after the epoch. *)
Definition comment_at (hours : Z) : Comment :=
  {| c_author := "someone";
     c_text := "fine by me";
     c_score := Some 1%Z;
     c_created_utc := Some (hours * 3600 * 1000000000)%Z;
     c_word_count := 3;
     c_sentiment := 0 |}.

(** A comment posted [seconds] seconds after the epoch. *)
Definition comment_after (seconds : Z) : Comment :=
  {| c_author := "someone";
     c_text := "fine by me";
     c_score := Some 1%Z;
     c_created_utc := Some (seconds * 1000000000)%Z;
     c_word_count := 3;
     c_sentiment := 0 |}.

(** A comment whose sentiment is the double written [s]. *)
Definition comment_feeling (s : Q) : Comment :=
  {| c_author := "someone";
     c_text := "fine by me";
     c_score := Some 1%Z;
     c_created_utc := Some 0%Z;
     c_word_count := 3;
     c_sentiment := F64.round s |}.

(** A post of author [a] binned [l]. *)
Definition post_of (a : string) (l : Engagement) : Post :=
  {| author := a; hour_posted := 9; is_weekend := 0; sentiment_polarity := 0;
     total_comments := Some 0; avg_words_per_comment := Some 0;
     comment_sentiment_mean := Some 0; post_avg_response_time := Some 0;
     post_engagement_level := Some l; user_response_category := None;
     communication_style := "neutral" |}.

(** One author, a medium post followed by a low one. *)
Definition tie_posts : list Post := [post_of "u" medium; post_of "u" low].

(** Three fitted rows, the first two with the same features. *)
Definition twin_model : NearestNeighbors :=
  fit (new cosine_distance) [[1; 0]; [1; 0]; [0; 1]].

(** Three fitted rows with pairwise different directions. *)
Definition spread_rows : list vector := [[1; 0]; [3; 4]; [0; 1]].
Definition spread_model : NearestNeighbors := fit (new cosine_distance) spread_rows.

(** Two fitted rows only. *)
Definition small_model : NearestNeighbors := fit (new cosine_distance) [[1; 0]; [3; 4]].





End Examples.

(** ** Notions and examples for the preprocessing and the prompt *)

Module Notions.

Import DataProcessor BehaviorAnalyzer Preprocess.

(** One of the three engagement labels. *)
Definition valid_level (l : string) : Prop :=
  l = "low"%string \/ l = "medium"%string \/ l = "high"%string.

(** One of the three labels of [_extract_communication_features]. *)
Definition style_label (s : string) : Prop :=
  s = "positive"%string \/ s = "critical"%string \/ s = "neutral"%string.

(** The sum of the column [message_frequency]. *)
Definition total_frequency (table : list (string * UserBehavior)) : Z :=
  fold_right (fun r acc => (message_frequency (snd r) + acc)%Z) 0%Z table.

(** The three columns written by the block "Engagement and patterns", for a
    given assignment of categories to authors. *)
Definition written_columns (category_of : string -> ResponseCategory) (p : Post) : Post :=
  set_communication_style (style_of_polarity (sentiment_polarity p))
    (set_user_response_category (Some (category_of (author p)))
       (set_engagement_level
          (bins_to_cuts engagement_bins engagement_labels false (engagement_score p)) p)).

Definition present {A : Type} (v : option A) : bool :=
  match v with Some _ => true | None => false end.

(** A key that is in the dictionary, whatever its value. *)
Definition has_key {A : Type} (v : field A) : bool :=
  match v with Absent => false | _ => true end.

(** The value of a key: [None] for [null] (and for an absent key). *)
Definition value {A : Type} (v : field A) : option A :=
  match v with Value a => Some a | _ => None end.

(** A comment that has its four keys and whose time, unless it is [null],
    can be read. *)
Definition readable (c : RawComment) : bool :=
  has_key (rc_author c) && has_key (rc_text c) && has_key (rc_score c)
  && match rc_created_utc c with
     | Value (Some _) | Null => true
     | Value None | Absent => false
     end.

(** The time of a comment that can be read: [None] for [null]. *)
Definition time_of (c : RawComment) : option Z :=
  match rc_created_utc c with
  | Value (Some t) => Some t
  | _ => None
  end.

End Notions.

Module Samples.

(** A listing of the raw directory. *)
Definition raw_listing : list string :=
  ["notes.txt"; "dating_posts_20240102_101500.json";
   "dating_posts_20240301_090000.json"; "dating_posts_20240215_120000.json"]%string.

(** A collection of three posts by two authors; the second comment of the
    first post lacks the key [text]. *)
Definition raw_frame : list Preprocess.RawPost :=
  [ {| Preprocess.raw_title := Some "First date?"%string;
       Preprocess.raw_text := Some "Where to go, see http://example.com"%string;
       Preprocess.raw_author := "ann"%string;
       Preprocess.raw_created_utc := 0%Z;
       Preprocess.raw_comments :=
         [ {| Preprocess.rc_author := Preprocess.Value "bob"%string;
              Preprocess.rc_text := Preprocess.Value "A walk!"%string;
              Preprocess.rc_score := Preprocess.Value 2%Z;
              Preprocess.rc_created_utc := Preprocess.Value (Some 3600000000000%Z) |};
           {| Preprocess.rc_author := Preprocess.Value "cy"%string;
              Preprocess.rc_text := Preprocess.Absent;
              Preprocess.rc_score := Preprocess.Value 1%Z;
              Preprocess.rc_created_utc := Preprocess.Value (Some 7200000000000%Z) |} ] |};
    {| Preprocess.raw_title := None;
       Preprocess.raw_text := Some "Coffee"%string;
       Preprocess.raw_author := "bob"%string;
       Preprocess.raw_created_utc := 200000000000000%Z;
       Preprocess.raw_comments := [] |};
    {| Preprocess.raw_title := Some "Again"%string;
       Preprocess.raw_text := None;
       Preprocess.raw_author := "ann"%string;
       Preprocess.raw_created_utc := 300000000000000%Z;
       Preprocess.raw_comments := [] |} ].

(** The clock readings at which the three collections of [raw_listing] were
    saved. *)
Definition saves : list Collector.datetime :=
  [ {| Collector.dt_year := 2024; Collector.dt_month := 1; Collector.dt_day := 2; Collector.dt_hour := 10; Collector.dt_minute := 15; Collector.dt_second := 0 |};
    {| Collector.dt_year := 2024; Collector.dt_month := 3; Collector.dt_day := 1; Collector.dt_hour := 9; Collector.dt_minute := 0; Collector.dt_second := 0 |};
    {| Collector.dt_year := 2024; Collector.dt_month := 2; Collector.dt_day := 15; Collector.dt_hour := 12; Collector.dt_minute := 0; Collector.dt_second := 0 |} ].

End Samples.

(** * Properties *)

(** ** Facts about the runtime helpers *)

Module PyFacts.

Lemma le_iff (x y : Q) : Py.le x y = true <-> x <= y.
Proof. apply Qle_bool_iff. Qed.

Lemma lt_iff (x y : Q) : Py.lt x y = true <-> x < y.
Proof.
  unfold Py.lt. rewrite negb_true_iff. split; intro H.
  - apply Qnot_le_lt. intro Hle. apply Qle_bool_iff in Hle. congruence.
  - destruct (Qle_bool y x) eqn:E; [|reflexivity].
    apply Qle_bool_iff in E. exfalso. apply (Qlt_not_le _ _ H E).
Qed.

Lemma lt_false_iff (x y : Q) : Py.lt x y = false <-> y <= x.
Proof.
  unfold Py.lt. rewrite negb_false_iff. apply Qle_bool_iff.
Qed.

Lemma gt_iff (x y : Q) : Py.gt x y = true <-> y < x.
Proof. apply lt_iff. Qed.

Lemma max_ge_left (a b : Q) : a <= Py.max a b.
Proof.
  unfold Py.max, Py.gt. destruct (Py.lt a b) eqn:E.
  - apply lt_iff in E. apply Qlt_le_weak, E.
  - apply Qle_refl.
Qed.

Lemma min_le_left (a b : Q) : Py.min a b <= a.
Proof.
  unfold Py.min. destruct (Py.lt b a) eqn:E.
  - apply lt_iff in E. apply Qlt_le_weak, E.
  - apply Qle_refl.
Qed.

Lemma min_glb (c a b : Q) : c <= a -> c <= b -> c <= Py.min a b.
Proof. intros Ha Hb. unfold Py.min. destruct (Py.lt b a); assumption. Qed.

(** The clamp [min(100, max(0, s))] lands in [0, 100] whatever [s] is. *)
Lemma clamp_bounds (s : Q) : 0 <= Py.min 100 (Py.max 0 s) <= 100.
Proof.
  split.
  - apply min_glb; [discriminate | apply max_ge_left].
  - apply min_le_left.
Qed.

Lemma traverse_ok {A B : Type} (f : A -> Py.result B) (g : A -> B) (l : list A) :
  (forall x, In x l -> f x = Py.Ok (g x)) -> Py.traverse f l = Py.Ok (map g l).
Proof.
  induction l as [|x l IH]; intros H; simpl; [reflexivity|].
  rewrite (H x (or_introl eq_refl)), IH; [reflexivity|].
  intros y Hy. apply H. now right.
Qed.

Lemma traverse_raise {A B : Type} (f : A -> Py.result B) (l : list A) (x : A) (e : Py.exn) :
  In x l -> f x = Py.Raise e -> exists e', Py.traverse f l = Py.Raise e'.
Proof.
  induction l as [|y l IH]; intros Hin Hf; [contradiction|].
  simpl. destruct Hin as [->|Hin].
  - rewrite Hf. now exists e.
  - destruct (f y); [|eauto]. destruct (IH Hin Hf) as [e' ->]. eauto.
Qed.

Lemma traverse_forall2 {A B : Type} (f : A -> Py.result B) (P : A -> B -> Prop) (l : list A) :
  (forall x, In x l -> exists y, f x = Py.Ok y /\ P x y) ->
  exists ys, Py.traverse f l = Py.Ok ys /\ Forall2 P l ys.
Proof.
  induction l as [|x l IH]; intros H.
  - exists []. split; [reflexivity|constructor].
  - destruct (H x (or_introl eq_refl)) as [y [Hy HP]].
    destruct IH as [ys [Hys HF]]; [intros z Hz; apply H; now right|].
    exists (y :: ys). simpl. rewrite Hy, Hys. split; [reflexivity|now constructor].
Qed.

Lemma traverse_keys {K V : Type} (f : K -> Py.result V) (l : list K) (ys : list (K * V)) :
  Py.traverse (fun u => (m <- f u ;; ret (u, m))%py) l = Py.Ok ys -> map fst ys = l.
Proof.
  revert ys. induction l as [|u l IH]; intros ys; simpl.
  - intros H. injection H as <-. reflexivity.
  - destruct (f u) as [m|e]; cbn [Py.bind]; [|discriminate].
    destruct (Py.traverse _ l) as [zs|e]; [|discriminate].
    intros H. injection H as <-. simpl. f_equal. now apply IH.
Qed.

End PyFacts.

(** ** Binary64 arithmetic *)

Module F64Facts.

Import F64.

Lemma two_pos (e : Z) : 0 < 2 ^ e.
Proof. apply Qpower_0_lt. reflexivity. Qed.

Lemma two_nonzero : ~ 2 == 0.
Proof. discriminate. Qed.

Lemma two_of_Z (a : Z) : (0 <= a)%Z -> inject_Z (2 ^ a) == 2 ^ a.
Proof. intros H. now rewrite Zpower_Qpower. Qed.

(** *** Rounding to an integer *)

Lemma round_half_even_floor (y : Q) :
  (Qnum y / Zpos (Qden y) <= Py.round_half_even y <= Qnum y / Zpos (Qden y) + 1)%Z.
Proof.
  unfold Py.round_half_even. cbv zeta.
  destruct (2 * (Qnum y mod Zpos (Qden y)) ?= Zpos (Qden y))%Z; [destruct (Z.even _)| |]; lia.
Qed.

Lemma round_half_even_lower (y : Q) (k : Z) :
  inject_Z k <= y -> (k <= Py.round_half_even y)%Z.
Proof.
  intros H. pose proof (round_half_even_floor y) as [F _].
  destruct y as [n d]. unfold Qle in H. cbn in *.
  assert (k <= n / Zpos d)%Z; [|lia].
  apply Z.div_le_lower_bound; lia.
Qed.

Lemma round_half_even_upper (y : Q) (k : Z) :
  y <= inject_Z k -> (Py.round_half_even y <= k)%Z.
Proof.
  intros H. destruct y as [n d]. unfold Qle in H. cbn in H.
  unfold Py.round_half_even. cbn [Qnum Qden]. cbv zeta.
  pose proof (Z.div_mod n (Zpos d) ltac:(lia)) as E.
  pose proof (Z.mod_pos_bound n (Zpos d) ltac:(lia)) as B.
  assert (Hq : (n / Zpos d <= k)%Z).
  { apply Z.div_le_upper_bound; lia. }
  destruct (2 * (n mod Zpos d) ?= Zpos d)%Z eqn:C; [destruct (Z.even _)| |]; try lia.
  - apply Z.compare_eq_iff in C.
    assert (n / Zpos d <> k)%Z; [|lia]. intros Hk. rewrite Hk in E. nia.
  - apply Z.compare_gt_iff in C.
    assert (n / Zpos d <> k)%Z; [|lia]. intros Hk. rewrite Hk in E. nia.
Qed.


(** *** The leading bit *)

Lemma Qabs_as_div (x : Q) :
  Qabs x == inject_Z (Z.abs (Qnum x)) / inject_Z (Zpos (Qden x)).
Proof. destruct x as [n d]. cbn [Qabs Qnum Qden]. apply Qmake_Qdiv. Qed.

Lemma inject_Z_pos (z : Z) : (0 < z)%Z -> 0 < inject_Z z.
Proof. intros H. change 0 with (inject_Z 0). now rewrite <- Zlt_Qlt. Qed.

Lemma fraction_lt (n d p q : Z) :
  (0 < d)%Z -> (0 < q)%Z -> (n * q < p * d)%Z ->
  inject_Z n / inject_Z d < inject_Z p / inject_Z q.
Proof.
  intros Hd Hq H.
  apply Qlt_shift_div_l; [now apply inject_Z_pos|].
  setoid_replace (inject_Z n / inject_Z d * inject_Z q)
    with (inject_Z n * inject_Z q / inject_Z d).
  - apply Qlt_shift_div_r; [now apply inject_Z_pos|].
    rewrite <- !inject_Z_mult. now rewrite <- Zlt_Qlt.
  - field. intros E. apply inject_Z_pos in Hd. rewrite E in Hd. discriminate Hd.
Qed.

Lemma fraction_le (n d p q : Z) :
  (0 < d)%Z -> (0 < q)%Z -> (p * d <= n * q)%Z ->
  inject_Z p / inject_Z q <= inject_Z n / inject_Z d.
Proof.
  intros Hd Hq H.
  apply Qle_shift_div_l; [now apply inject_Z_pos|].
  setoid_replace (inject_Z p / inject_Z q * inject_Z d)
    with (inject_Z p * inject_Z d / inject_Z q).
  - apply Qle_shift_div_r; [now apply inject_Z_pos|].
    rewrite <- !inject_Z_mult. now rewrite <- Zle_Qle.
  - field. intros E. apply inject_Z_pos in Hq. rewrite E in Hq. discriminate Hq.
Qed.

Lemma ilog2_spec (x : Q) :
  ~ x == 0 -> 2 ^ ilog2 x <= Qabs x /\ Qabs x < 2 ^ (ilog2 x + 1).
Proof.
  intros Hx.
  assert (Hn : (0 < Z.abs (Qnum x))%Z).
  { destruct x as [[|n|n] d]; try reflexivity. exfalso. apply Hx. reflexivity. }
  set (n := Z.abs (Qnum x)) in *. set (d := Zpos (Qden x)).
  assert (Hd : (0 < d)%Z) by reflexivity.
  pose proof (Z.log2_spec n Hn) as [Ln Un].
  pose proof (Z.log2_spec d Hd) as [Ld Ud].
  pose proof (Z.log2_nonneg n) as Na. pose proof (Z.log2_nonneg d) as Nb.
  set (a := Z.log2 n) in *. set (b := Z.log2 d) in *.
  assert (Pa : (0 < 2 ^ a)%Z) by (apply Z.pow_pos_nonneg; lia).
  assert (Pb : (0 < 2 ^ b)%Z) by (apply Z.pow_pos_nonneg; lia).
  assert (Hupper : Qabs x < 2 ^ (a - b + 1)).
  { replace (a - b + 1)%Z with (Z.succ a - b)%Z by lia.
    rewrite Qpower_minus by exact two_nonzero.
    rewrite <- !two_of_Z by lia. rewrite Qabs_as_div. fold n d.
    apply fraction_lt; [lia|lia|nia]. }
  assert (Hlower : 2 ^ (a - b - 1) <= Qabs x).
  { replace (a - b - 1)%Z with (a - Z.succ b)%Z by lia.
    rewrite Qpower_minus by exact two_nonzero.
    rewrite <- !two_of_Z by lia. rewrite Qabs_as_div. fold n d.
    assert (Pb' : (0 < 2 ^ Z.succ b)%Z) by (apply Z.pow_pos_nonneg; lia).
    apply fraction_le; [lia|lia|nia]. }
  unfold ilog2. cbv zeta. fold n d a b.
  destruct (Qle_bool (2 ^ (a - b)) (Qabs x)) eqn:E.
  - apply Qle_bool_iff in E. split; assumption.
  - split; [exact Hlower|].
    replace (a - b - 1 + 1)%Z with (a - b)%Z by lia.
    apply Qnot_le_lt. intros C. apply Qle_bool_iff in C. congruence.
Qed.

Lemma ilog2_unique (y : Q) (a b : Z) :
  2 ^ a <= y -> y < 2 ^ (a + 1) -> 2 ^ b <= y -> y < 2 ^ (b + 1) -> a = b.
Proof.
  intros La Ua Lb Ub.
  assert (H1 : 2 ^ a < 2 ^ (b + 1)) by (eapply Qle_lt_trans; eassumption).
  assert (H2 : 2 ^ b < 2 ^ (a + 1)) by (eapply Qle_lt_trans; eassumption).
  apply Qpower_lt_compat_l_inv in H1; [|reflexivity].
  apply Qpower_lt_compat_l_inv in H2; [|reflexivity]. lia.
Qed.

Lemma ilog2_bounds (x : Q) (k : Z) :
  2 ^ k <= x -> x < 2 ^ (k + 1) -> ilog2 x = k.
Proof.
  intros L U.
  assert (Hpos : 0 < x) by (eapply Qlt_le_trans; [apply (two_pos k)|exact L]).
  assert (Hx : ~ x == 0) by (intros E; rewrite E in Hpos; discriminate Hpos).
  destruct (ilog2_spec x Hx) as [L' U'].
  rewrite (Qabs_pos x) in L', U' by (apply Qlt_le_weak; exact Hpos).
  exact (ilog2_unique x _ _ L' U' L U).
Qed.

(** *** Rounding to binary64 *)


(** The rounded value, up to [==], without the normal forms. *)
Lemma round_value (x : Q) :
  ~ x == 0 ->
  round x == inject_Z (Py.round_half_even (Qred x / 2 ^ quantum (Qred x))) * 2 ^ quantum (Qred x).
Proof.
  intros Hx. unfold round. cbv zeta.
  destruct (Qeq_bool (Qred x) 0) eqn:E.
  - apply Qeq_bool_iff in E. rewrite Qred_correct in E. contradiction.
  - apply Qred_correct.
Qed.

Lemma round_zero (x : Q) : x == 0 -> round x = 0.
Proof.
  intros Hx. unfold round. cbv zeta.
  destruct (Qeq_bool (Qred x) 0) eqn:E; [reflexivity|].
  apply Qeq_bool_neq in E. rewrite Qred_correct in E. contradiction.
Qed.

Lemma round_nonneg (x : Q) : 0 <= x -> 0 <= round x.
Proof.
  intros Hx. destruct (Qeq_dec x 0) as [E|E]; [rewrite (round_zero x E); apply Qle_refl|].
  rewrite (round_value x E).
  apply Qmult_le_0_compat; [|apply Qlt_le_weak, two_pos].
  change 0 with (inject_Z 0). rewrite <- Zle_Qle.
  apply round_half_even_lower. change (inject_Z 0) with 0.
  apply Qle_shift_div_l; [apply two_pos|]. rewrite Qmult_0_l, Qred_correct. exact Hx.
Qed.

(** A positive number is rounded within its binade, on the grid of the
    binade. *)
Lemma round_grid (x : Q) (k : Z) :
  2 ^ k <= x -> x < 2 ^ (k + 1) -> (-1022 <= k)%Z ->
  exists m : Z,
    round x == inject_Z m * 2 ^ (k - 52) /\ (2 ^ 52 <= m <= 2 ^ 53)%Z.
Proof.
  intros L U Hk.
  assert (Hpos : 0 < x) by (eapply Qlt_le_trans; [apply (two_pos k)|exact L]).
  assert (Hx : ~ x == 0) by (intros E; rewrite E in Hpos; discriminate Hpos).
  assert (Hq : quantum (Qred x) = (k - 52)%Z).
  { unfold quantum. rewrite (ilog2_bounds (Qred x) k); [lia| |]; now rewrite Qred_correct. }
  exists (Py.round_half_even (Qred x / 2 ^ (k - 52))).
  split; [rewrite (round_value x Hx), Hq; reflexivity|]. split.
  - apply round_half_even_lower. rewrite two_of_Z by lia.
    apply Qle_shift_div_l; [apply two_pos|].
    rewrite <- Qpower_plus by exact two_nonzero.
    replace (52 + (k - 52))%Z with k by lia. now rewrite Qred_correct.
  - apply round_half_even_upper. rewrite two_of_Z by lia.
    apply Qle_shift_div_r; [apply two_pos|].
    rewrite <- Qpower_plus by exact two_nonzero.
    replace (53 + (k - 52))%Z with (k + 1)%Z by lia. rewrite Qred_correct.
    now apply Qlt_le_weak.
Qed.

Lemma round_lower (x : Q) (k : Z) :
  2 ^ k <= x -> (-1022 <= k)%Z -> 2 ^ k <= round x.
Proof.
  intros L Hk.
  assert (Hpos : 0 < x) by (eapply Qlt_le_trans; [apply (two_pos k)|exact L]).
  assert (Hx : ~ x == 0) by (intros E; rewrite E in Hpos; discriminate Hpos).
  destruct (ilog2_spec x Hx) as [L' U'].
  rewrite (Qabs_pos x) in L', U' by (apply Qlt_le_weak; exact Hpos).
  assert (Hkk : (k <= ilog2 x)%Z).
  { assert (H : 2 ^ k < 2 ^ (ilog2 x + 1)) by (eapply Qle_lt_trans; eassumption).
    apply Qpower_lt_compat_l_inv in H; [lia|reflexivity]. }
  destruct (round_grid x (ilog2 x) L' U' ltac:(lia)) as [m [-> [Hm _]]].
  apply Qle_trans with (2 ^ ilog2 x); [apply Qpower_le_compat_l; [exact Hkk|discriminate]|].
  replace (ilog2 x) with (52 + (ilog2 x - 52))%Z at 1 by lia.
  rewrite Qpower_plus by exact two_nonzero.
  apply Qmult_le_compat_r; [|apply Qlt_le_weak, two_pos].
  rewrite <- two_of_Z by lia. rewrite <- Zle_Qle. exact Hm.
Qed.

Lemma round_ge_1 (x : Q) : 1 <= x -> 1 <= round x.
Proof. intros H. apply (round_lower x 0); [exact H|lia]. Qed.


(** A literal that is rounded down: a rounded number that does not exceed
    the literal does not exceed its binary64 value either. *)
Lemma below_literal (c : Q) (k M : Z) (x : Q) :
  round c == inject_Z M * 2 ^ (k - 52) ->
  c < inject_Z (M + 1) * 2 ^ (k - 52) ->
  2 ^ k <= round c -> c < 2 ^ (k + 1) -> (-1022 <= k)%Z ->
  round x <= c -> round x <= round c.
Proof.
  intros Hc Hnext Hlow Hup Hk Hle.
  destruct (Qlt_le_dec (round c) (round x)) as [Hgt|]; [exfalso|assumption].
  destruct (Qlt_le_dec 0 x) as [Hpos|Hneg].
  2:{ assert (H0 : round x <= 0).
      { destruct (Qeq_dec x 0) as [E|E]; [rewrite (round_zero x E); apply Qle_refl|].
        rewrite (round_value x E).
        setoid_replace 0 with (0 * 2 ^ quantum (Qred x)) by (now rewrite Qmult_0_l).
        apply Qmult_le_compat_r; [|apply Qlt_le_weak, two_pos].
        change 0 with (inject_Z 0). rewrite <- Zle_Qle.
        apply round_half_even_upper. change (inject_Z 0) with 0.
        apply Qle_shift_div_r; [apply two_pos|]. now rewrite Qmult_0_l, Qred_correct. }
      pose proof (two_pos k). lra. }
  assert (Hx : ~ x == 0) by (intros E; rewrite E in Hpos; discriminate Hpos).
  destruct (ilog2_spec x Hx) as [L U].
  rewrite (Qabs_pos x) in L, U by (apply Qlt_le_weak; exact Hpos).
  destruct (Z_lt_le_dec (ilog2 x) k) as [Hlt|Hge].
  - (* a smaller binade: the rounded value stays below 2^k *)
    assert (Hr : round x <= 2 ^ k).
    { destruct (Z_lt_le_dec (ilog2 x) (-1022)) as [Hsub|Hnorm].
      - rewrite (round_value x Hx).
        assert (Hq : quantum (Qred x) = (-1074)%Z).
        { unfold quantum. rewrite (ilog2_bounds (Qred x) (ilog2 x)) by now rewrite Qred_correct.
          lia. }
        rewrite Hq.
        assert (Hm : (Py.round_half_even (Qred x / 2 ^ (-1074)) <= 2 ^ 52)%Z).
        { apply round_half_even_upper. rewrite two_of_Z by lia.
          apply Qle_shift_div_r; [apply two_pos|].
          rewrite <- Qpower_plus by exact two_nonzero. rewrite Qred_correct.
          apply Qlt_le_weak. eapply Qlt_le_trans; [exact U|].
          apply Qpower_le_compat_l; [lia|discriminate]. }
        apply Qle_trans with (inject_Z (2 ^ 52) * 2 ^ (-1074)).
        + apply Qmult_le_compat_r; [|apply Qlt_le_weak, two_pos]. now rewrite <- Zle_Qle.
        + rewrite two_of_Z by lia. rewrite <- Qpower_plus by exact two_nonzero.
          apply Qpower_le_compat_l; [lia|discriminate].
      - destruct (round_grid x (ilog2 x) L U Hnorm) as [m [-> [_ Hm]]].
        apply Qle_trans with (inject_Z (2 ^ 53) * 2 ^ (ilog2 x - 52)).
        + apply Qmult_le_compat_r; [|apply Qlt_le_weak, two_pos]. now rewrite <- Zle_Qle.
        + rewrite two_of_Z by lia. rewrite <- Qpower_plus by exact two_nonzero.
          apply Qpower_le_compat_l; [lia|discriminate]. }
    lra.
  - assert (Hk' : ilog2 x = k).
    { assert (Hr : 2 ^ ilog2 x <= round x) by (apply round_lower; [exact L|lia]).
      assert (H : 2 ^ ilog2 x < 2 ^ (k + 1)) by lra.
      apply Qpower_lt_compat_l_inv in H; [lia|reflexivity]. }
    rewrite Hk' in L, U.
    destruct (round_grid x k L U Hk) as [m [Em _]].
    rewrite Em, Hc in Hgt. rewrite Em in Hle.
    assert (H1 : (M < m)%Z).
    { apply Qmult_lt_r in Hgt; [|apply two_pos]. now rewrite <- Zlt_Qlt in Hgt. }
    assert (H2 : inject_Z m * 2 ^ (k - 52) < inject_Z (M + 1) * 2 ^ (k - 52)) by lra.
    apply Qmult_lt_r in H2; [|apply two_pos]. rewrite <- Zlt_Qlt in H2. lia.
Qed.

(** *** The literals of the engagement bins *)

Lemma le_03 (x : Q) : round x <= 0.3 -> round x <= round 0.3.
Proof.
  apply (below_literal 0.3 (-2) 5404319552844595 x); try (vm_compute; reflexivity);
    try (vm_compute; discriminate); lia.
Qed.

Lemma le_07 (x : Q) : round x <= 0.7 -> round x <= round 0.7.
Proof.
  apply (below_literal 0.7 (-1) 6305039478318694 x); try (vm_compute; reflexivity);
    try (vm_compute; discriminate); lia.
Qed.

(** *** Sums *)

Lemma add_nonneg (a b : Q) : 0 <= a -> 0 <= b -> 0 <= add a b.
Proof.
  intros Ha Hb. apply round_nonneg. change 0 with (0 + 0). now apply Qplus_le_compat.
Qed.

Lemma div_nonneg (a b : Q) : 0 <= a -> 0 <= b -> 0 <= div a b.
Proof.
  intros Ha Hb. apply round_nonneg. unfold Qdiv.
  apply Qmult_le_0_compat; [exact Ha|]. now apply Qinv_le_0_compat.
Qed.

Section Closure.

Variable P : Q -> Prop.
Hypothesis P_zero : P 0.
Hypothesis P_add : forall a b, P a -> P b -> P (add a b).

Lemma fold_add_closed (xs : list Q) (acc : Q) :
  P acc -> Forall P xs -> P (fold_left add xs acc).
Proof.
  revert acc. induction xs as [|x xs IH]; intros acc Ha Hx; [exact Ha|].
  inversion Hx; subst. cbn [fold_left]. apply IH; [now apply P_add|assumption].
Qed.

Lemma add_lanes_closed (r xs : list Q) :
  Forall P r -> Forall P xs -> Forall P (add_lanes r xs).
Proof.
  revert xs. induction r as [|a r IH]; intros xs Hr Hx; [constructor|].
  destruct xs as [|x xs]; [constructor|].
  inversion Hr; inversion Hx; subst. cbn [add_lanes].
  constructor; [now apply P_add|now apply IH].
Qed.

Lemma firstn_closed (n : nat) (xs : list Q) : Forall P xs -> Forall P (firstn n xs).
Proof.
  revert xs. induction n as [|n IH]; intros xs H; [constructor|].
  destruct xs as [|x xs]; [constructor|].
  inversion H; subst. cbn [firstn]. constructor; [assumption|now apply IH].
Qed.

Lemma skipn_closed (n : nat) (xs : list Q) : Forall P xs -> Forall P (skipn n xs).
Proof.
  revert xs. induction n as [|n IH]; intros xs H; [exact H|].
  destruct xs as [|x xs]; [constructor|].
  inversion H; subst. cbn [skipn]. now apply IH.
Qed.

Lemma unrolled_closed (fuel : nat) (r xs : list Q) :
  Forall P r -> Forall P xs ->
  Forall P (fst (unrolled fuel r xs)) /\ Forall P (snd (unrolled fuel r xs)).
Proof.
  revert r xs. induction fuel as [|fuel IH]; intros r xs Hr Hx; [now split|].
  cbn [unrolled]. destruct (8 <=? List.length xs)%nat; [|now split].
  apply IH; [apply add_lanes_closed; [exact Hr|now apply firstn_closed]|now apply skipn_closed].
Qed.

Lemma pair_lanes_closed (r : list Q) : Forall P r -> P (pair_lanes r).
Proof.
  intros H. unfold pair_lanes.
  repeat (destruct r as [|? r]; [exact P_zero|inversion H as [|? ? ? H']; subst; clear H;
                                  rename H' into H]).
  destruct r; [|exact P_zero]. repeat apply P_add; assumption.
Qed.

Lemma block_sum_closed (xs : list Q) : Forall P xs -> P (block_sum xs).
Proof.
  intros H. unfold block_sum.
  destruct (unrolled_closed (List.length xs) (firstn 8 xs) (skipn 8 xs)
              (firstn_closed 8 xs H) (skipn_closed 8 xs H)) as [Hr Hrest].
  destruct (unrolled _ _ _) as [r rest]. cbn [fst snd] in *.
  apply fold_add_closed; [now apply pair_lanes_closed|exact Hrest].
Qed.

Lemma pairwise_sum_closed (fuel : nat) (xs : list Q) :
  Forall P xs -> P (pairwise_sum fuel xs).
Proof.
  revert xs. induction fuel as [|fuel IH]; intros xs H; cbn [pairwise_sum];
    (destruct (List.length xs <? 8)%nat; [now apply fold_add_closed|]);
    (destruct (List.length xs <=? 128)%nat; [now apply block_sum_closed|]).
  - now apply block_sum_closed.
  - apply P_add; apply IH; [now apply firstn_closed|now apply skipn_closed].
Qed.

Lemma np_sum_closed (xs : list Q) : Forall P xs -> P (np_sum xs).
Proof. apply pairwise_sum_closed. Qed.

End Closure.

Lemma np_mean_nonneg (xs : list Q) : Forall (fun x => 0 <= x) xs -> 0 <= np_mean xs.
Proof.
  intros H. unfold np_mean. apply div_nonneg.
  - apply (np_sum_closed (fun x => 0 <= x)); [apply Qle_refl|exact add_nonneg|exact H].
  - change 0 with (inject_Z 0). rewrite <- Zle_Qle. lia.
Qed.


End F64Facts.

(** ** Lists *)

Lemma unique_incl {A : Type} (eqb : A -> A -> bool) (l : list A) (x : A) :
  In x (unique eqb l) -> In x l.
Proof.
  induction l as [|y l IH]; simpl; [tauto|].
  intros [->|H]; [now left|]. right. apply IH. apply filter_In in H. tauto.
Qed.

Lemma unique_complete (l : list string) (x : string) :
  In x l -> In x (unique String.eqb l).
Proof.
  induction l as [|y l IH]; simpl; [tauto|].
  intros [->|H]; [now left|].
  destruct (String.eqb_spec y x) as [->|Hne]; [now left|].
  right. apply filter_In. split; [now apply IH|].
  apply negb_true_iff. now apply String.eqb_neq.
Qed.

Lemma unique_NoDup (l : list string) : NoDup (unique String.eqb l).
Proof.
  induction l as [|x l IH]; simpl; constructor.
  - intro H. apply filter_In in H. destruct H as [_ H].
    rewrite String.eqb_refl in H. discriminate.
  - now apply NoDup_filter.
Qed.

Lemma dropna_all_present {A : Type} (xs : list (option A)) :
  Forall (fun x => x <> None) xs -> List.length (dropna xs) = List.length xs.
Proof.
  induction 1 as [|[x|] xs Hx _ IH]; simpl; [reflexivity|now rewrite IH|congruence].
Qed.

Lemma dropna_map_Some {A : Type} (vs : list A) : dropna (map Some vs) = vs.
Proof. induction vs as [|v vs IH]; simpl; congruence. Qed.



(** ** Sorted lists *)

Lemma in_firstn {A : Type} (n : nat) (l : list A) (y : A) :
  In y (firstn n l) -> In y l.
Proof.
  intros H. rewrite <- (firstn_skipn n l). apply in_or_app. now left.
Qed.

Lemma StronglySorted_firstn {A : Type} (R : A -> A -> Prop) (n : nat) (l : list A) :
  StronglySorted R l -> StronglySorted R (firstn n l).
Proof.
  intros H. revert n. induction H as [|a l Hs IH Ha]; intros [|n]; simpl; try constructor.
  - apply IH.
  - apply Forall_forall. intros y Hy. rewrite Forall_forall in Ha.
    apply Ha. eapply in_firstn. exact Hy.
Qed.

Lemma StronglySorted_map {A B : Type} (R : A -> A -> Prop) (S : B -> B -> Prop)
    (f : A -> B) (l : list A) :
  (forall a b, R a b -> S (f a) (f b)) ->
  StronglySorted R l -> StronglySorted S (map f l).
Proof.
  intros HRS. induction 1 as [|a l Hs IH Ha]; simpl; constructor; [exact IH|].
  apply Forall_forall. intros y Hy. apply in_map_iff in Hy. destruct Hy as [b [<- Hb]].
  rewrite Forall_forall in Ha. auto.
Qed.

(** ** Stable insertion sort *)

Section SortFacts.

Context {A : Type} (leb : A -> A -> bool).

Lemma insert_perm (x : A) (l : list A) : Permutation (x :: l) (insert leb x l).
Proof.
  induction l as [|y l IH]; simpl; [reflexivity|].
  destruct (leb x y); [reflexivity|].
  rewrite perm_swap. now apply perm_skip.
Qed.

Lemma isort_perm (l : list A) : Permutation l (isort leb l).
Proof.
  induction l as [|x l IH]; simpl; [constructor|].
  rewrite <- insert_perm. now apply perm_skip.
Qed.

Lemma isort_length (l : list A) : List.length (isort leb l) = List.length l.
Proof. symmetry. apply Permutation_length, isort_perm. Qed.

Lemma isort_in (x : A) (l : list A) : In x (isort leb l) <-> In x l.
Proof.
  split; apply Permutation_in; [symmetry|]; apply isort_perm.
Qed.

Hypothesis leb_total : forall a b, leb a b = true \/ leb b a = true.
Hypothesis leb_trans : forall a b c, leb a b = true -> leb b c = true -> leb a c = true.

Let R (a b : A) : Prop := leb a b = true.

Lemma insert_sorted (x : A) (l : list A) :
  StronglySorted R l -> StronglySorted R (insert leb x l).
Proof.
  induction 1 as [|y l Hs IH Hy]; simpl.
  - repeat constructor.
  - destruct (leb x y) eqn:E.
    + constructor; [now constructor|].
      constructor; [exact E|].
      eapply Forall_impl; [|exact Hy]. intros z Hz. eapply leb_trans; eauto.
    + constructor; [exact IH|].
      apply Forall_forall. intros z Hz.
      apply (Permutation_in _ (Permutation_sym (insert_perm x l))) in Hz.
      destruct Hz as [<-|Hz].
      * destruct (leb_total x y) as [H|H]; [congruence|exact H].
      * rewrite Forall_forall in Hy. now apply Hy.
Qed.

Lemma isort_sorted (l : list A) : StronglySorted R (isort leb l).
Proof.
  induction l as [|x l IH]; simpl; [constructor|]. now apply insert_sorted.
Qed.

End SortFacts.

(** ** Match scoring (main.py) *)

Module MatchScoreFacts.

Import Spec Examples.

Import BehaviorAnalyzer RedditDatingAnalysis.

(** C1: on the worked example the scorer derives the style label
    ["Positive"], which is not the preferred ["positive"], so the
    communication component contributes nothing and the score is
    25 + 25 + 15 = 65, not 100. *)
Theorem example_match_score_is_65 :
  _get_communication_style example_profile = "Positive"%string /\
  (exists s, match_score_body example_preferences example_profile = Py.Ok s /\ s == 65) /\
  calculate_match_score example_preferences example_profile == 65 /\
  ~ calculate_match_score example_preferences example_profile == 100.
Proof.
  split; [reflexivity|].
  split; [eexists; split; [vm_compute; reflexivity | reflexivity]|].
  split; [reflexivity|].
  intro H. vm_compute in H. discriminate.
Qed.

(** Whatever the inputs, a score that is produced went through the final
    clamp. *)
Lemma match_score_body_clamped (preferences : Preferences) (user_data : UserBehavior) (a : Q) :
  match_score_body preferences user_data = Py.Ok a ->
  exists s, a = Py.min 100 (Py.max 0 s).
Proof.
  unfold match_score_body.
  destruct (String.eqb (engagement_level user_data) (pref_engagement_level preferences));
    cbn [Py.bind].
  - destruct (Py.getitem level_expected_freq _); cbn [Py.bind]; [|discriminate].
    intros H; injection H as <-. eexists; reflexivity.
  - destruct (Py.getitem level_rank (engagement_level user_data)) as [a0|];
      cbn [Py.bind]; [|discriminate].
    destruct (Py.getitem level_rank (pref_engagement_level preferences)) as [a1|];
      cbn [Py.bind]; [|discriminate].
    destruct (Z.abs (a0 - a1) =? 1)%Z; cbn [Py.bind];
      (destruct (Py.getitem level_expected_freq _); cbn [Py.bind]; [|discriminate]);
      intros H; injection H as <-; eexists; reflexivity.
Qed.

Lemma calculate_match_score_bounds (preferences : Preferences) (user_data : UserBehavior) :
  0 <= calculate_match_score preferences user_data <= 100.
Proof.
  unfold calculate_match_score, Py.try_except.
  destruct (match_score_body preferences user_data) as [a|e] eqn:E.
  - destruct (match_score_body_clamped _ _ _ E) as [s ->]. apply PyFacts.clamp_bounds.
  - split; discriminate.
Qed.

Lemma loc_index (behavior_data : list (string * UserBehavior)) (u : string) :
  In u (map fst behavior_data) -> exists row, loc behavior_data u = Some row.
Proof.
  induction behavior_data as [|[u' row] rest IH]; simpl; [contradiction|].
  intros [->|Hin].
  - rewrite String.eqb_refl. eauto.
  - destruct (String.eqb u u'); eauto.
Qed.

Lemma candidates_ok (preferences : Preferences) (behavior_data : list (string * UserBehavior)) :
  candidates preferences behavior_data
  = Py.Ok (map (entry preferences behavior_data) (map fst behavior_data)).
Proof.
  unfold candidates. apply PyFacts.traverse_ok. intros u Hu.
  destruct (loc_index _ _ Hu) as [row Hrow]. unfold entry. now rewrite Hrow.
Qed.

(** C9: every score lies in [0, 100]; a candidate whose scoring raises gets
    0; and the batch always completes, each candidate of the table getting
    the score of its own row. *)
Theorem match_score_bounded_and_isolated
    (preferences : Preferences) (behavior_data : list (string * UserBehavior)) :
  (forall user_data, 0 <= calculate_match_score preferences user_data <= 100) /\
  (forall user_data e,
      match_score_body preferences user_data = Py.Raise e ->
      calculate_match_score preferences user_data = 0) /\
  (exists matches,
      candidates preferences behavior_data = Py.Ok matches /\
      map user matches = map fst behavior_data /\
      Forall (fun m => exists row,
                  loc behavior_data (user m) = Some row /\
                  score m = calculate_match_score preferences row /\
                  0 <= score m <= 100) matches /\
      forall n, exists top,
          find_matches preferences behavior_data n = Py.Ok top /\
          top = firstn n (isort by_score_desc matches)).
Proof.
  split; [apply calculate_match_score_bounds|].
  split.
  - intros user_data e H. unfold calculate_match_score. now rewrite H.
  - exists (map (entry preferences behavior_data) (map fst behavior_data)).
    split; [apply candidates_ok|].
    split; [rewrite map_map; unfold entry; cbn [user]; apply map_id|].
    split.
    + apply Forall_forall. intros m Hm. apply in_map_iff in Hm.
      destruct Hm as [u [<- Hu]]. destruct (loc_index _ _ Hu) as [row Hrow].
      exists row. simpl. rewrite Hrow.
      repeat split; try apply calculate_match_score_bounds.
    + intros n. unfold find_matches. rewrite candidates_ok. simpl. eauto.
Qed.

Lemma match_score_bounded_and_isolated_witness :
  match_score_body example_preferences failing_profile = Py.Raise (Py.KeyError "unknown") /\
  calculate_match_score example_preferences failing_profile = 0 /\
  exists top,
    find_matches example_preferences mixed_table 5 = Py.Ok top /\
    map (fun m => (user m, Qred (score m))) top = [("b"%string, 65); ("a"%string, 0)].
Proof.
  assert (H : match_score_body example_preferences failing_profile
              = Py.Raise (Py.KeyError "unknown")) by reflexivity.
  destruct (match_score_bounded_and_isolated example_preferences mixed_table)
    as [_ [Hzero [matches [Hc [_ [_ Htop]]]]]].
  split; [exact H|]. split; [exact (Hzero failing_profile _ H)|].
  destruct (Htop 5%nat) as [top [Hfind ->]]. exists (firstn 5 (isort by_score_desc matches)).
  split; [exact Hfind|].
  assert (E : Py.Ok matches = candidates example_preferences mixed_table) by (now rewrite Hc).
  vm_compute in E. injection E as ->. reflexivity.
Defined.

(** The ranking: at most [n_recommendations] matches, in non-increasing
    order of score. *)
Lemma find_matches_ranked (preferences : Preferences)
    (behavior_data : list (string * UserBehavior)) (n_recommendations : nat) :
  exists top,
    find_matches preferences behavior_data n_recommendations = Py.Ok top /\
    (List.length top <= n_recommendations)%nat /\
    incl (map user top) (map fst behavior_data) /\
    StronglySorted (fun a b => score b <= score a) top.
Proof.
  unfold find_matches. rewrite candidates_ok. cbn [Py.bind]. eexists. split; [reflexivity|].
  split; [apply firstn_le_length|]. split.
  - intros u Hu. apply in_map_iff in Hu. destruct Hu as [m [<- Hm]].
    apply in_firstn, isort_in, in_map_iff in Hm. destruct Hm as [u [<- Hu]]. exact Hu.
  - apply StronglySorted_firstn.
    assert (H : StronglySorted (fun a b => by_score_desc a b = true)
                  (isort by_score_desc
                         (map (entry preferences behavior_data) (map fst behavior_data)))).
    { apply isort_sorted; unfold by_score_desc.
      - intros a b. rewrite !Qle_bool_iff.
        destruct (Qlt_le_dec (score a) (score b)) as [Hlt|Hle]; [right|left]; lra.
      - intros a b c. rewrite !Qle_bool_iff. lra. }
    induction H as [|a l Hs IH Ha]; constructor; [exact IH|].
    eapply Forall_impl; [|exact Ha]. intros b. apply Qle_bool_iff.
Qed.

End MatchScoreFacts.

(** ** Communication style labels *)

Module StyleFacts.

Import DataProcessor BehaviorAnalyzer.

(** The two classifiers cut at the same thresholds: they pick corresponding
    labels on every input. *)
Lemma style_thresholds_agree (profile : UserBehavior) :
  let scorer := _get_communication_style profile in
  let record := style_of_polarity (sentiment_mean profile) in
  (scorer = "Positive"%string /\ record = "positive"%string) \/
  (scorer = "Critical"%string /\ record = "critical"%string) \/
  (scorer = "Neutral"%string /\ record = "neutral"%string).
Proof.
  unfold _get_communication_style, style_of_polarity.
  destruct (Py.gt (sentiment_mean profile) 0.2); [now left|].
  destruct (Py.lt (sentiment_mean profile) (-0.2)); [right; now left|right; now right].
Qed.

(** C2: the label used by the scorer and the label written by the
    per-record classification are never the same string: the scorer's
    function answers with a capital initial. *)
Theorem style_labels_never_equal (profile : UserBehavior) :
  String.eqb (_get_communication_style profile)
             (style_of_polarity (sentiment_mean profile)) = false.
Proof.
  unfold _get_communication_style, style_of_polarity.
  destruct (Py.gt (sentiment_mean profile) 0.2); [reflexivity|].
  destruct (Py.lt (sentiment_mean profile) (-0.2)); reflexivity.
Qed.

End StyleFacts.

(** ** Profile lookup *)

Module ProfileFacts.

Import Spec Examples.

Import BehaviorAnalyzer.

Lemma loc_absent (behavior_data : list (string * UserBehavior)) (user : string) :
  ~ In user (map fst behavior_data) -> loc behavior_data user = None.
Proof.
  induction behavior_data as [|[u row] rest IH]; simpl; [reflexivity|].
  intros H. destruct (String.eqb_spec user u) as [->|Hne].
  - exfalso. apply H. now left.
  - apply IH. intro Hin. apply H. now right.
Qed.

(** C3 as stated fails: for an author that is not in the table the view
    reads ["0 hours"] and ["0%"], not ["0.0 hours"] and ["0.0%"]. *)
Lemma unknown_author_view_has_no_decimal :
  let view := get_user_profile "bob" one_user_table in
  view_response_time view = "0 hours"%string /\
  view_weekend_activity view = "0%"%string /\
  String.eqb (view_response_time view) "0.0 hours" = false /\
  String.eqb (view_weekend_activity view) "0.0%" = false.
Proof. repeat split. Qed.

(** C3, amended: for every author that is not in the table the lookup
    returns the fixed default view: engagement level ["medium"], style
    ["neutral"], response time ["0 hours"], weekend activity ["0%"], and 0
    for both counts. *)
Theorem unknown_author_gets_default_view
    (user : string) (behavior_data : list (string * UserBehavior)) :
  ~ In user (map fst behavior_data) ->
  get_user_profile user behavior_data = default_view.
Proof.
  intros H. unfold get_user_profile. now rewrite (loc_absent _ _ H).
Qed.

Lemma unknown_author_gets_default_view_witness :
  ~ In "bob"%string (map fst one_user_table) /\
  get_user_profile "bob" one_user_table = default_view.
Proof.
  assert (H : ~ In "bob"%string (map fst one_user_table)).
  { simpl. intros [H|[]]. discriminate. }
  split; [exact H | exact (unknown_author_gets_default_view "bob" one_user_table H)].
Defined.

(** A known author is formatted with one decimal. *)
Example known_author_view :
  get_user_profile "alice" one_user_table
  = {| view_response_time := "1.0 hours";
       view_message_frequency := 5;
       view_engagement_level := "high";
       view_communication_style := "Positive";
       view_active_hours := 0;
       view_weekend_activity := "0.0%" |}.
Proof. reflexivity. Qed.

End ProfileFacts.

(** ** Comment aggregation *)

Module CommentFacts.

Import Spec Examples.
Import DataProcessor.

Lemma notna_all_some {A : Type} (l : list (option A)) (xs : list A) :
  notna_all l = Some xs <-> l = map Some xs.
Proof.
  revert xs. induction l as [|[a|] l IH]; intros xs; cbn [notna_all].
  - split; [intros H; injection H as <-; reflexivity|].
    destruct xs; [reflexivity|discriminate].
  - destruct (notna_all l) as [ys|] eqn:E.
    + split.
      * intros H. injection H as <-. cbn [map]. f_equal. now apply IH.
      * destruct xs as [|x xs]; [discriminate|]. cbn [map]. intros H. injection H as -> H.
        apply IH in H. now injection H as ->.
    + split; [discriminate|].
      destruct xs as [|x xs]; [discriminate|]. cbn [map]. intros H. injection H as -> H.
      apply IH in H. discriminate H.
  - split; [discriminate|]. destruct xs; discriminate.
Qed.

Lemma notna_all_none {A : Type} (l : list (option A)) :
  notna_all l = None <-> In None l.
Proof.
  induction l as [|[a|] l IH]; cbn [notna_all].
  - split; [discriminate|intros []].
  - destruct (notna_all l) as [ys|] eqn:E.
    + split; [discriminate|]. intros [H|H]; [discriminate H|]. apply IH in H. discriminate H.
    + split; [intros _; right; now apply IH|reflexivity].
  - split; [intros _; now left|reflexivity].
Qed.

Lemma consecutive_hours_length (times : list Z) :
  List.length (consecutive_hours times) = (List.length times - 1)%nat.
Proof.
  induction times as [|t0 [|t1 rest] IH]; simpl in *; try reflexivity.
  rewrite IH. lia.
Qed.


Lemma sorted_timestamps (ts : list Z) : StronglySorted Z.le (isort Z.leb ts).
Proof.
  assert (H : StronglySorted (fun a b => (a <=? b)%Z = true) (isort Z.leb ts)).
  { apply isort_sorted.
    - intros a b. rewrite !Z.leb_le. lia.
    - intros a b c. rewrite !Z.leb_le. lia. }
  induction H as [|t l Hs IH Ht]; constructor; [exact IH|].
  eapply Forall_impl; [|exact Ht]. intros z. apply Z.leb_le.
Qed.

Lemma total_seconds_nonneg (ns : Z) : (0 <= ns)%Z -> 0 <= total_seconds ns.
Proof.
  intros H. unfold total_seconds. cbv zeta. apply F64Facts.add_nonneg.
  - apply F64Facts.round_nonneg. change 0 with (inject_Z 0). rewrite <- Zle_Qle.
    pose proof (Z.div_pos ns 86400000000000 H ltac:(lia)).
    pose proof (Z.mod_pos_bound ns 86400000000000 ltac:(lia)).
    pose proof (Z.div_pos (ns mod 86400000000000) 1000000000 ltac:(lia) ltac:(lia)).
    lia.
  - apply F64Facts.div_nonneg; [|discriminate].
    change 0 with (inject_Z 0). rewrite <- Zle_Qle.
    pose proof (Z.mod_pos_bound ns 1000000000 ltac:(lia)).
    apply Z.div_pos; lia.
Qed.

Lemma hours_between_nonneg (t0 t1 : Z) : (t0 <= t1)%Z -> 0 <= hours_between t0 t1.
Proof.
  intros H. unfold hours_between. apply F64Facts.div_nonneg; [|discriminate].
  apply total_seconds_nonneg. lia.
Qed.




Lemma consecutive_hours_nonneg (times : list Z) :
  StronglySorted Z.le times -> Forall (fun h => 0 <= h) (consecutive_hours times).
Proof.
  induction 1 as [|t0 l Hs IH Ht]; simpl; [constructor|].
  destruct l as [|t1 rest]; [constructor|].
  constructor; [|exact IH].
  apply hours_between_nonneg. inversion Ht; assumption.
Qed.

Lemma sum_nonneg (xs : list Q) : Forall (fun h => 0 <= h) xs -> 0 <= Py.sum xs.
Proof.
  induction 1 as [|x xs Hx _ IH]; simpl; [apply Qle_refl|].
  change 0 with (0 + 0). now apply Qplus_le_compat.
Qed.

Lemma mean_nonneg (xs : list Q) : Forall (fun h => 0 <= h) xs -> 0 <= Py.mean xs.
Proof.
  intros H. unfold Py.mean. destruct xs as [|x xs].
  - simpl. discriminate.
  - apply Qle_shift_div_l.
    + change 0 with (inject_Z 0). rewrite <- Zlt_Qlt. simpl List.length. lia.
    + rewrite Qmult_0_l. now apply sum_nonneg.
Qed.

(** The differences of the comments that all have a timestamp. *)
Lemma response_times_of_stamps (comments : list Comment) (stamps : list Z) :
  map c_created_utc comments = map Some stamps ->
  _calculate_response_times comments = Some (consecutive_hours (isort Z.leb stamps)).
Proof.
  intros H. unfold _calculate_response_times.
  now rewrite (proj2 (notna_all_some _ _) H).
Qed.

(** The response time of the comments that all have a timestamp. *)
Lemma response_time_of_stamps (c : Comment) (cs : list Comment) (stamps : list Z) :
  map c_created_utc (c :: cs) = map Some stamps ->
  cf_avg_response_time (_extract_comment_features (c :: cs))
  = match cs with
    | [] => Some 0
    | _ :: _ => Some (F64.np_mean (consecutive_hours (isort Z.leb stamps)))
    end.
Proof.
  intros H. cbn [_extract_comment_features cf_avg_response_time].
  rewrite (response_times_of_stamps _ _ H).
  assert (Hlen : List.length (consecutive_hours (isort Z.leb stamps)) = List.length cs).
  { rewrite consecutive_hours_length, isort_length.
    rewrite <- (length_map Some stamps), <- H, length_map. simpl. lia. }
  destruct (consecutive_hours (isort Z.leb stamps)) as [|h hs]; destruct cs;
    simpl in Hlen; try discriminate; reflexivity.
Qed.

(** A single comment has the response time 0, whatever its timestamp. *)
Lemma response_time_of_one (c : Comment) :
  cf_avg_response_time (_extract_comment_features [c]) = Some 0.
Proof.
  cbn [_extract_comment_features cf_avg_response_time].
  unfold _calculate_response_times. cbn [map notna_all].
  destruct (c_created_utc c); reflexivity.
Qed.

(** Two or more comments, one of them without a timestamp: the response
    time is [nan]. *)
Lemma response_time_without_stamp (c c' : Comment) (cs : list Comment) :
  In None (map c_created_utc (c :: c' :: cs)) ->
  cf_avg_response_time (_extract_comment_features (c :: c' :: cs)) = None.
Proof.
  intros H. cbn [_extract_comment_features cf_avg_response_time].
  unfold _calculate_response_times.
  now rewrite (proj2 (notna_all_none _) H).
Qed.

(** The response time is missing exactly when two or more comments are
    given and one of them has no timestamp. *)
Lemma response_time_missing_iff (comments : list Comment) :
  cf_avg_response_time (_extract_comment_features comments) = None <->
  (2 <= List.length comments)%nat /\ In None (map c_created_utc comments).
Proof.
  destruct comments as [|c [|c' cs]].
  - split; [discriminate|]. intros [H _]. simpl in H. lia.
  - rewrite response_time_of_one. split; [discriminate|]. intros [H _]. simpl in H. lia.
  - destruct (notna_all (map c_created_utc (c :: c' :: cs))) as [stamps|] eqn:E.
    + pose proof E as E'. apply notna_all_some in E'.
      rewrite (response_time_of_stamps c (c' :: cs) stamps E').
      split; [discriminate|]. intros [_ H]. apply notna_all_none in H. congruence.
    + apply notna_all_none in E. rewrite (response_time_without_stamp c c' cs E).
      split; [|reflexivity]. intros _. split; [simpl; lia|exact E].
Qed.

(** The response time of a post is never negative. *)
Lemma avg_response_time_nonneg (comments : list Comment) (v : Q) :
  cf_avg_response_time (_extract_comment_features comments) = Some v -> 0 <= v.
Proof.
  destruct comments as [|c cs]; [intros H; injection H as <-; apply Qle_refl|].
  destruct (notna_all (map c_created_utc (c :: cs))) as [stamps|] eqn:E.
  - apply notna_all_some in E. rewrite (response_time_of_stamps c cs stamps E).
    destruct cs; intros H; injection H as <-; [apply Qle_refl|].
    apply F64Facts.np_mean_nonneg, consecutive_hours_nonneg, sorted_timestamps.
  - destruct cs as [|c' cs].
    + rewrite response_time_of_one. intros H. injection H as <-. apply Qle_refl.
    + apply notna_all_none in E. rewrite (response_time_without_stamp c c' cs E). discriminate.
Qed.


(** The order in which the comments arrive does not matter. *)
Example comments_out_of_order :
  _calculate_response_times [comment_at 5; comment_at 0; comment_at 2] = Some [2; 3].
Proof. vm_compute. reflexivity. Qed.

(** Ten comments six minutes apart: the nine differences are 0.1 each; eight
    of them are added in pairs and the ninth to their sum, which gives 0.9
    and the mean 0.1 (added one after the other they would give
    0.8999999999999999 and the mean 0.09999999999999999). *)
Example ten_comments_six_minutes_apart :
  cf_avg_response_time
    (_extract_comment_features (map (fun i => comment_after (360 * Z.of_nat i)) (seq 0 10)))
  = Some (F64.round 0.1) /\
  F64.div (fold_left F64.add (repeat (F64.round 0.1) 9) 0) 9 < F64.round 0.1.
Proof. split; vm_compute; reflexivity. Qed.

(** A comment whose timestamp is missing makes the response time of two or
    more comments [nan]. *)
Example comment_without_timestamp :
  cf_avg_response_time
    (_extract_comment_features
       [comment_at 0;
        {| c_author := "None"; c_text := ""; c_score := None; c_created_utc := None;
           c_word_count := 1; c_sentiment := 0 |}])
  = None.
Proof. reflexivity. Qed.

End CommentFacts.

(** ** Engagement classification *)

Module EngagementFacts.

Import Spec Examples.

Import DataProcessor.

Lemma edges_ordered : F64.round 0.3 < F64.round 0.7.
Proof. vm_compute. reflexivity. Qed.

(** The category that [pd.cut] gives a finite score, by the edges. *)
Lemma cut_finite_score (s : Q) :
  exists l,
    bins_to_cuts engagement_bins engagement_labels false (Fin s) = Some l /\
    (s <= F64.round 0.3 -> l = low) /\
    (F64.round 0.3 < s /\ s <= F64.round 0.7 -> l = medium) /\
    (F64.round 0.7 < s -> l = high).
Proof.
  pose proof edges_ordered as Hedges.
  unfold bins_to_cuts, searchsorted_left, engagement_bins, engagement_labels.
  cbn [filter ext_lt andb].
  destruct (Py.lt (F64.round 0.3) s) eqn:E3; destruct (Py.lt (F64.round 0.7) s) eqn:E7;
    cbn [List.length Nat.eqb orb nth_error Nat.sub];
    try apply PyFacts.lt_iff in E3; try apply PyFacts.lt_false_iff in E3;
    try apply PyFacts.lt_iff in E7; try apply PyFacts.lt_false_iff in E7;
    eexists; (split; [reflexivity|]); repeat split; intros; try reflexivity; exfalso; lra.
Qed.

(** The category of a score that is a double, by the decimal thresholds:
    the doubles written [0.3] and [0.7] lie below 3/10 and 7/10, and no
    double lies in between. *)
Lemma cut_rounded_score (x : Q) :
  exists l,
    bins_to_cuts engagement_bins engagement_labels false (Fin (F64.round x)) = Some l /\
    (F64.round x <= 0.3 -> l = low) /\
    (0.3 < F64.round x /\ F64.round x <= 0.7 -> l = medium) /\
    (0.7 < F64.round x -> l = high).
Proof.
  destruct (cut_finite_score (F64.round x)) as [l [Hl [Hlow [Hmed Hhigh]]]].
  assert (D3 : F64.round 0.3 <= 0.3) by (vm_compute; discriminate).
  assert (D7 : F64.round 0.7 <= 0.7) by (vm_compute; discriminate).
  exists l. split; [exact Hl|]. split; [|split].
  - intros H. apply Hlow. now apply F64Facts.le_03.
  - intros [H3 H7]. apply Hmed. split; [lra|now apply F64Facts.le_07].
  - intros H. apply Hhigh. lra.
Qed.

(** An infinite score falls into the last interval. *)
Lemma cut_infinite_score :
  bins_to_cuts engagement_bins engagement_labels false PosInf = Some high.
Proof. vm_compute. reflexivity. Qed.

(** Every score gets a category. *)
Lemma cut_score (p : Post) :
  exists l, bins_to_cuts engagement_bins engagement_labels false (engagement_score p) = Some l /\
            (engagement_score p = PosInf -> l = high).
Proof.
  destruct (engagement_score p) as [|s|] eqn:E.
  - exfalso. unfold engagement_score in E. cbv zeta in E. destruct (Qeq_bool _ 0); discriminate E.
  - destruct (cut_finite_score s) as [l [H _]]. exists l. split; [exact H|discriminate].
  - exists high. split; [exact cut_infinite_score|reflexivity].
Qed.

Lemma set_engagement_level_columns (l : option Engagement) (p : Post) :
  post_engagement_level (set_engagement_level l p) = l /\
  same_but_level p (set_engagement_level l p).
Proof. split; [reflexivity|]. unfold same_but_level. repeat split. Qed.

(** [_calculate_engagement_levels] gives every row an engagement level and
    leaves the other columns and the order of the rows as they are,
    whatever the three inputs: missing cells are filled (0, 24, 0), every
    finite score lies in one of the three intervals, and the infinite score
    of a division by zero is binned high. *)
Theorem engagement_level_present (df : list Post) :
  Forall2
    (fun p out =>
       same_but_level p out /\
       exists l, post_engagement_level out = Some l /\
                 bins_to_cuts engagement_bins engagement_labels false (engagement_score p)
                 = Some l /\
                 (Qeq_bool (F64.add 1 (fillna 24 (post_avg_response_time p))) 0 = true ->
                  l = high))
    df (_calculate_engagement_levels df).
Proof.
  induction df as [|p df IH]; cbn [_calculate_engagement_levels map]; constructor; [|exact IH].
  destruct (cut_score p) as [l [Hl Hinf]].
  split; [apply set_engagement_level_columns|].
  exists l. rewrite Hl. split; [reflexivity|]. split; [reflexivity|].
  intros H. apply Hinf. unfold engagement_score. cbv zeta. now rewrite H.
Qed.

(** The score of a row whose three inputs are present. *)
Lemma engagement_score_present (p : Post) (tc art sent : Q) :
  total_comments p = Some tc ->
  post_avg_response_time p = Some art ->
  comment_sentiment_mean p = Some sent ->
  ~ F64.add 1 art == 0 ->
  engagement_score p
  = Fin (F64.div
           (F64.add (F64.add (F64.div tc 10) (F64.div 1 (F64.add 1 art)))
                    (F64.div (F64.add sent 1) 2))
           3).
Proof.
  intros Ht Ha Hs Hne. unfold engagement_score. rewrite Ht, Ha, Hs. cbn [fillna]. cbv zeta.
  destruct (Qeq_bool (F64.add 1 art) 0) eqn:E; [|reflexivity].
  apply Qeq_bool_iff in E. contradiction.
Qed.

(** One plus a response time that is not negative does not round to 0. *)
Lemma one_plus_nonzero (art : Q) : 0 <= art -> Qeq_bool (F64.add 1 art) 0 = false.
Proof.
  intros H. destruct (Qeq_bool (F64.add 1 art) 0) eqn:E; [|reflexivity].
  apply Qeq_bool_iff in E.
  assert (H1 : 1 <= F64.add 1 art) by (apply F64Facts.round_ge_1; lra).
  rewrite E in H1. lra.
Qed.

(** A missing response time is read as 24 hours by the score (the two other
    inputs as 0). *)
Example missing_response_time_counts_as_24 (p : Post) :
  total_comments p = None ->
  post_avg_response_time p = None ->
  comment_sentiment_mean p = None ->
  engagement_score p
  = Fin (F64.div
           (F64.add (F64.add (F64.div 0 10) (F64.div 1 (F64.add 1 24)))
                    (F64.div (F64.add 0 1) 2))
           3).
Proof.
  intros Ht Ha Hs. unfold engagement_score. rewrite Ht, Ha, Hs. reflexivity.
Qed.

(** Binning is monotone: a larger score never gets a lower bin. *)
Lemma engagement_binning_monotone (s s' : Q) (l l' : Engagement) :
  s <= s' ->
  bins_to_cuts engagement_bins engagement_labels false (Fin s) = Some l ->
  bins_to_cuts engagement_bins engagement_labels false (Fin s') = Some l' ->
  (engagement_code l <= engagement_code l')%nat.
Proof.
  intros Hle Hl Hl'.
  destruct (cut_finite_score s) as [k [Hk [Klow [Kmed Khigh]]]].
  destruct (cut_finite_score s') as [k' [Hk' [Klow' [Kmed' Khigh']]]].
  rewrite Hk in Hl. rewrite Hk' in Hl'. injection Hl as <-. injection Hl' as <-.
  destruct (Qlt_le_dec (F64.round 0.7) s) as [H7|H7].
  - rewrite (Khigh H7), (Khigh' ltac:(lra)). simpl. lia.
  - destruct (Qlt_le_dec (F64.round 0.3) s) as [H3|H3].
    + rewrite (Kmed (conj H3 H7)).
      destruct (Qlt_le_dec (F64.round 0.7) s') as [H7'|H7'].
      * rewrite (Khigh' H7'). simpl. lia.
      * assert (H3' : F64.round 0.3 < s') by lra. rewrite (Kmed' (conj H3' H7')). simpl. lia.
    + rewrite (Klow H3). simpl. lia.
Qed.

Lemma engagement_binning_monotone_witness :
  0.25 <= 0.5 /\
  (engagement_code low <= engagement_code medium)%nat.
Proof.
  assert (H : 0.25 <= 0.5) by (vm_compute; discriminate).
  split; [exact H|].
  exact (engagement_binning_monotone 0.25 0.5 low medium H eq_refl eq_refl).
Defined.

(** C5: for every processed post (a base row joined with the features of its
    comments, which are 0 when there is no comment), the engagement score is
    ((total_comments/10) + 1/(1+avg_response_time) + (comment_sentiment_mean+1)/2)/3,
    each operation rounded to a double as numpy computes it, where a
    response time that is missing counts as 24; the row keeps its other
    columns and its engagement level is low for a score up to 0.3, medium
    above 0.3 and up to 0.7, high above 0.7. *)
Theorem engagement_score_and_bin (inputs : list (Post * list Comment)) :
  let df := map (fun i => concat_comment_features (fst i) (_extract_comment_features (snd i)))
                inputs in
  Forall2
    (fun i out =>
       let f := _extract_comment_features (snd i) in
       let row := concat_comment_features (fst i) f in
       let art := fillna 24 (cf_avg_response_time f) in
       let s := F64.div
                  (F64.add (F64.add (F64.div (cf_total_comments f) 10)
                                    (F64.div 1 (F64.add 1 art)))
                           (F64.div (F64.add (cf_comment_sentiment_mean f) 1) 2))
                  3 in
       engagement_score row = Fin s /\
       same_but_level row out /\
       exists l,
         post_engagement_level out = Some l /\
         (s <= 0.3 -> l = low) /\
         (0.3 < s /\ s <= 0.7 -> l = medium) /\
         (0.7 < s -> l = high))
    inputs (_calculate_engagement_levels df).
Proof.
  induction inputs as [|[p cs] inputs IH]; cbn [map _calculate_engagement_levels];
    [constructor|].
  constructor; [|exact IH]. cbn [fst snd]. cbv zeta.
  set (f := _extract_comment_features cs).
  assert (Hart : 0 <= fillna 24 (cf_avg_response_time f)).
  { destruct (cf_avg_response_time f) as [v|] eqn:E; cbn [fillna]; [|discriminate].
    exact (CommentFacts.avg_response_time_nonneg cs v E). }
  assert (Hs : engagement_score (concat_comment_features p f)
               = Fin (F64.div
                        (F64.add (F64.add (F64.div (cf_total_comments f) 10)
                                          (F64.div 1 (F64.add 1 (fillna 24 (cf_avg_response_time f)))))
                                 (F64.div (F64.add (cf_comment_sentiment_mean f) 1) 2))
                        3)).
  { unfold engagement_score.
    cbn [concat_comment_features total_comments post_avg_response_time
         comment_sentiment_mean fillna].
    cbv zeta. now rewrite (one_plus_nonzero _ Hart). }
  split; [exact Hs|]. split; [apply set_engagement_level_columns|].
  rewrite Hs. unfold F64.div at 1.
  destruct (cut_rounded_score
              (F64.add (F64.add (F64.div (cf_total_comments f) 10)
                                (F64.div 1 (F64.add 1 (fillna 24 (cf_avg_response_time f)))))
                       (F64.div (F64.add (cf_comment_sentiment_mean f) 1) 2) / 3))
    as [l [Hl Hcases]].
  exists l. rewrite Hl. split; [reflexivity|exact Hcases].
Qed.

(** A post without comments scores (0 + 1 + 1/2)/3 = 0.5 and is binned
    medium. *)
Example no_comment_post_is_medium (p : Post) :
  map post_engagement_level
      (_calculate_engagement_levels [concat_comment_features p (_extract_comment_features [])])
  = [Some medium].
Proof. vm_compute. reflexivity. Qed.

(** Six comments within the same second and a neutral sentiment: the three
    terms are 0.6, 1 and 0.5, their sum divided by 3 is the double above
    0.7, and the post is binned high. *)
Example six_quick_comments_are_high (p : Post) :
  let cs := [comment_at 0; comment_at 0; comment_at 0; comment_at 0; comment_at 0; comment_at 0] in
  let row := concat_comment_features p (_extract_comment_features cs) in
  engagement_score row = Fin (6305039478318695 # 9007199254740992) /\
  map post_engagement_level (_calculate_engagement_levels [row]) = [Some high].
Proof. split; vm_compute; reflexivity. Qed.

End EngagementFacts.

(** ** Behaviour profiles *)

Module BehaviorFacts.

Import Spec Examples.

Import BehaviorAnalyzer.

Lemma count_level_total (xs : list Engagement) :
  (count_level low xs + count_level medium xs + count_level high xs = List.length xs)%nat.
Proof.
  unfold count_level. induction xs as [|[] xs IH]; simpl in *; lia.
Qed.

(** Closes a case of [mode_head] by naming the category at the head. *)
Ltac pick_mode l Hcount :=
  exists l; split; [reflexivity|];
  rewrite (Hcount l); split; [lia|];
  split; intros l'; rewrite (Hcount l'); destruct l'; simpl; lia.

(** The head of [mode] is a most frequent category and, among the most
    frequent ones, the one with the least code. *)
Lemma mode_head (xs : list (option Engagement)) :
  dropna xs <> [] ->
  exists l,
    iloc0 (mode xs) = Py.Ok l /\
    (0 < count_level l (dropna xs))%nat /\
    (forall l', count_level l' (dropna xs) <= count_level l (dropna xs))%nat /\
    (forall l', count_level l' (dropna xs) = count_level l (dropna xs) ->
                engagement_code l <= engagement_code l')%nat.
Proof.
  intros Hne. unfold mode. cbn [filter].
  pose proof (count_level_total (dropna xs)) as Htot.
  assert (Hpos : (0 < List.length (dropna xs))%nat).
  { destruct (dropna xs); [contradiction|simpl; lia]. }
  set (a := count_level low (dropna xs)) in *.
  set (b := count_level medium (dropna xs)) in *.
  set (c := count_level high (dropna xs)) in *.
  assert (Hcount : forall l', count_level l' (dropna xs)
                              = match l' with low => a | medium => b | high => c end).
  { now intros []. }
  destruct (Nat.ltb_spec 0 a); destruct (Nat.eqb_spec a (Nat.max a (Nat.max b c)));
    cbn [andb iloc0]; try solve [pick_mode low Hcount].
  all: destruct (Nat.ltb_spec 0 b); destruct (Nat.eqb_spec b (Nat.max a (Nat.max b c)));
    cbn [andb iloc0]; try solve [pick_mode medium Hcount].
  all: destruct (Nat.ltb_spec 0 c); destruct (Nat.eqb_spec c (Nat.max a (Nat.max b c)));
    cbn [andb iloc0]; try solve [pick_mode high Hcount].
  all: exfalso; lia.
Qed.

(** A behaviour table has exactly one row per author that has a post, in
    order of first appearance. *)
Lemma one_profile_per_author (df : list Post) (table : list (string * UserBehavior)) :
  analyze_user_behavior df = Py.Ok table ->
  map fst table = unique String.eqb (map author df) /\
  NoDup (map fst table) /\
  (forall u, In u (map fst table) <-> exists p, In p df /\ author p = u).
Proof.
  intros H. pose proof (PyFacts.traverse_keys _ _ _ H) as Hk. rewrite Hk.
  split; [reflexivity|]. split; [apply unique_NoDup|].
  intros u. split.
  - intros Hu. apply unique_incl, in_map_iff in Hu. destruct Hu as [p [Hp Hin]]. eauto.
  - intros [p [Hin <-]]. apply unique_complete. now apply in_map.
Qed.

Lemma one_profile_per_author_witness :
  match analyze_user_behavior tie_posts with
  | Py.Ok table => map fst table = ["u"%string]
  | Py.Raise _ => False
  end.
Proof.
  destruct (analyze_user_behavior tie_posts) as [table|e] eqn:E.
  - destruct (one_profile_per_author tie_posts table E) as [-> _]. reflexivity.
  - vm_compute in E. discriminate E.
Defined.

(** C4 as stated fails: with one medium post followed by one low post the
    two bins are tied, the bin met first is medium, and the profile says
    low. *)
Lemma tie_is_not_broken_by_post_order :
  map post_engagement_level tie_posts = [Some medium; Some low] /\
  match analyze_user_behavior tie_posts with
  | Py.Ok [(u, row)] => u = "u"%string /\ engagement_level row = "low"%string
  | _ => False
  end /\
  first_encountered_mode (dropna (map post_engagement_level tie_posts)) = Some medium.
Proof. split; [|split; [split|]]; reflexivity. Qed.

(** C4, amended: the engagement level of a profile is the most frequent bin
    among the author's posts, and when several bins are tied for most
    frequent it is the lowest of them in the order low < medium < high. *)
Theorem engagement_level_is_lowest_mode (df : list Post) :
  Forall (fun p => post_engagement_level p <> None) df ->
  exists table,
    analyze_user_behavior df = Py.Ok table /\
    Forall2
      (fun u r =>
         fst r = u /\
         exists l,
           engagement_level (snd r) = engagement_label l /\
           let bins :=
             dropna (map post_engagement_level
                         (filter (fun p => String.eqb (author p) u) df)) in
           (0 < count_level l bins)%nat /\
           (forall l', count_level l' bins <= count_level l bins)%nat /\
           (forall l', count_level l' bins = count_level l bins ->
                       engagement_code l <= engagement_code l')%nat)
      (unique String.eqb (map author df)) table.
Proof.
  intros Hall. unfold analyze_user_behavior. apply PyFacts.traverse_forall2.
  intros u Hu. apply unique_incl, in_map_iff in Hu. destruct Hu as [p [Hp Hin]].
  unfold user_metrics.
  set (user_posts := filter (fun p => String.eqb (author p) u) df).
  assert (Hmem : In p user_posts).
  { apply filter_In. split; [exact Hin|]. rewrite Hp. apply String.eqb_refl. }
  assert (Hne : dropna (map post_engagement_level user_posts) <> []).
  { intro E. apply (f_equal (@List.length _)) in E.
    rewrite dropna_all_present, length_map in E.
    - destruct user_posts; [contradiction|discriminate].
    - apply Forall_forall. intros x Hx. apply in_map_iff in Hx.
      destruct Hx as [q [<- Hq]]. rewrite Forall_forall in Hall. apply Hall.
      apply filter_In in Hq. tauto. }
  destruct (mode_head _ Hne) as [l [Hl Hprop]].
  destruct user_posts as [|q qs] eqn:Eposts; [contradiction|].
  rewrite Hl. cbn [Py.bind]. eexists. split; [reflexivity|].
  cbn [fst snd engagement_level]. split; [reflexivity|].
  exists l. split; [reflexivity|exact Hprop].
Qed.

Lemma engagement_level_is_lowest_mode_witness :
  Forall (fun p => post_engagement_level p <> None) tie_posts /\
  exists table,
    analyze_user_behavior tie_posts = Py.Ok table /\
    Forall2
      (fun u r =>
         fst r = u /\
         exists l,
           engagement_level (snd r) = engagement_label l /\
           let bins :=
             dropna (map post_engagement_level
                         (filter (fun p => String.eqb (author p) u) tie_posts)) in
           (0 < count_level l bins)%nat /\
           (forall l', count_level l' bins <= count_level l bins)%nat /\
           (forall l', count_level l' bins = count_level l bins ->
                       engagement_code l <= engagement_code l')%nat)
      (unique String.eqb (map author tie_posts)) table.
Proof.
  assert (H : Forall (fun p => post_engagement_level p <> None) tie_posts).
  { repeat constructor; discriminate. }
  split; [exact H | exact (engagement_level_is_lowest_mode tie_posts H)].
Defined.

End BehaviorFacts.

(** ** Nearest-neighbour recommendations *)

Module RecommendationFacts.

Import Spec Examples.

Import RecommendationSystem.

Section Ranked.

Variable m : vector -> vector -> Q.

Lemma indices_of_combine (f : vector -> Q) (l : list vector) (s : nat) :
  map fst (combine (seq s (List.length l)) (map f l)) = seq s (List.length l).
Proof.
  revert s. induction l as [|v l IH]; intros s; simpl; [reflexivity|]. now rewrite IH.
Qed.

Lemma combine_entry (f : vector -> Q) (l : list vector) (s i : nat) (d : Q) :
  In (i, d) (combine (seq s (List.length l)) (map f l)) ->
  (s <= i)%nat /\ exists v, nth_error l (i - s) = Some v /\ d = f v.
Proof.
  revert s. induction l as [|v l IH]; intros s; simpl; [contradiction|].
  intros [H|H].
  - injection H as <- <-. split; [lia|]. exists v. now rewrite Nat.sub_diag.
  - destruct (IH _ H) as [Hle [w [Hw ->]]]. split; [lia|]. exists w. split; [|reflexivity].
    replace (i - s)%nat with (S (i - S s)) by lia. exact Hw.
Qed.

Lemma combine_complete (f : vector -> Q) (l : list vector) (s j : nat) (v : vector) :
  nth_error l j = Some v ->
  In ((s + j)%nat, f v) (combine (seq s (List.length l)) (map f l)).
Proof.
  revert s j. induction l as [|w l IH]; intros s [|j] H; simpl in *; try discriminate.
  - injection H as ->. left. now rewrite Nat.add_0_r.
  - right. replace (s + S j)%nat with (S s + j)%nat by lia. now apply IH.
Qed.

Variable X : list vector.
Variable x : vector.

Lemma ranked_length : List.length (ranked m X x) = List.length X.
Proof.
  unfold ranked. rewrite isort_length, length_combine, length_seq, length_map.
  apply Nat.min_id.
Qed.

Lemma ranked_NoDup : NoDup (map fst (ranked m X x)).
Proof.
  unfold ranked.
  eapply Permutation_NoDup.
  - apply Permutation_map, isort_perm.
  - rewrite indices_of_combine. apply seq_NoDup.
Qed.

Lemma ranked_entry (i : nat) (d : Q) :
  In (i, d) (ranked m X x) -> exists v, nth_error X i = Some v /\ d = m x v.
Proof.
  unfold ranked. rewrite isort_in. intros H.
  destruct (combine_entry _ _ _ _ _ H) as [_ [v [Hv ->]]].
  rewrite Nat.sub_0_r in Hv. eauto.
Qed.

Lemma ranked_complete (j : nat) (v : vector) :
  nth_error X j = Some v -> In (j, m x v) (ranked m X x).
Proof.
  intros H. unfold ranked. rewrite isort_in.
  exact (combine_complete (m x) X 0 j v H).
Qed.

Lemma ranked_sorted : StronglySorted (fun a b => snd a <= snd b) (ranked m X x).
Proof.
  assert (H : StronglySorted (fun a b => by_distance a b = true) (ranked m X x)).
  { apply isort_sorted; unfold by_distance.
    - intros a b. rewrite !Qle_bool_iff.
      destruct (Qlt_le_dec (snd b) (snd a)) as [Hlt|Hle]; [right|left]; lra.
    - intros a b c. rewrite !Qle_bool_iff. lra. }
  induction H as [|a l Hs IH Ha]; constructor; [exact IH|].
  eapply Forall_impl; [|exact Ha]. intros b. apply Qle_bool_iff.
Qed.

(** The row that is ranked first is at least as close as any other row. *)
Lemma ranked_head_nearest (first : nat * Q) (rest : list (nat * Q)) :
  ranked m X x = first :: rest ->
  exists v0,
    nth_error X (fst first) = Some v0 /\
    snd first = m x v0 /\
    forall j v, nth_error X j = Some v -> m x v0 <= m x v.
Proof.
  intros E. pose proof ranked_sorted as Hs. rewrite E in Hs.
  apply StronglySorted_inv in Hs. destruct Hs as [_ Hall].
  destruct first as [i0 d0].
  destruct (ranked_entry i0 d0) as [v0 [Hv0 ->]]; [rewrite E; now left|].
  exists v0. repeat split; [exact Hv0|]. intros j v Hj.
  pose proof (ranked_complete j v Hj) as Hin. rewrite E in Hin.
  destruct Hin as [Heq|Hin].
  - injection Heq as _ Hd. rewrite Hd. apply Qle_refl.
  - rewrite Forall_forall in Hall. exact (Hall _ Hin).
Qed.

(** A row strictly closer than every other row is ranked first. *)
Lemma strictly_nearest_is_first (first : nat * Q) (rest : list (nat * Q)) (i : nat) (v : vector) :
  ranked m X x = first :: rest ->
  nth_error X i = Some v ->
  (forall j w, j <> i -> nth_error X j = Some w -> m x v < m x w) ->
  fst first = i.
Proof.
  intros E Hi Hstrict.
  destruct (ranked_head_nearest _ _ E) as [v0 [Hv0 [_ Hmin]]].
  destruct (Nat.eq_dec (fst first) i) as [Heq|Hne]; [exact Heq|].
  exfalso. pose proof (Hstrict _ _ Hne Hv0) as Hlt. pose proof (Hmin _ _ Hi) as Hle. lra.
Qed.

(** What is left after the first row: distinct indices, none of them the
    first one, each paired with its distance, in non-decreasing order of
    distance. *)
Lemma ranked_rest (first : nat * Q) (rest : list (nat * Q)) (n : nat) :
  ranked m X x = first :: rest ->
  ~ In (fst first) (map fst (firstn n rest)) /\
  NoDup (map fst (firstn n rest)) /\
  StronglySorted Qle (map snd (firstn n rest)) /\
  Forall2 (fun j d => exists w, nth_error X j = Some w /\ d = m x w)
          (map fst (firstn n rest)) (map snd (firstn n rest)).
Proof.
  intros E.
  pose proof ranked_NoDup as Hnd. pose proof ranked_sorted as Hs.
  rewrite E in Hnd, Hs. simpl in Hnd. apply NoDup_cons_iff in Hnd. destruct Hnd as [Hnot Hnd].
  apply StronglySorted_inv in Hs. destruct Hs as [Hs _].
  split; [|split; [|split]].
  - intro Hin. apply Hnot. apply in_map_iff in Hin. destruct Hin as [p [Hp Hin]].
    apply in_map_iff. exists p. split; [exact Hp|]. eapply in_firstn; exact Hin.
  - rewrite <- firstn_map. rewrite <- (firstn_skipn n (map fst rest)) in Hnd.
    eapply NoDup_app_remove_r. exact Hnd.
  - apply (StronglySorted_map (fun a b => snd a <= snd b)); [auto|].
    now apply StronglySorted_firstn.
  - assert (Hent : forall p, In p (firstn n rest) ->
                             exists w, nth_error X (fst p) = Some w /\ snd p = m x w).
    { intros [j d] Hp. apply ranked_entry. rewrite E. right. eapply in_firstn; exact Hp. }
    induction (firstn n rest) as [|p l IH]; simpl; constructor.
    + apply Hent. now left.
    + apply IH. intros q Hq. apply Hent. now right.
Qed.

End Ranked.

Lemma has_fitted_features_iff (X : list vector) (x : vector) :
  has_fitted_features X x = true <-> exists row, In row X /\ List.length row = List.length x.
Proof.
  unfold has_fitted_features. rewrite existsb_exists.
  split; intros [row [Hin H]]; exists row; (split; [exact Hin|]); now apply Nat.eqb_eq.
Qed.

(** A fitted row has the features of the fitted rows. *)
Lemma member_has_features (X : list vector) (i : nat) (x : vector) :
  nth_error X i = Some x -> has_fitted_features X x = true.
Proof.
  intros H. apply has_fitted_features_iff. exists x. split; [|reflexivity].
  eapply nth_error_In. exact H.
Qed.

Lemma rows_have_features (X : list vector) (x : vector) :
  X <> [] -> Forall (fun row => List.length row = List.length x) X ->
  has_fitted_features X x = true.
Proof.
  intros Hne H. destruct X as [|row X]; [contradiction|].
  apply has_fitted_features_iff. exists row. split; [now left|]. now inversion H.
Qed.

Lemma rows_lack_features (X : list vector) (x : vector) :
  Forall (fun row => List.length row <> List.length x) X ->
  has_fitted_features X x = false.
Proof.
  intros H. destruct (has_fitted_features X x) eqn:E; [|reflexivity].
  apply has_fitted_features_iff in E. destruct E as [row [Hin Hlen]].
  rewrite Forall_forall in H. now elim (H row Hin).
Qed.

(** A query that is answered passed the three checks of [kneighbors]. *)
Lemma get_recommendations_inv (knn_model : NearestNeighbors) (X : list vector) (x : vector)
    (n_recommendations : Z) (r : list nat * list Q) :
  fit_X knn_model = Some X ->
  get_recommendations knn_model x n_recommendations = Py.Ok r ->
  (0 <= n_recommendations)%Z /\
  (n_recommendations + 1 <= Z.of_nat (List.length X))%Z /\
  has_fitted_features X x = true.
Proof.
  intros Hfit Hr. unfold get_recommendations, kneighbors in Hr. rewrite Hfit in Hr.
  destruct (Z.leb_spec (n_recommendations + 1) 0); [discriminate|].
  destruct (has_fitted_features X x); [|discriminate]. cbn [negb] in Hr.
  destruct (Z.ltb_spec (Z.of_nat (List.length X)) (n_recommendations + 1)); [discriminate|].
  repeat split; lia.
Qed.

(** A request that fails one of the checks is refused with [ValueError]. *)
Lemma get_recommendations_refused (knn_model : NearestNeighbors) (X : list vector)
    (x : vector) (n_recommendations : Z) :
  fit_X knn_model = Some X ->
  (n_recommendations < 0)%Z \/ (Z.of_nat (List.length X) < n_recommendations + 1)%Z \/
  has_fitted_features X x = false ->
  exists msg, get_recommendations knn_model x n_recommendations = Py.Raise (Py.ValueError msg).
Proof.
  intros Hfit H. unfold get_recommendations, kneighbors. rewrite Hfit.
  destruct (Z.leb_spec (n_recommendations + 1) 0); [eexists; reflexivity|].
  destruct (has_fitted_features X x); cbn [negb]; [|eexists; reflexivity].
  destruct (Z.ltb_spec (Z.of_nat (List.length X)) (n_recommendations + 1));
    [eexists; reflexivity|].
  destruct H as [H|[H|H]]; [lia|lia|discriminate H].
Qed.

(** A fitted model asked for [n_recommendations] rows when it holds at least
    one more, with a query of the fitted number of features: the query
    succeeds and returns the rows ranked second to [n_recommendations + 1]. *)
Lemma get_recommendations_ok (knn_model : NearestNeighbors) (X : list vector) (x : vector)
    (n_recommendations : Z) :
  fit_X knn_model = Some X ->
  (0 <= n_recommendations)%Z ->
  (n_recommendations + 1 <= Z.of_nat (List.length X))%Z ->
  has_fitted_features X x = true ->
  exists first rest,
    ranked (metric knn_model) X x = first :: rest /\
    get_recommendations knn_model x n_recommendations
    = Py.Ok (map fst (firstn (Z.to_nat n_recommendations) rest),
             map snd (firstn (Z.to_nat n_recommendations) rest)) /\
    List.length (firstn (Z.to_nat n_recommendations) rest) = Z.to_nat n_recommendations.
Proof.
  intros Hfit Hn Hsize Hfeatures.
  pose proof (ranked_length (metric knn_model) X x) as Hlen.
  destruct (ranked (metric knn_model) X x) as [|first rest] eqn:E.
  - simpl in Hlen. lia.
  - exists first, rest. split; [reflexivity|].
    unfold get_recommendations, kneighbors. rewrite Hfit, Hfeatures. cbn [negb].
    destruct (Z.leb_spec (n_recommendations + 1) 0); [lia|].
    destruct (Z.ltb_spec (Z.of_nat (List.length X)) (n_recommendations + 1)); [lia|].
    rewrite E. replace (Z.to_nat (n_recommendations + 1)) with (S (Z.to_nat n_recommendations)) by lia.
    rewrite firstn_cons. cbn [Py.bind map fst snd tl]. split; [reflexivity|].
    apply firstn_length_le. simpl in Hlen. lia.
Qed.

(** C7 as stated fails: rows 0 and 1 carry the features [1; 0]; the query
    with these features, asked for one neighbour, is answered with row 1,
    a row with the features of the query, at distance 0. *)
Lemma twin_row_is_returned :
  fit_X twin_model = Some [[1; 0]; [1; 0]; [0; 1]] /\
  nth_error [[1; 0]; [1; 0]; [0; 1]] 1 = Some [1; 0] /\
  match get_recommendations twin_model [1; 0] 1 with
  | Py.Ok (idx, dist) => idx = [1%nat] /\ map Qred dist = [0]
  | Py.Raise _ => False
  end.
Proof. repeat split. Qed.

(** C7, amended: when the fitted set holds more than [n_recommendations]
    rows and the query is a fitted row that is strictly closer to itself
    than to every other fitted row, the query succeeds, the row itself is
    not among the returned neighbours, and the returned indices come with
    their distances in non-decreasing order of distance. *)
Theorem member_excluded_when_strictly_nearest
    (knn_model : NearestNeighbors) (X : list vector) (x : vector)
    (n_recommendations : Z) (i : nat) :
  fit_X knn_model = Some X ->
  (0 <= n_recommendations)%Z ->
  (n_recommendations + 1 <= Z.of_nat (List.length X))%Z ->
  nth_error X i = Some x ->
  (forall j w, j <> i -> nth_error X j = Some w ->
               metric knn_model x x < metric knn_model x w) ->
  exists idx dist,
    get_recommendations knn_model x n_recommendations = Py.Ok (idx, dist) /\
    ~ In i idx /\
    StronglySorted Qle dist /\
    Forall2 (fun j d => exists w, nth_error X j = Some w /\ d = metric knn_model x w)
            idx dist.
Proof.
  intros Hfit Hn Hsize Hi Hstrict.
  destruct (get_recommendations_ok knn_model X x n_recommendations Hfit Hn Hsize
              (member_has_features X i x Hi))
    as [first [rest [E [Hget _]]]].
  destruct (ranked_rest (metric knn_model) X x first rest (Z.to_nat n_recommendations) E)
    as [Hnot [_ [Hsorted Hpairs]]].
  rewrite (strictly_nearest_is_first (metric knn_model) X x first rest i x E Hi Hstrict) in Hnot.
  eexists; eexists. split; [exact Hget|]. auto.
Qed.

Lemma member_excluded_when_strictly_nearest_witness :
  nth_error spread_rows 1 = Some [3; 4] /\
  exists idx dist,
    get_recommendations spread_model [3; 4] 2 = Py.Ok (idx, dist) /\
    ~ In 1%nat idx /\
    StronglySorted Qle dist /\
    Forall2 (fun j d => exists w, nth_error spread_rows j = Some w
                                  /\ d = metric spread_model [3; 4] w)
            idx dist.
Proof.
  split; [reflexivity|].
  apply (member_excluded_when_strictly_nearest spread_model spread_rows [3; 4] 2 1).
  - reflexivity.
  - lia.
  - simpl. lia.
  - reflexivity.
  - intros j w Hj Hw.
    destruct j as [|[|[|[|j]]]]; simpl in Hw; try discriminate Hw; try (now elim Hj);
      injection Hw as <-; vm_compute; reflexivity.
Defined.

(** C10 as stated fails: a model fitted on two rows and asked for three
    recommendations returns nothing, the index refuses the query. *)
Lemma too_few_rows_raises :
  fit_X small_model = Some [[1; 0]; [3; 4]] /\
  forallb (fun v => negb (forallb (fun p => Qeq_bool (fst p) (snd p)) (combine v [1; 1])))
          [[1; 0]; [3; 4]] = true /\
  get_recommendations small_model [1; 1] 3
  = Py.Raise (Py.ValueError "Expected n_neighbors <= n_samples_fit").
Proof. repeat split. Qed.

(** C10, amended: for a query with the number of features of the fitted
    rows, whether or not it is one of them, a fitted set of more than
    [n_recommendations] rows returns exactly [n_recommendations] indices
    with their distances; the row ranked first, which is at least as close
    to the query as every fitted row, is not among them, and neither is any
    row that is strictly closer to the query than all the others.  A request
    for a negative number of rows, for at least as many rows as are fitted,
    or with another number of features is refused with [ValueError]. *)
Theorem first_neighbor_always_dropped
    (knn_model : NearestNeighbors) (X : list vector) (x : vector) (n_recommendations : Z) :
  fit_X knn_model = Some X ->
  ((n_recommendations < 0)%Z \/ (Z.of_nat (List.length X) < n_recommendations + 1)%Z \/
   Forall (fun row => List.length row <> List.length x) X ->
   exists msg,
     get_recommendations knn_model x n_recommendations = Py.Raise (Py.ValueError msg)) /\
  ((0 <= n_recommendations)%Z ->
   (n_recommendations + 1 <= Z.of_nat (List.length X))%Z ->
   Forall (fun row => List.length row = List.length x) X ->
   exists i0 v0 idx dist,
     get_recommendations knn_model x n_recommendations = Py.Ok (idx, dist) /\
     List.length idx = Z.to_nat n_recommendations /\
     List.length dist = Z.to_nat n_recommendations /\
     Forall2 (fun j d => exists w, nth_error X j = Some w /\ d = metric knn_model x w)
             idx dist /\
     nth_error X i0 = Some v0 /\
     (forall j v, nth_error X j = Some v -> metric knn_model x v0 <= metric knn_model x v) /\
     ~ In i0 idx /\
     (forall i v, nth_error X i = Some v ->
                  (forall j w, j <> i -> nth_error X j = Some w ->
                               metric knn_model x v < metric knn_model x w) ->
                  ~ In i idx)).
Proof.
  intros Hfit. split.
  - intros H. apply (get_recommendations_refused knn_model X x n_recommendations Hfit).
    destruct H as [H|[H|H]]; [now left|right; now left|right; right].
    now apply rows_lack_features.
  - intros Hn Hsize Hrows.
    assert (Hfeatures : has_fitted_features X x = true).
    { apply rows_have_features; [|exact Hrows]. intros ->. simpl in Hsize. lia. }
    destruct (get_recommendations_ok knn_model X x n_recommendations Hfit Hn Hsize Hfeatures)
      as [first [rest [E [Hget Hlen]]]].
    destruct (ranked_rest (metric knn_model) X x first rest (Z.to_nat n_recommendations) E)
      as [Hnot [_ [_ Hpairs]]].
    destruct (ranked_head_nearest (metric knn_model) X x first rest E) as [v0 [Hv0 [_ Hmin]]].
    exists (fst first), v0. eexists; eexists. split; [exact Hget|].
    rewrite !length_map. repeat split; auto.
    intros i v Hi Hstrict.
    now rewrite <- (strictly_nearest_is_first (metric knn_model) X x first rest i v E Hi Hstrict).
Qed.

Lemma first_neighbor_always_dropped_witness :
  fit_X spread_model = Some spread_rows /\
  ~ In [1; 1] spread_rows /\
  (exists msg, get_recommendations spread_model [1; 1] 3 = Py.Raise (Py.ValueError msg)) /\
  exists idx dist,
    get_recommendations spread_model [1; 1] 2 = Py.Ok (idx, dist) /\
    List.length idx = 2%nat /\
    ~ In 1%nat idx.
Proof.
  assert (Hfit : fit_X spread_model = Some spread_rows) by reflexivity.
  assert (Hnear : forall j w, j <> 1%nat -> nth_error spread_rows j = Some w ->
                              metric spread_model [1; 1] [3; 4] < metric spread_model [1; 1] w).
  { intros j w Hj Hw.
    destruct j as [|[|[|[|j]]]]; simpl in Hw; try discriminate Hw; try (now elim Hj);
      injection Hw as <-; vm_compute; reflexivity. }
  split; [exact Hfit|]. split; [|split].
  - simpl. intros [H|[H|[H|[]]]]; discriminate H.
  - apply (proj1 (first_neighbor_always_dropped spread_model spread_rows [1; 1] 3 Hfit)).
    right; left. simpl. lia.
  - destruct (proj2 (first_neighbor_always_dropped spread_model spread_rows [1; 1] 2 Hfit))
      as [i0 [v0 [idx [dist [Hget [Hlen [_ [_ [_ [_ [_ Hstrict]]]]]]]]]]].
    + lia.
    + simpl. lia.
    + repeat constructor.
    + exists idx, dist. split; [exact Hget|]. split; [exact Hlen|].
      exact (Hstrict 1%nat [3; 4] eq_refl Hnear).
Defined.

(** A query with three features on rows with two is refused. *)
Example wrong_feature_count_raises :
  exists msg, get_recommendations spread_model [1; 0; 0] 2 = Py.Raise (Py.ValueError msg).
Proof. eexists. reflexivity. Qed.

(** On the three spread rows the query [1; 1] is nearest to row 1, which is
    dropped; rows 0 and 2 are returned. *)
Example nearest_row_is_dropped :
  match get_recommendations spread_model [1; 1] 2 with
  | Py.Ok (idx, _) => idx = [0%nat; 2%nat]
  | Py.Raise _ => False
  end.
Proof. reflexivity. Qed.

End RecommendationFacts.

(** ** Response-speed categories *)

Module PatternFacts.

Import Spec Examples.

Import DataProcessor.

(** *** Sorted lists of distinct rationals *)








(** *** Tercile edges *)



Lemma tercile_first (s : list Q) : tercile s 0 == nth 0 s 0.
Proof.
  unfold tercile. rewrite Nat.mul_0_l.
  change (0 / 3)%nat with 0%nat. change (0 mod 3)%nat with 0%nat.
  assert (E : of_nat 0 / 3 == 0) by reflexivity. rewrite E. lra.
Qed.

Lemma tercile_last (s : list Q) :
  (0 < List.length s)%nat -> tercile s 3 == nth (List.length s - 1) s 0.
Proof.
  intros Hn. unfold tercile.
  rewrite (Nat.mul_comm 3), Nat.div_mul, Nat.Div0.mod_mul by lia.
  replace (Nat.min (List.length s - 1 + 1) (List.length s - 1)) with (List.length s - 1)%nat by lia.
  assert (E : of_nat 0 / 3 == 0) by reflexivity. rewrite E. lra.
Qed.



Lemma Qle_bool_false (x y : Q) : Qle_bool x y = false -> y < x.
Proof.
  intros H. apply Qnot_le_lt. intro Hle. apply Qle_bool_iff in Hle. congruence.
Qed.

Lemma Qeq_bool_false (x y : Q) : Qeq_bool x y = false -> ~ x == y.
Proof. intros H E. apply Qeq_bool_iff in E. congruence. Qed.

Ltac bool_to_Q :=
  repeat match goal with
         | H : Qle_bool _ _ = true |- _ => apply Qle_bool_iff in H
         | H : Qle_bool _ _ = false |- _ => apply Qle_bool_false in H
         | H : Qeq_bool _ _ = true |- _ => apply Qeq_bool_iff in H
         | H : Qeq_bool _ _ = false |- _ => apply Qeq_bool_false in H
         end.






(** *** The author table *)

Lemma author_patterns_keys (df : list Post) :
  map fst (author_patterns df) = isort String.leb (unique String.eqb (map author df)).
Proof.
  unfold author_patterns, groupby_author. rewrite !map_map. cbn [fst]. apply map_id.
Qed.

Lemma author_in_patterns (df : list Post) (p : Post) :
  In p df -> In (author p) (map fst (author_patterns df)).
Proof.
  intros H. rewrite author_patterns_keys. apply isort_in, unique_complete.
  now apply in_map.
Qed.


Lemma lookup_category_in (keys : list string) (vals : list (option ResponseCategory))
    (a : string) :
  List.length keys = List.length vals -> In a keys ->
  In (lookup_category (combine keys vals) a) vals.
Proof.
  revert vals. induction keys as [|k keys IH]; intros [|v vals] Hlen Hin; simpl in *;
    try contradiction; try discriminate.
  destruct (String.eqb_spec a k) as [->|Hne]; [now left|].
  right. apply IH; [lia|]. destruct Hin as [->|Hin]; [contradiction|exact Hin].
Qed.








End PatternFacts.

(** ** Every post gets a response category *)

Module UserPatternFacts.

Import Spec Examples DataProcessor Notions.

(** *** The filled column of author means is uniform *)

Lemma dropna_nil_all_missing {A : Type} (xs : list (option A)) :
  dropna xs = [] -> Forall (fun x => x = None) xs.
Proof.
  induction xs as [|[x|] xs IH]; simpl; intros H; [constructor|discriminate|].
  constructor; [reflexivity|now apply IH].
Qed.

(** After [fillna], either every author has a mean or none has. *)
Lemma author_patterns_uniform (df : list Post) :
  (exists vs, map snd (author_patterns df) = map Some vs) \/
  Forall (fun x => x = None) (map snd (author_patterns df)).
Proof.
  unfold author_patterns.
  set (agg := map (fun g => (fst g, pd_mean (map post_avg_response_time (snd g))))
                  (groupby_author df)).
  cbv zeta. unfold pd_mean. destruct (dropna (map snd agg)) as [|v vs] eqn:E.
  - right. apply dropna_nil_all_missing in E.
    rewrite map_map. cbn [snd]. rewrite Forall_forall in *. intros x Hx.
    apply in_map_iff in Hx. destruct Hx as [r [<- Hr]].
    rewrite (E (snd r)); [reflexivity|now apply in_map].
  - left. clear E.
    exists (map (fun r => fillna (Py.mean (v :: vs)) (snd r)) agg).
    rewrite !map_map. apply map_ext. intros [a [x|]]; reflexivity.
Qed.

Lemma dropna_all_missing {A : Type} (xs : list (option A)) :
  Forall (fun x => x = None) xs -> dropna xs = [].
Proof. induction 1 as [|x xs -> _ IH]; simpl; auto. Qed.

(** *** Sorted values lie between the outer edges *)

Lemma isort_Qle_sorted (vs : list Q) : StronglySorted Qle (isort Qle_bool vs).
Proof.
  assert (H : StronglySorted (fun a b => Qle_bool a b = true) (isort Qle_bool vs)).
  { apply isort_sorted.
    - intros a b. rewrite !Qle_bool_iff.
      destruct (Qlt_le_dec b a) as [Hlt|Hle]; [right|left]; lra.
    - intros a b c. rewrite !Qle_bool_iff. lra. }
  induction H as [|a l Hs IH Ha]; constructor; [exact IH|].
  eapply Forall_impl; [|exact Ha]. intros b. apply Qle_bool_iff.
Qed.

Lemma sorted_nth_Qle (s : list Q) (i j : nat) :
  StronglySorted Qle s -> (i <= j)%nat -> (j < List.length s)%nat ->
  nth i s 0 <= nth j s 0.
Proof.
  intros Hs. revert i j. induction Hs as [|a s Hs IH Ha]; intros i j Hij Hj; simpl in Hj; [lia|].
  destruct j as [|j]; destruct i as [|i]; simpl; try lia.
  - apply Qle_refl.
  - rewrite Forall_forall in Ha. apply Ha. apply nth_In. lia.
  - apply IH; lia.
Qed.

(** A value between the outer edges always falls into a bucket. *)
Lemma cut_in_range (e0 e1 e2 e3 v : Q) :
  e0 <= v -> v <= e3 ->
  exists c, bins_to_cuts (map Fin [e0; e1; e2; e3]) response_labels true (Fin v) = Some c.
Proof.
  intros Hlo Hhi.
  unfold bins_to_cuts, searchsorted_left, response_labels.
  cbn [map filter ext_lt hd ext_eqb andb]. unfold Py.lt.
  destruct (Qle_bool v e0) eqn:E0; destruct (Qle_bool v e1) eqn:E1;
    destruct (Qle_bool v e2) eqn:E2; destruct (Qle_bool v e3) eqn:E3;
    destruct (Qeq_bool v e0) eqn:Eq; PatternFacts.bool_to_Q;
    try (exfalso; lra); eexists; reflexivity.
Qed.

(** [qcut] never leaves a present value without a category. *)
Lemma qcut_present (vs : list Q) (cats : list (option ResponseCategory)) :
  qcut (map Some vs) = Py.Ok cats ->
  List.length cats = List.length vs /\ Forall (fun c => c <> None) cats.
Proof.
  unfold qcut. rewrite dropna_map_Some.
  pose proof (isort_Qle_sorted vs) as Hs.
  pose proof (isort_length Qle_bool vs) as Hlen.
  assert (Hin : forall v, In v vs -> In v (isort Qle_bool vs)) by (intros v; apply isort_in).
  destruct (isort Qle_bool vs) as [|a s'] eqn:E; [discriminate|].
  set (s := a :: s') in *.
  destruct (all_distinct _); [|discriminate].
  intros H. injection H as <-. rewrite !length_map. split; [reflexivity|].
  rewrite map_map. apply Forall_forall. intros c Hc. apply in_map_iff in Hc.
  destruct Hc as [v [<- Hv]]. cbn [map].
  destruct (cut_in_range (tercile s 0) (tercile s 1) (tercile s 2) (tercile s 3) v) as [c Hc].
  - rewrite PatternFacts.tercile_first. apply Hin in Hv.
    destruct (In_nth _ _ 0 Hv) as [i [Hi <-]]. apply sorted_nth_Qle; [assumption|lia|assumption].
  - rewrite PatternFacts.tercile_last by (simpl; lia). apply Hin in Hv.
    destruct (In_nth _ _ 0 Hv) as [i [Hi <-]]. apply sorted_nth_Qle; [assumption|lia|simpl in *; lia].
  - cbn [map] in Hc. rewrite Hc. discriminate.
Qed.

(** The table that is merged back gives every author a category. *)
Lemma response_categories_present (df : list Post)
    (tbl : list (string * option ResponseCategory)) :
  response_categories df = Py.Ok tbl ->
  exists vals,
    tbl = combine (map fst (author_patterns df)) vals /\
    List.length vals = List.length (author_patterns df) /\
    Forall (fun c => c <> None) vals.
Proof.
  unfold response_categories.
  destruct (3 <=? List.length (author_patterns df))%nat.
  - destruct (author_patterns_uniform df) as [[vs Hvs]|Hnone].
    + rewrite Hvs. destruct (qcut (map Some vs)) as [cats|e] eqn:Hq; cbn [Py.bind]; [|discriminate].
      intros H. injection H as <-. exists cats.
      destruct (qcut_present _ _ Hq) as [Hlen Hall].
      split; [reflexivity|]. split; [|exact Hall].
      rewrite Hlen, <- (length_map Some vs), <- Hvs. apply length_map.
    + unfold qcut. rewrite (dropna_all_missing _ Hnone). cbn [isort fold_right Py.bind].
      discriminate.
  - cbn [Py.bind]. intros H. injection H as <-.
    exists (map (fun _ => Some moderate) (author_patterns df)).
    split; [reflexivity|]. split; [apply length_map|].
    apply Forall_forall. intros c Hc. apply in_map_iff in Hc. destruct Hc as [_ [<- _]].
    discriminate.
Qed.

Lemma user_patterns_as_map (df : list Post) :
  exists category_of : string -> ResponseCategory,
    _extract_user_patterns df
    = map (fun p => set_user_response_category (Some (category_of (author p))) p) df.
Proof.
  unfold _extract_user_patterns.
  destruct (response_categories df) as [tbl|e] eqn:E; cbn [Py.bind Py.try_except].
  - destruct (response_categories_present df tbl E) as [vals [-> [Hlen Hall]]].
    exists (fun a => match lookup_category (combine (map fst (author_patterns df)) vals) a with
                     | Some c => c
                     | None => moderate
                     end).
    unfold merge_category. apply map_ext_in. intros p Hp.
    pose proof (PatternFacts.lookup_category_in (map fst (author_patterns df)) vals (author p))
      as Hlook.
    rewrite length_map in Hlook. specialize (Hlook (eq_sym Hlen) (PatternFacts.author_in_patterns df p Hp)).
    rewrite Forall_forall in Hall. specialize (Hall _ Hlook).
    destruct (lookup_category _ (author p)); [reflexivity|congruence].
  - exists (fun _ => moderate). reflexivity.
Qed.

(** [_extract_user_patterns] never fails and keeps the frame: same rows in the
    same order, with one column written.  Every post gets a category, never a
    missing one; posts of one author get the same category; the engagement
    level written by the stage before is untouched. *)
Theorem user_patterns_total (df : list Post) :
  let out := _extract_user_patterns df in
  map author out = map author df /\
  map post_engagement_level out = map post_engagement_level df /\
  map post_avg_response_time out = map post_avg_response_time df /\
  Forall (fun p => exists c, user_response_category p = Some c) out /\
  (forall p q, In p out -> In q out -> author p = author q ->
               user_response_category p = user_response_category q).
Proof.
  cbv zeta. destruct (user_patterns_as_map df) as [category_of ->].
  rewrite !map_map. cbn [set_user_response_category author post_engagement_level
                         post_avg_response_time].
  repeat split.
  - apply Forall_forall. intros p Hp. apply in_map_iff in Hp. destruct Hp as [p0 [<- _]].
    eexists. reflexivity.
  - intros p q Hp Hq. apply in_map_iff in Hp. apply in_map_iff in Hq.
    destruct Hp as [p0 [<- _]]. destruct Hq as [q0 [<- _]].
    cbn [set_user_response_category author user_response_category].
    intros ->. reflexivity.
Qed.

End UserPatternFacts.

(** ** Time features *)

Module TimeFacts.

Import TimeFeatures.

Lemma hour_range (t : Z) : (0 <= hour t < 24)%Z.
Proof. unfold hour. apply Z.mod_pos_bound. lia. Qed.

Lemma dayofweek_range (t : Z) : (0 <= dayofweek t < 7)%Z.
Proof. unfold dayofweek. apply Z.mod_pos_bound. lia. Qed.

Lemma hour_shift_days (t k : Z) : hour (t + k * ns_per_day) = hour t.
Proof.
  unfold hour, ns_per_day.
  replace (t + k * (24 * ns_per_hour))%Z with (t + (k * 24) * ns_per_hour)%Z by ring.
  rewrite Z.div_add by (unfold ns_per_hour; lia).
  apply Z_mod_plus_full.
Qed.

Lemma dayofweek_shift_weeks (t k : Z) : dayofweek (t + k * 7 * ns_per_day) = dayofweek t.
Proof.
  unfold dayofweek.
  replace (t + k * 7 * ns_per_day)%Z with (t + (k * 7) * ns_per_day)%Z by ring.
  rewrite Z.div_add by (unfold ns_per_day, ns_per_hour; lia).
  replace (t / ns_per_day + k * 7 + 3)%Z with (t / ns_per_day + 3 + k * 7)%Z by ring.
  apply Z_mod_plus_full.
Qed.

(** The time features of every timestamp, also before 1970, are in range:
    an hour of the day, a day of the week, a weekend flag that is 1 exactly
    on days 5 and 6; and they repeat every week, the hour and the part of
    the day every day. *)
Theorem time_features_in_range_and_periodic (created_utc k : Z) :
  let f := _extract_time_features created_utc in
  (0 <= tf_hour_posted f < 24)%Z /\
  (0 <= tf_day_of_week f < 7)%Z /\
  (tf_is_weekend f = 1%Z /\ (5 <= tf_day_of_week f)%Z \/
   tf_is_weekend f = 0%Z /\ (tf_day_of_week f < 5)%Z) /\
  _extract_time_features (created_utc + k * 7 * ns_per_day) = f /\
  tf_hour_posted (_extract_time_features (created_utc + k * ns_per_day)) = tf_hour_posted f /\
  tf_time_of_day (_extract_time_features (created_utc + k * ns_per_day)) = tf_time_of_day f.
Proof.
  cbv zeta. unfold _extract_time_features. cbn [tf_hour_posted tf_day_of_week tf_is_weekend tf_time_of_day].
  pose proof (hour_range created_utc) as Hh.
  pose proof (dayofweek_range created_utc) as Hd.
  split; [exact Hh|]. split; [exact Hd|]. split.
  - destruct (Z.eqb_spec (dayofweek created_utc) 5); destruct (Z.eqb_spec (dayofweek created_utc) 6);
      cbn [orb]; lia.
  - rewrite dayofweek_shift_weeks.
    replace (created_utc + k * 7 * ns_per_day)%Z with (created_utc + (k * 7) * ns_per_day)%Z by ring.
    rewrite !hour_shift_days. repeat split.
Qed.

(** 1970-01-03 13:30 was a Saturday afternoon. *)
Example first_saturday :
  _extract_time_features ((2 * 24 + 13) * ns_per_hour + 30 * 60 * 1000000000)
  = {| tf_hour_posted := 13; tf_day_of_week := 5; tf_is_weekend := 1;
       tf_time_of_day := "afternoon" |}.
Proof. reflexivity. Qed.

End TimeFacts.

(** ** The rows returned by a query *)

Module NeighbourFacts.

Import RecommendationSystem RecommendationFacts.

(** On a model fitted on rows of [n_features] numbers the query is answered
    exactly when [0 <= n_recommendations < number of fitted rows] and the
    query has [n_features] numbers; the answer then lists
    [n_recommendations] distinct rows of the fitted set, each with its
    distance to the query. *)
Theorem recommendations_are_distinct_rows
    (knn_model : NearestNeighbors) (X : list vector) (x : vector) (n_recommendations : Z)
    (n_features : nat) :
  fit_X knn_model = Some X ->
  Forall (fun row => List.length row = n_features) X ->
  ((0 <= n_recommendations)%Z /\ (n_recommendations < Z.of_nat (List.length X))%Z /\
   List.length x = n_features <->
   exists r, get_recommendations knn_model x n_recommendations = Py.Ok r) /\
  (forall idx dist,
      get_recommendations knn_model x n_recommendations = Py.Ok (idx, dist) ->
      List.length idx = Z.to_nat n_recommendations /\
      NoDup idx /\
      Forall2 (fun j d => exists w, nth_error X j = Some w /\ d = metric knn_model x w)
              idx dist).
Proof.
  intros Hfit Hrows. split.
  - split.
    + intros [Hn [Hsize Hx]].
      assert (Hfeatures : has_fitted_features X x = true).
      { apply rows_have_features; [intros ->; simpl in Hsize; lia|].
        eapply Forall_impl; [|exact Hrows]. intros row Hrow. cbv beta in Hrow. congruence. }
      destruct (get_recommendations_ok knn_model X x n_recommendations Hfit Hn ltac:(lia)
                  Hfeatures)
        as [first [rest [_ [Hget _]]]].
      eexists. exact Hget.
    + intros [r Hr].
      destruct (get_recommendations_inv knn_model X x n_recommendations r Hfit Hr)
        as [Hn [Hsize Hfeatures]].
      split; [exact Hn|]. split; [lia|].
      apply has_fitted_features_iff in Hfeatures. destruct Hfeatures as [row [Hin Hlen]].
      rewrite Forall_forall in Hrows. rewrite <- Hlen. now apply Hrows.
  - intros idx dist Hget.
    destruct (get_recommendations_inv knn_model X x n_recommendations _ Hfit Hget)
      as [Hn [Hsize Hfeatures]].
    destruct (get_recommendations_ok knn_model X x n_recommendations Hfit Hn Hsize Hfeatures)
      as [first [rest [E [Hget' Hlen]]]].
    rewrite Hget' in Hget. injection Hget as <- <-.
    destruct (ranked_rest (metric knn_model) X x first rest (Z.to_nat n_recommendations) E)
      as [_ [Hnd [_ Hpairs]]].
    rewrite length_map. auto.
Qed.

Lemma recommendations_are_distinct_rows_witness :
  fit_X Examples.spread_model = Some Examples.spread_rows /\
  exists idx dist,
    get_recommendations Examples.spread_model [1; 1] 2 = Py.Ok (idx, dist) /\ NoDup idx.
Proof.
  assert (Hfit : fit_X Examples.spread_model = Some Examples.spread_rows) by reflexivity.
  assert (Hrows : Forall (fun row : vector => List.length row = 2%nat) Examples.spread_rows)
    by (repeat constructor).
  split; [exact Hfit|].
  destruct (recommendations_are_distinct_rows Examples.spread_model Examples.spread_rows
              [1; 1] 2 2 Hfit Hrows) as [[Hex _] Hprop].
  destruct Hex as [[idx dist] Hget]; [simpl; repeat split; lia|].
  exists idx, dist. split; [exact Hget|]. exact (proj1 (proj2 (Hprop idx dist Hget))).
Defined.

End NeighbourFacts.

(** ** The data file that is loaded *)

Module InteractiveFacts.

Import Interactive Samples.

(** The names found in the raw directory. *)

(** *** The order on names *)

Lemma ascii_compare_refl (a : ascii) : Ascii.compare a a = Eq.
Proof. unfold Ascii.compare. apply N.compare_refl. Qed.

Lemma ascii_compare_lt_trans (a b c : ascii) :
  Ascii.compare a b = Lt -> Ascii.compare b c = Lt -> Ascii.compare a c = Lt.
Proof. unfold Ascii.compare. rewrite !N.compare_lt_iff. lia. Qed.

Lemma compare_refl (s : string) : String.compare s s = Eq.
Proof.
  induction s as [|a s IH]; simpl; [reflexivity|]. now rewrite ascii_compare_refl.
Qed.

Lemma compare_lt_trans (x y z : string) :
  String.compare x y = Lt -> String.compare y z = Lt -> String.compare x z = Lt.
Proof.
  revert y z. induction x as [|a x IH]; intros [|b y] [|c z]; simpl; try congruence.
  destruct (Ascii.compare a b) eqn:Eab; destruct (Ascii.compare b c) eqn:Ebc;
    try congruence; intros Hxy Hyz.
  - apply Ascii.compare_eq_iff in Eab, Ebc. subst. rewrite ascii_compare_refl. eauto.
  - apply Ascii.compare_eq_iff in Eab. subst. now rewrite Ebc.
  - apply Ascii.compare_eq_iff in Ebc. subst. now rewrite Eab.
  - now rewrite (ascii_compare_lt_trans _ _ _ Eab Ebc).
Qed.

Lemma leb_refl (s : string) : String.leb s s = true.
Proof. unfold String.leb. now rewrite compare_refl. Qed.

Lemma leb_trans (x y z : string) :
  String.leb x y = true -> String.leb y z = true -> String.leb x z = true.
Proof.
  unfold String.leb.
  destruct (String.compare x y) eqn:Exy; try discriminate;
    destruct (String.compare y z) eqn:Eyz; try discriminate; intros _ _.
  - apply String.compare_eq_iff in Exy, Eyz. subst. now rewrite compare_refl.
  - apply String.compare_eq_iff in Exy. subst. now rewrite Eyz.
  - apply String.compare_eq_iff in Eyz. subst. now rewrite Exy.
  - now rewrite (compare_lt_trans _ _ _ Exy Eyz).
Qed.

Lemma pick_upper (first g : string) :
  String.leb first (if String.ltb first g then g else first) = true /\
  String.leb g (if String.ltb first g then g else first) = true.
Proof.
  unfold String.ltb, String.leb.
  destruct (String.compare first g) eqn:E.
  - apply String.compare_eq_iff in E. subst. now rewrite compare_refl.
  - rewrite compare_refl, E. auto.
  - rewrite compare_refl, String.compare_antisym, E. auto.
Qed.

Lemma max_name_spec (first : string) (rest : list string) :
  In (max_name first rest) (first :: rest) /\
  forall f, In f (first :: rest) -> String.leb f (max_name first rest) = true.
Proof.
  revert first. induction rest as [|g rest IH]; intros first; cbn [max_name].
  - split; [now left|]. intros f [<-|[]]. apply leb_refl.
  - destruct (IH (if String.ltb first g then g else first)) as [Hin Hmax].
    destruct (pick_upper first g) as [Hfirst Hg].
    split.
    + destruct Hin as [Hin|Hin]; [|now right; right].
      rewrite <- Hin. destruct (String.ltb first g); [right; now left|now left].
    + intros f [<-|[<-|Hf]].
      * eapply leb_trans; [exact Hfirst|]. apply Hmax. now left.
      * eapply leb_trans; [exact Hg|]. apply Hmax. now left.
      * apply Hmax. now right.
Qed.

(** [load_latest_data] fails exactly when no name of the directory starts
    with [dating_posts_]; otherwise it opens, under [data/raw/], one of these
    names, and no other such name comes after it in the order of strings. *)
Theorem latest_data_file_is_greatest (listing : list string) :
  (latest_data_file listing = None <->
   forall f, In f listing -> String.prefix "dating_posts_" f = false) /\
  (forall path,
      latest_data_file listing = Some path ->
      exists name,
        path = ("data/raw/" ++ name)%string /\
        In name listing /\
        String.prefix "dating_posts_" name = true /\
        forall f, In f listing -> String.prefix "dating_posts_" f = true ->
                  String.leb f name = true).
Proof.
  unfold latest_data_file.
  destruct (filter (String.prefix "dating_posts_") listing) as [|f0 fs] eqn:E.
  - split.
    + split; [|reflexivity]. intros _ f Hf.
      destruct (String.prefix "dating_posts_" f) eqn:P; [|reflexivity].
      assert (Hin : In f (filter (String.prefix "dating_posts_") listing))
        by (apply filter_In; auto).
      rewrite E in Hin. contradiction.
    + intros path H. discriminate.
  - split.
    + split; [discriminate|]. intros H. exfalso.
      assert (Hin : In f0 (filter (String.prefix "dating_posts_") listing))
        by (rewrite E; now left).
      apply filter_In in Hin. destruct Hin as [Hin P]. rewrite (H _ Hin) in P. discriminate.
    + intros path H. injection H as <-.
      destruct (max_name_spec f0 fs) as [Hin Hmax].
      exists (max_name f0 fs). split; [reflexivity|].
      rewrite <- E in Hin. apply filter_In in Hin. destruct Hin as [Hin P].
      split; [exact Hin|]. split; [exact P|].
      intros f Hf Pf. apply Hmax. rewrite <- E. apply filter_In. auto.
Qed.

Lemma latest_data_file_is_greatest_witness :
  latest_data_file raw_listing = Some "data/raw/dating_posts_20240301_090000.json"%string /\
  exists name,
    In name raw_listing /\
    forall f, In f raw_listing -> String.prefix "dating_posts_" f = true ->
              String.leb f name = true.
Proof.
  assert (E : latest_data_file raw_listing
              = Some "data/raw/dating_posts_20240301_090000.json"%string) by reflexivity.
  split; [exact E|].
  destruct (proj2 (latest_data_file_is_greatest raw_listing) _ E) as [name [_ [Hin [_ Hmax]]]].
  exists name. split; [exact Hin|exact Hmax].
Defined.

End InteractiveFacts.

(** ** Scoring the preferences of the prompt *)

Module PromptFacts.

Import Spec Examples BehaviorAnalyzer RedditDatingAnalysis Interactive Notions.

(** Whatever is typed at the prompts, the preferences are well formed; an
    answer that is not 1, 2 or 3 selects neutral, 6 hours and medium. *)
Lemma prompt_preferences_valid (style_choice time_choice engagement_choice : string) :
  let p := get_user_preferences style_choice time_choice engagement_choice in
  (pref_communication_style p = "positive"%string \/
   pref_communication_style p = "neutral"%string \/
   pref_communication_style p = "critical"%string) /\
  (pref_response_time p = 1 \/ pref_response_time p = 6 \/ pref_response_time p = 24) /\
  valid_level (pref_engagement_level p).
Proof.
  unfold get_user_preferences, dict_get, valid_level.
  cbn [pref_communication_style pref_response_time pref_engagement_level Py.getitem].
  destruct (String.eqb style_choice "1"); destruct (String.eqb style_choice "2");
    destruct (String.eqb style_choice "3");
    destruct (String.eqb time_choice "1"); destruct (String.eqb time_choice "2");
    destruct (String.eqb time_choice "3");
    destruct (String.eqb engagement_choice "1"); destruct (String.eqb engagement_choice "2");
    destruct (String.eqb engagement_choice "3");
    cbn [Py.try_except]; tauto.
Qed.

Lemma scorer_style_capitalised (profile : UserBehavior) :
  _get_communication_style profile = "Positive"%string \/
  _get_communication_style profile = "Critical"%string \/
  _get_communication_style profile = "Neutral"%string.
Proof.
  unfold _get_communication_style.
  destruct (Py.gt (sentiment_mean profile) 0.2); [now left|].
  destruct (Py.lt (sentiment_mean profile) (-0.2)); [right; now left|right; now right].
Qed.

Lemma time_score_bounds (d : Q) :
  0 <= d ->
  0 <= (if Py.le d 1 then 1.0
        else if Py.le d 3 then 0.8
        else if Py.le d 6 then 0.6
        else if Py.le d 12 then 0.4
        else Py.max 0 (1 - d / 24)) <= 1.
Proof.
  intros Hd.
  destruct (Py.le d 1); [lra|]. destruct (Py.le d 3); [lra|].
  destruct (Py.le d 6); [lra|]. destruct (Py.le d 12); [lra|].
  split; [apply PyFacts.max_ge_left|].
  unfold Py.max. destruct (Py.gt (1 - d / 24) 0); [|lra].
  assert (0 <= d / 24) by (apply Qle_shift_div_l; lra). lra.
Qed.

Lemma activity_score_bounds (diff : Z) :
  0 <= Py.max 0 (1 - inject_Z (Z.abs diff) / 5) <= 1.
Proof.
  split; [apply PyFacts.max_ge_left|].
  unfold Py.max. destruct (Py.gt _ 0); [|lra].
  assert (0 <= inject_Z (Z.abs diff)).
  { change 0 with (inject_Z 0). rewrite <- Zle_Qle. lia. }
  assert (0 <= inject_Z (Z.abs diff) / 5) by (apply Qle_shift_div_l; lra). lra.
Qed.

Lemma min_le_right (a b : Q) : Py.min a b <= b.
Proof.
  unfold Py.min. destruct (Py.lt b a) eqn:E; [apply Qle_refl|].
  now apply PyFacts.lt_false_iff in E.
Qed.

Lemma max_lub (a b c : Q) : a <= c -> b <= c -> Py.max a b <= c.
Proof. intros Ha Hb. unfold Py.max. destruct (Py.gt b a); assumption. Qed.

(** What remains of the scoring after the engagement component. *)
Lemma score_tail_bounds (s1 a M : Q) (b1 b2 : bool) :
  0 <= s1 <= M -> 0 <= a <= 1 ->
  0 <= Py.min 100
         (Py.max 0
            (if b2
             then (if b1 then (s1 + weights_activity * a) * 0.8 else s1 + weights_activity * a) * 0.9
             else if b1 then (s1 + weights_activity * a) * 0.8 else s1 + weights_activity * a))
    <= M + 15.
Proof.
  intros Hs Ha. unfold weights_activity.
  split; [apply PyFacts.clamp_bounds|].
  eapply Qle_trans; [apply min_le_right|].
  apply max_lub; [lra|]. destruct b1, b2; lra.
Qed.

(** For preferences entered at the prompt and a profile whose engagement
    level is one of the three bins, scoring never takes the exception path;
    the score is at most 82.5, and at most 65 unless the preferred style is
    neutral: the full weight of the style component is never awarded. *)
Theorem prompt_scoring_never_raises
    (style_choice time_choice engagement_choice : string) (user_data : UserBehavior) :
  valid_level (engagement_level user_data) ->
  let preferences := get_user_preferences style_choice time_choice engagement_choice in
  exists s,
    match_score_body preferences user_data = Py.Ok s /\
    calculate_match_score preferences user_data = s /\
    0 <= s <= 82.5 /\
    (pref_communication_style preferences <> "neutral"%string -> s <= 65).
Proof.
  intros Hlevel preferences.
  destruct (prompt_preferences_valid style_choice time_choice engagement_choice)
    as [Hstyle [_ Hplevel]].
  fold preferences in Hstyle, Hplevel.
  unfold calculate_match_score, match_score_body.
  match goal with
  | |- context [ ?x + weights_response_time * ?t ] => set (C := x); set (TS := t)
  end.
  assert (HC : 0 <= C <= 17.5 /\
               (pref_communication_style preferences <> "neutral"%string -> C <= 0)).
  { unfold C, weights_communication_style.
    destruct (scorer_style_capitalised user_data) as [-> | [-> | -> ]];
      destruct Hstyle as [-> | [-> | -> ]]; cbn; split; try lra; intros H; try lra; congruence. }
  assert (HTS : 0 <= TS <= 1) by (apply time_score_bounds, Qabs_nonneg).
  clearbody C TS. destruct HC as [HC HC0].
  unfold valid_level in *. unfold weights_response_time, weights_engagement_level.
  assert (Hlookup : forall l, valid_level l ->
            exists k, Py.getitem level_rank l = Py.Ok k /\
            exists f, Py.getitem level_expected_freq l = Py.Ok f).
  { intros l [-> | [-> | -> ]]; eexists; (split; [reflexivity|]); eexists; reflexivity. }
  destruct (Hlookup _ Hlevel) as [ku [Hku _]].
  destruct (Hlookup _ Hplevel) as [kp [Hkp [fp Hfp]]].
  rewrite Hku, Hkp, Hfp.
  destruct (String.eqb (engagement_level user_data) (pref_engagement_level preferences));
    cbn [Py.bind]; [|destruct (Z.abs (ku - kp) =? 1)%Z]; cbn [Py.bind Py.try_except];
    eexists; (split; [reflexivity|]); (split; [reflexivity|]).
  all: pose proof (activity_score_bounds (message_frequency user_data - fp)) as HA.
  all: split; [split; [apply PyFacts.clamp_bounds|]|intros Hn; specialize (HC0 Hn)].
  all: try (eapply Qle_trans;
            [eapply (fun H1 H2 => proj2 (score_tail_bounds _ _ 67.5 _ _ H1 H2));
             [lra|exact HA]|lra]).
  all: eapply Qle_trans;
    [eapply (fun H1 H2 => proj2 (score_tail_bounds _ _ 50 _ _ H1 H2)); [lra|exact HA]|lra].
Qed.

Lemma prompt_scoring_never_raises_witness :
  valid_level (engagement_level example_profile) /\
  exists s,
    match_score_body (get_user_preferences "1" "1" "1") example_profile = Py.Ok s /\
    0 <= s <= 82.5.
Proof.
  assert (H : valid_level (engagement_level example_profile)) by (right; right; reflexivity).
  split; [exact H|].
  destruct (prompt_scoring_never_raises "1" "1" "1" example_profile H) as [s [Hs [_ [Hb _]]]].
  exists s. split; [exact Hs|exact Hb].
Defined.

End PromptFacts.

(** ** The ranking of the candidates *)

Module RankingFacts.

Import Spec Examples BehaviorAnalyzer RedditDatingAnalysis.

Section Stable.

Context {A : Type} (leb : A -> A -> bool) (P : A -> bool).

(** The elements selected by [P] are never passed over by one another. *)
Hypothesis class_le : forall x y, P x = true -> P y = true -> leb x y = true.

Lemma insert_filter (x : A) (l : list A) :
  filter P (insert leb x l) = if P x then x :: filter P l else filter P l.
Proof.
  induction l as [|y l IH]; simpl; [reflexivity|].
  destruct (leb x y) eqn:E; simpl; [reflexivity|].
  rewrite IH. destruct (P x) eqn:Px; [|reflexivity].
  destruct (P y) eqn:Py; [|reflexivity].
  rewrite (class_le x y Px Py) in E. discriminate.
Qed.

Lemma isort_filter (l : list A) : filter P (isort leb l) = filter P l.
Proof.
  induction l as [|x l IH]; simpl; [reflexivity|].
  rewrite insert_filter, IH. reflexivity.
Qed.

End Stable.

Lemma sorted_app_inv {A : Type} (R : A -> A -> Prop) (l1 l2 : list A) :
  StronglySorted R (l1 ++ l2) -> forall a b, In a l1 -> In b l2 -> R a b.
Proof.
  induction l1 as [|x l1 IH]; intros Hs a b Ha Hb; [contradiction|].
  simpl in Hs. apply StronglySorted_inv in Hs. destruct Hs as [Hs Hx].
  destruct Ha as [<-|Ha].
  - rewrite Forall_forall in Hx. apply Hx. apply in_or_app. now right.
  - now apply IH.
Qed.

Lemma by_score_desc_sorted (ms : list Match) :
  StronglySorted (fun a b => score b <= score a) (isort by_score_desc ms).
Proof.
  assert (H : StronglySorted (fun a b => by_score_desc a b = true) (isort by_score_desc ms)).
  { apply isort_sorted; unfold by_score_desc.
    - intros a b. rewrite !Qle_bool_iff.
      destruct (Qlt_le_dec (score a) (score b)) as [Hlt|Hle]; [right|left]; lra.
    - intros a b c. rewrite !Qle_bool_iff. lra. }
  induction H as [|a l Hs IH Ha]; constructor; [exact IH|].
  eapply Forall_impl; [|exact Ha]. intros b. apply Qle_bool_iff.
Qed.

(** [find_matches] returns the first [n_recommendations] entries of a
    ranking of all candidates: the ranking is a rearrangement of the
    candidates of the table, candidates with the same score keep their table
    order, and no candidate that is left out has a higher score than one
    that is returned. *)
Theorem find_matches_stable_top
    (preferences : Preferences) (behavior_data : list (string * UserBehavior))
    (n_recommendations : nat) :
  let entries := map (entry preferences behavior_data) (map fst behavior_data) in
  exists ranking,
    find_matches preferences behavior_data n_recommendations
    = Py.Ok (firstn n_recommendations ranking) /\
    Permutation entries ranking /\
    (forall q, filter (fun m => Qeq_bool (score m) q) ranking
               = filter (fun m => Qeq_bool (score m) q) entries) /\
    (forall m m', In m (firstn n_recommendations ranking) ->
                  In m' (skipn n_recommendations ranking) ->
                  score m' <= score m).
Proof.
  intros entries. exists (isort by_score_desc entries).
  split; [|split; [|split]].
  - unfold find_matches. rewrite MatchScoreFacts.candidates_ok. reflexivity.
  - apply isort_perm.
  - intros q. apply isort_filter. intros x y Hx Hy. unfold by_score_desc.
    apply Qeq_bool_iff in Hx, Hy. apply Qle_bool_iff. rewrite Hx, Hy. apply Qle_refl.
  - intros m m' Hm Hm'.
    pose proof (by_score_desc_sorted entries) as Hs.
    rewrite <- (firstn_skipn n_recommendations (isort by_score_desc entries)) in Hs.
    exact (sorted_app_inv _ _ _ Hs m m' Hm Hm').
Qed.

(** Two candidates with the same profile: the one listed first is ranked
    first. *)
Example equal_scores_keep_table_order :
  match find_matches example_preferences
          [("second"%string, failing_profile); ("a"%string, example_profile);
           ("b"%string, example_profile)] 2 with
  | Py.Ok top => map user top = ["a"%string; "b"%string]
  | Py.Raise _ => False
  end.
Proof. reflexivity. Qed.

End RankingFacts.

(** ** The dashboard *)

Module DashboardFacts.

Import BehaviorAnalyzer Visualizer.

(** The pie of communication styles sorts a user by the thresholds of the
    profile view; it calls Negative what the view calls Critical. *)
Lemma pie_style_follows_view (x : UserBehavior) :
  (pie_style x = "Positive"%string /\ _get_communication_style x = "Positive"%string) \/
  (pie_style x = "Negative"%string /\ _get_communication_style x = "Critical"%string) \/
  (pie_style x = "Neutral"%string /\ _get_communication_style x = "Neutral"%string).
Proof.
  unfold pie_style, _get_communication_style.
  destruct (Py.gt (sentiment_mean x) 0.2); [now left|].
  destruct (Py.lt (sentiment_mean x) (-0.2)); [right; now left|right; now right].
Qed.

End DashboardFacts.

(** ** Response times of a post *)

Module ResponseTimeFacts.

Import Spec Examples DataProcessor Notions.

Lemma sorted_perm_eq (l l' : list Z) :
  StronglySorted Z.le l -> StronglySorted Z.le l' -> Permutation l l' -> l = l'.
Proof.
  intros Hs. revert l'. induction Hs as [|a l Hs IH Ha]; intros l' Hs' Hp.
  - apply Permutation_nil in Hp. now subst.
  - destruct l' as [|b l']; [apply Permutation_sym, Permutation_nil in Hp; discriminate|].
    apply StronglySorted_inv in Hs'. destruct Hs' as [Hs' Hb].
    rewrite Forall_forall in Ha, Hb.
    assert (a = b).
    { assert (Hab : In a (b :: l')) by (apply (Permutation_in _ Hp); now left).
      assert (Hba : In b (a :: l)) by (apply (Permutation_in _ (Permutation_sym Hp)); now left).
      destruct Hab as [->|Hab]; [reflexivity|]. destruct Hba as [->|Hba]; [reflexivity|].
      pose proof (Ha _ Hba). pose proof (Hb _ Hab). lia. }
    subst b. f_equal. apply IH; [exact Hs'|]. eapply Permutation_cons_inv. exact Hp.
Qed.

(** The differences do not depend on the order of the comments. *)
Lemma response_times_perm (comments comments' : list Comment) :
  Permutation comments comments' ->
  _calculate_response_times comments = _calculate_response_times comments'.
Proof.
  intros Hp.
  assert (Hm : Permutation (map c_created_utc comments) (map c_created_utc comments'))
    by (apply Permutation_map, Hp).
  unfold _calculate_response_times.
  destruct (notna_all (map c_created_utc comments)) as [stamps|] eqn:E.
  - apply CommentFacts.notna_all_some in E. rewrite E in Hm.
    apply Permutation_sym, Permutation_map_inv in Hm. destruct Hm as [stamps' [E' Hs]].
    rewrite (proj2 (CommentFacts.notna_all_some _ _) E'). f_equal. f_equal.
    apply sorted_perm_eq; try apply CommentFacts.sorted_timestamps.
    rewrite <- !isort_perm. exact Hs.
  - apply CommentFacts.notna_all_none in E.
    rewrite (proj2 (CommentFacts.notna_all_none _) (Permutation_in _ Hm E)).
    pose proof (Permutation_length Hp) as Hlen.
    destruct comments as [|c [|c1 cs]]; destruct comments' as [|c' [|c1' cs']];
      simpl in Hlen; try discriminate Hlen; reflexivity.
Qed.

(** The number of comments and the response time of a post do not depend on
    the order in which its comments are listed: the timestamps are sorted
    before the differences are taken, and a missing timestamp makes the
    response time of two or more comments missing wherever it stands. *)
Theorem response_time_ignores_order (comments comments' : list Comment) :
  Permutation comments comments' ->
  let f := _extract_comment_features comments in
  let f' := _extract_comment_features comments' in
  cf_total_comments f = cf_total_comments f' /\
  cf_avg_response_time f = cf_avg_response_time f'.
Proof.
  intros Hp.
  destruct comments as [|c cs].
  { apply Permutation_nil in Hp. subst. cbv zeta. split; reflexivity. }
  destruct comments' as [|c' cs'].
  { apply Permutation_sym, Permutation_nil in Hp. discriminate. }
  cbv zeta. cbn [_extract_comment_features cf_total_comments cf_avg_response_time].
  split; [now rewrite (Permutation_length Hp)|].
  now rewrite (response_times_perm _ _ Hp).
Qed.

Lemma response_time_ignores_order_witness :
  Permutation [comment_at 5; comment_at 0; comment_at 2] [comment_at 0; comment_at 2; comment_at 5] /\
  cf_avg_response_time (_extract_comment_features [comment_at 5; comment_at 0; comment_at 2])
  = cf_avg_response_time (_extract_comment_features [comment_at 0; comment_at 2; comment_at 5]).
Proof.
  assert (H : Permutation [comment_at 5; comment_at 0; comment_at 2]
                          [comment_at 0; comment_at 2; comment_at 5]).
  { apply Permutation_sym. apply perm_trans with [comment_at 0; comment_at 5; comment_at 2].
    - apply perm_skip, perm_swap.
    - apply perm_swap. }
  split; [exact H|].
  exact (proj2 (response_time_ignores_order _ _ H)).
Defined.

(** The means of the sentiments, the lengths and the word counts are sums
    in the order of the list: the sentiments 0.1, 0.2, 0.3 have the mean
    0.20000000000000004, the same sentiments in the opposite order the mean
    0.19999999999999998. *)
Example sentiment_mean_depends_on_order :
  cf_comment_sentiment_mean
    (_extract_comment_features [comment_feeling 0.1; comment_feeling 0.2; comment_feeling 0.3])
  = 7205759403792795 # 36028797018963968 /\
  cf_comment_sentiment_mean
    (_extract_comment_features [comment_feeling 0.3; comment_feeling 0.2; comment_feeling 0.1])
  = 7205759403792793 # 36028797018963968.
Proof. split; vm_compute; reflexivity. Qed.

End ResponseTimeFacts.

(** ** Invariants of the behaviour table *)

Module ProfileInvariants.

Import Spec Examples DataProcessor BehaviorAnalyzer Notions.

(** *** Means and counts *)

Lemma sum_bounds (lo hi : Q) (xs : list Q) :
  Forall (fun x => lo <= x <= hi) xs ->
  lo * of_nat (List.length xs) <= Py.sum xs <= hi * of_nat (List.length xs).
Proof.
  unfold of_nat. induction 1 as [|x xs Hx _ IH].
  - simpl. change (inject_Z 0) with 0. lra.
  - cbn [Py.sum fold_right List.length]. fold (Py.sum xs).
    rewrite Nat2Z.inj_succ. unfold Z.succ. rewrite inject_Z_plus.
    change (inject_Z 1) with 1. lra.
Qed.

Lemma mean_bounds (lo hi : Q) (xs : list Q) :
  xs <> [] -> Forall (fun x => lo <= x <= hi) xs -> lo <= Py.mean xs <= hi.
Proof.
  intros Hne H. pose proof (sum_bounds lo hi xs H) as [Hl Hh].
  assert (Hpos : 0 < of_nat (List.length xs)).
  { unfold of_nat. change 0 with (inject_Z 0). rewrite <- Zlt_Qlt.
    destruct xs; [contradiction|simpl; lia]. }
  unfold Py.mean. fold (of_nat (List.length xs)). split.
  - apply Qle_shift_div_l; [exact Hpos|exact Hl].
  - apply Qle_shift_div_r; [exact Hpos|exact Hh].
Qed.

Lemma unique_Z_NoDup (l : list Z) : NoDup (unique Z.eqb l).
Proof.
  induction l as [|x l IH]; simpl; constructor.
  - intro H. apply filter_In in H. destruct H as [_ H].
    rewrite Z.eqb_refl in H. discriminate.
  - now apply NoDup_filter.
Qed.

Lemma unique_length_le {A : Type} (eqb : A -> A -> bool) (l : list A) :
  (List.length (unique eqb l) <= List.length l)%nat.
Proof.
  induction l as [|x l IH]; simpl; [lia|].
  pose proof (filter_length_le (fun y => negb (eqb x y)) (unique eqb l)). lia.
Qed.

(** At most 24 different hours of the day. *)
Lemma nunique_hours (hours : list Z) :
  Forall (fun h => (0 <= h < 24)%Z) hours -> (nunique hours <= 24)%Z.
Proof.
  intros H. unfold nunique.
  assert (Hincl : incl (unique Z.eqb hours) (map Z.of_nat (seq 0 24))).
  { intros h Hh. apply unique_incl in Hh. rewrite Forall_forall in H. specialize (H _ Hh).
    apply in_map_iff. exists (Z.to_nat h). split; [lia|]. apply in_seq. lia. }
  pose proof (NoDup_incl_length (unique_Z_NoDup hours) Hincl) as Hlen.
  rewrite length_map, length_seq in Hlen. lia.
Qed.

(** *** One row of the table *)

Lemma user_metrics_inv (df : list Post) (u : string) (row : UserBehavior) :
  In u (map author df) ->
  user_metrics df u = Py.Ok row ->
  let user_posts := filter (fun p => String.eqb (author p) u) df in
  user_posts <> [] /\
  exists l : Engagement,
    row = {| avg_response_time := Py.mean (map (fun p => fillna 0 (post_avg_response_time p)) user_posts);
             message_frequency := Z.of_nat (List.length user_posts);
             avg_message_length := Py.mean (map (fun p => fillna 0 (avg_words_per_comment p)) user_posts);
             sentiment_mean := Py.mean (map (fun p => fillna 0 (comment_sentiment_mean p)) user_posts);
             engagement_level := engagement_label l;
             active_hours := nunique (map hour_posted user_posts);
             weekend_activity := Py.mean (map (fun p => inject_Z (is_weekend p)) user_posts) |}.
Proof.
  intros Hu. unfold user_metrics. cbv zeta.
  remember (filter (fun p => String.eqb (author p) u) df) as user_posts eqn:Eups.
  assert (Hne : user_posts <> []).
  { apply in_map_iff in Hu. destruct Hu as [p [Hp Hin]].
    assert (In p user_posts)
      by (subst user_posts; apply filter_In; split; [exact Hin|rewrite Hp; apply String.eqb_refl]).
    intro E. rewrite E in H. contradiction. }
  intros H. split; [exact Hne|].
  destruct user_posts as [|q qs]; [contradiction|].
  remember (q :: qs) as ups eqn:E.
  destruct (iloc0 (mode (map post_engagement_level ups))) as [l|e]; cbn [Py.bind] in H;
    [|discriminate H].
  exists l. injection H as <-. reflexivity.
Qed.

Lemma user_metrics_counts (df : list Post) (u : string) (row : UserBehavior) :
  In u (map author df) ->
  user_metrics df u = Py.Ok row ->
  message_frequency row
  = Z.of_nat (List.length (filter (fun p => String.eqb (author p) u) df)) /\
  (1 <= active_hours row <= message_frequency row)%Z /\
  valid_level (engagement_level row).
Proof.
  intros Hu H. destruct (user_metrics_inv df u row Hu H) as [Hne [l ->]].
  cbn [message_frequency active_hours engagement_level].
  remember (filter (fun p => String.eqb (author p) u) df) as ups eqn:E. clear E.
  split; [reflexivity|]. split.
  - unfold nunique.
    pose proof (unique_length_le Z.eqb (map hour_posted ups)) as Hle.
    rewrite length_map in Hle.
    assert (H1 : (1 <= List.length (unique Z.eqb (map hour_posted ups)))%nat).
    { destruct ups as [|q qs]; [contradiction|]. cbn [map unique List.length]. lia. }
    lia.
  - unfold valid_level. destruct l; simpl; auto.
Qed.

Lemma user_metrics_ranges (df : list Post) (u : string) (row : UserBehavior) :
  In u (map author df) ->
  user_metrics df u = Py.Ok row ->
  (Forall (fun p => (0 <= hour_posted p < 24)%Z) df -> (active_hours row <= 24)%Z) /\
  (Forall (fun p => is_weekend p = 0%Z \/ is_weekend p = 1%Z) df ->
   0 <= weekend_activity row <= 1) /\
  (Forall (fun p => forall v, post_avg_response_time p = Some v -> 0 <= v) df ->
   0 <= avg_response_time row).
Proof.
  intros Hu H. destruct (user_metrics_inv df u row Hu H) as [Hne [l ->]].
  cbn [active_hours weekend_activity avg_response_time].
  assert (Hsub : forall p, In p (filter (fun p => String.eqb (author p) u) df) -> In p df).
  { intros p Hp. apply filter_In in Hp. tauto. }
  remember (filter (fun p => String.eqb (author p) u) df) as ups eqn:E. clear E.
  split; [|split]; intros Hall; rewrite Forall_forall in Hall.
  - apply nunique_hours. apply Forall_forall. intros h Hh. apply in_map_iff in Hh.
    destruct Hh as [p [<- Hp]]. auto.
  - apply mean_bounds; [destruct ups; [contradiction|discriminate]|].
    apply Forall_forall. intros x Hx. apply in_map_iff in Hx. destruct Hx as [p [<- Hp]].
    destruct (Hall p (Hsub p Hp)) as [E | E]; rewrite E;
      [change (inject_Z 0) with 0|change (inject_Z 1) with 1]; cbv beta; lra.
  - apply CommentFacts.mean_nonneg.
    apply Forall_forall. intros x Hx. apply in_map_iff in Hx. destruct Hx as [p [<- Hp]].
    destruct (post_avg_response_time p) as [v|] eqn:Ev; simpl; [|lra].
    exact (Hall p (Hsub p Hp) v Ev).
Qed.

(** *** Every post is counted once *)

Lemma count_once (keys : list string) (a : string) :
  NoDup keys -> In a keys ->
  List.length (filter (fun u => String.eqb a u) keys) = 1%nat.
Proof.
  induction 1 as [|k keys Hk Hnd IH]; intros Hin; [contradiction|].
  simpl. destruct (String.eqb_spec a k) as [->|Hne].
  - simpl. f_equal.
    assert (E : filter (fun u => String.eqb k u) keys = []).
    { clear IH Hin Hnd. induction keys as [|k' keys IH]; [reflexivity|].
      simpl. destruct (String.eqb_spec k k') as [->|_].
      - exfalso. apply Hk. now left.
      - apply IH. intro H. apply Hk. now right. }
    now rewrite E.
  - apply IH. destruct Hin as [->|Hin]; [contradiction|exact Hin].
Qed.

Lemma group_sizes_cons (keys : list string) (p : Post) (df : list Post) :
  fold_right (fun u acc =>
                (Z.of_nat (List.length (filter (fun q => String.eqb (author q) u) (p :: df))) + acc)%Z)
             0%Z keys
  = (fold_right (fun u acc =>
                   (Z.of_nat (List.length (filter (fun q => String.eqb (author q) u) df)) + acc)%Z)
                0%Z keys
     + Z.of_nat (List.length (filter (fun u => String.eqb (author p) u) keys)))%Z.
Proof.
  induction keys as [|k keys IH]; [reflexivity|].
  cbn [fold_right]. rewrite IH. cbn [filter].
  destruct (String.eqb (author p) k); cbn [List.length]; lia.
Qed.

Lemma group_sizes_add_up (keys : list string) (df : list Post) :
  NoDup keys -> (forall p, In p df -> In (author p) keys) ->
  fold_right (fun u acc =>
                (Z.of_nat (List.length (filter (fun p => String.eqb (author p) u) df)) + acc)%Z)
             0%Z keys
  = Z.of_nat (List.length df).
Proof.
  intros Hnd. induction df as [|p df IH]; intros Hin.
  - simpl. clear. induction keys as [|k keys IHk]; [reflexivity|].
    simpl. now rewrite IHk.
  - rewrite group_sizes_cons.
    rewrite (IH (fun q Hq => Hin q (or_intror Hq))).
    rewrite (count_once keys (author p) Hnd (Hin p (or_introl eq_refl))).
    cbn [List.length]. lia.
Qed.

(** *** The whole table *)

Lemma traverse_rows {K V : Type} (f : K -> Py.result V) (l : list K) (ys : list (K * V)) :
  Py.traverse (fun u => (m <- f u ;; ret (u, m))%py) l = Py.Ok ys ->
  Forall2 (fun u r => fst r = u /\ f u = Py.Ok (snd r)) l ys.
Proof.
  revert ys. induction l as [|u l IH]; intros ys; simpl.
  - intros H. injection H as <-. constructor.
  - destruct (f u) as [m|e] eqn:Em; cbn [Py.bind]; [|discriminate].
    destruct (Py.traverse _ l) as [zs|e]; [|discriminate].
    intros H. injection H as <-. constructor; [split; [reflexivity|exact Em]|now apply IH].
Qed.

Lemma analyze_rows (df : list Post) (table : list (string * UserBehavior)) :
  analyze_user_behavior df = Py.Ok table ->
  Forall2 (fun u r => fst r = u /\ user_metrics df u = Py.Ok (snd r))
          (unique String.eqb (map author df)) table.
Proof. apply traverse_rows. Qed.

Lemma table_frequency_sum (df : list Post) (keys : list string)
      (table : list (string * UserBehavior)) :
  Forall2 (fun u r => fst r = u /\ user_metrics df u = Py.Ok (snd r)) keys table ->
  (forall u, In u keys -> In u (map author df)) ->
  fold_right (fun r acc => (message_frequency (snd r) + acc)%Z) 0%Z table
  = fold_right (fun u acc =>
                  (Z.of_nat (List.length (filter (fun p => String.eqb (author p) u) df)) + acc)%Z)
               0%Z keys.
Proof.
  induction 1 as [|u r keys table [_ Hr] _ IH]; intros Hin; [reflexivity|].
  cbn [fold_right]. rewrite IH by (intros; apply Hin; now right).
  f_equal. apply (user_metrics_counts df u (snd r)); [apply Hin; now left|exact Hr].
Qed.

Lemma user_metrics_ok (df : list Post) (u : string) :
  Forall (fun p => post_engagement_level p <> None) df ->
  In u (map author df) ->
  exists row, user_metrics df u = Py.Ok row.
Proof.
  intros Hall Hu. unfold user_metrics. cbv zeta.
  remember (filter (fun p => String.eqb (author p) u) df) as ups eqn:E.
  assert (Hsub : forall p, In p ups -> post_engagement_level p <> None).
  { intros p Hp. subst ups. apply filter_In in Hp. rewrite Forall_forall in Hall.
    apply Hall. tauto. }
  destruct ups as [|q qs]; [eexists; reflexivity|].
  remember (q :: qs) as posts eqn:Eq.
  destruct (BehaviorFacts.mode_head (map post_engagement_level posts)) as [l [Hl _]].
  - subst posts. cbn [map]. specialize (Hsub q (or_introl eq_refl)).
    destruct (post_engagement_level q); [discriminate|contradiction].
  - rewrite Hl. cbn [Py.bind]. eexists. reflexivity.
Qed.

Lemma analyze_ok (df : list Post) :
  Forall (fun p => post_engagement_level p <> None) df ->
  exists table, analyze_user_behavior df = Py.Ok table.
Proof.
  intros Hall. unfold analyze_user_behavior.
  destruct (PyFacts.traverse_forall2
              (fun user => (m <- user_metrics df user ;; ret (user, m))%py)
              (fun _ _ => True) (unique String.eqb (map author df))) as [ys [H _]].
  - intros u Hu. apply unique_incl in Hu.
    destruct (user_metrics_ok df u Hall Hu) as [row ->]. cbn [Py.bind]. eauto.
  - eauto.
Qed.

Lemma forall2_in_right {A B : Type} (P : A -> B -> Prop) (l : list A) (l' : list B) (y : B) :
  Forall2 P l l' -> In y l' -> exists x, In x l /\ P x y.
Proof.
  induction 1 as [|x y' l l' Hxy _ IH]; intros Hin; [contradiction|].
  destruct Hin as [->|Hin].
  - exists x. split; [now left|exact Hxy].
  - destruct (IH Hin) as [x' [Hx' HP]]. exists x'. split; [now right|exact HP].
Qed.

Lemma table_rows (df : list Post) (table : list (string * UserBehavior)) (r : string * UserBehavior) :
  analyze_user_behavior df = Py.Ok table -> In r table ->
  In (fst r) (map author df) /\ user_metrics df (fst r) = Py.Ok (snd r).
Proof.
  intros H Hr. apply analyze_rows in H.
  destruct (forall2_in_right _ _ _ r H Hr) as [u [Hu [Hfst Hm]]].
  subst u. split; [now apply unique_incl in Hu|exact Hm].
Qed.

(** Whenever the behaviour table is built, it accounts for every post once:
    the message frequencies add up to the number of rows of the frame.  Each
    profile has at least one active hour and never more than it has posts,
    and its engagement level is one of the three labels. *)
Theorem profiles_account_for_every_post (df : list Post) (table : list (string * UserBehavior)) :
  analyze_user_behavior df = Py.Ok table ->
  total_frequency table = Z.of_nat (List.length df) /\
  Forall (fun r => (1 <= active_hours (snd r) <= message_frequency (snd r))%Z /\
                   valid_level (engagement_level (snd r))) table.
Proof.
  intros H. split.
  - unfold total_frequency.
    rewrite (table_frequency_sum df _ table (analyze_rows df table H)).
    + apply group_sizes_add_up; [apply unique_NoDup|].
      intros p Hp. apply unique_complete. now apply in_map.
    + intros u. apply unique_incl.
  - apply Forall_forall. intros r Hr.
    destruct (table_rows df table r H Hr) as [Hu Hm].
    destruct (user_metrics_counts df (fst r) (snd r) Hu Hm) as [_ [Hact Hlab]].
    split; assumption.
Qed.

Lemma profiles_account_for_every_post_witness :
  exists table,
    analyze_user_behavior tie_posts = Py.Ok table /\
    total_frequency table = 2%Z.
Proof.
  destruct (analyze_user_behavior tie_posts) as [table|e] eqn:E.
  - exists table. split; [reflexivity|].
    exact (proj1 (profiles_account_for_every_post tie_posts table E)).
  - vm_compute in E. discriminate E.
Defined.

End ProfileInvariants.

(** ** From the collection to the behaviour table *)

Module PipelineFacts.

Import Spec Examples DataProcessor BehaviorAnalyzer Preprocess Notions Samples.
Import ProfileInvariants.

Section Pipeline.

Variable polarity : string -> Q.
Variable subjectivity : string -> Q.
Variable sentences : string -> Py.result Z.

Lemma engagement_and_patterns_as_map (df : list Post) :
  exists category_of, engagement_and_patterns df = map (written_columns category_of) df.
Proof.
  unfold engagement_and_patterns. cbv zeta.
  destruct (UserPatternFacts.user_patterns_as_map (_calculate_engagement_levels df))
    as [category_of ->].
  exists category_of.
  unfold _extract_communication_features, _calculate_engagement_levels.
  rewrite !map_map. reflexivity.
Qed.

Lemma combine_with_image {A B C : Type} (f : A -> B) (h : B -> A -> C) (l : list A) :
  map (fun pr => h (snd pr) (fst pr)) (combine l (map f l)) = map (fun x => h (f x) x) l.
Proof. induction l as [|x l IH]; simpl; [reflexivity|now rewrite IH]. Qed.

(** The rows of a pass over the collection in which the tokenizer answered. *)
Lemma derived_rows (df : list RawPost) (ps : list ProcessedPost) :
  Py.traverse (derive polarity subjectivity sentences) df = Py.Ok ps ->
  Forall2 (fun r p => exists n, sentences (Text._clean_text (raw_text r)) = Py.Ok n /\
                                p = derive_row polarity subjectivity n r)
          df ps.
Proof.
  revert ps. induction df as [|r df IH]; intros ps H; cbn [Py.traverse] in H.
  - injection H as <-. constructor.
  - unfold derive at 1 in H.
    destruct (sentences (Text._clean_text (raw_text r))) as [n|e] eqn:E;
      cbn [Py.bind] in H; [|discriminate H].
    destruct (Py.traverse (derive polarity subjectivity sentences) df) as [ps'|e] eqn:E';
      [|discriminate H].
    injection H as <-. constructor; [exists n; split; [exact E|reflexivity]|now apply IH].
Qed.

Lemma derive_all (df : list RawPost) :
  (forall r, In r df -> exists n, sentences (Text._clean_text (raw_text r)) = Py.Ok n) ->
  exists ps, Py.traverse (derive polarity subjectivity sentences) df = Py.Ok ps.
Proof.
  induction df as [|r df IH]; intros H; [eexists; reflexivity|].
  destruct (H r (or_introl eq_refl)) as [n Hn].
  destruct IH as [ps Hps]; [intros r' Hr'; apply H; now right|].
  cbn [Py.traverse]. unfold derive at 1. rewrite Hn. cbn [Py.bind]. rewrite Hps.
  eexists. reflexivity.
Qed.

Lemma derive_raises (df : list RawPost) (r : RawPost) (e : Py.exn) :
  In r df -> sentences (Text._clean_text (raw_text r)) = Py.Raise e ->
  exists e', Py.traverse (derive polarity subjectivity sentences) df = Py.Raise e'.
Proof.
  induction df as [|r0 df IH]; intros Hin He; [destruct Hin|].
  cbn [Py.traverse]. unfold derive at 1.
  destruct (sentences (Text._clean_text (raw_text r0))) as [n|e0] eqn:E0; cbn [Py.bind];
    [|eexists; reflexivity].
  destruct Hin as [->|Hin]; [rewrite He in E0; discriminate E0|].
  destruct (IH Hin He) as [e' ->]. eexists. reflexivity.
Qed.

Lemma preprocess_data_of_rows (df : list RawPost) (ps : list ProcessedPost) :
  df <> [] ->
  Py.traverse (derive polarity subjectivity sentences) df = Py.Ok ps ->
  exists category_of,
    preprocess_data polarity subjectivity sentences df
    = Py.Ok (map (fun p => set_post (written_columns category_of (post p)) p) ps).
Proof.
  intros Hne Hps. unfold Preprocess.preprocess_data.
  destruct df as [|r df]; [contradiction|]. rewrite Hps. cbn [Py.bind].
  destruct (engagement_and_patterns_as_map (map post ps)) as [category_of ->].
  exists category_of. f_equal. rewrite map_map.
  exact (combine_with_image (fun p => written_columns category_of (post p)) set_post ps).
Qed.

Lemma preprocess_data_inv (df : list RawPost) (out : list ProcessedPost) :
  preprocess_data polarity subjectivity sentences df = Py.Ok out ->
  df <> [] /\
  exists category_of,
    Forall2 (fun r p =>
               exists n,
                 sentences (Text._clean_text (raw_text r)) = Py.Ok n /\
                 p = set_post (written_columns category_of
                                 (post (derive_row polarity subjectivity n r)))
                              (derive_row polarity subjectivity n r))
            df out.
Proof.
  intros H. assert (Hne : df <> []) by (intros ->; discriminate H).
  split; [exact Hne|].
  destruct (Py.traverse (derive polarity subjectivity sentences) df) as [ps|e] eqn:E.
  - destruct (preprocess_data_of_rows df ps Hne E) as [category_of Hout].
    exists category_of. rewrite Hout in H. injection H as <-.
    pose proof (derived_rows df ps E) as Hrows. clear E Hout Hne.
    induction Hrows as [|r p df ps [n [Hn ->]] _ IH]; cbn [map]; constructor; [|exact IH].
    exists n. split; [exact Hn|reflexivity].
  - unfold Preprocess.preprocess_data in H. destruct df; [contradiction|].
    rewrite E in H. discriminate H.
Qed.

Lemma written_level_present (category_of : string -> ResponseCategory) (p : Post) :
  exists l, post_engagement_level (written_columns category_of p) = Some l.
Proof.
  cbn [written_columns set_communication_style set_user_response_category
       set_engagement_level post_engagement_level].
  destruct (EngagementFacts.cut_score p) as [l [H _]]. exists l. exact H.
Qed.

Lemma style_of_polarity_label (x : Q) : style_label (style_of_polarity x).
Proof.
  unfold style_label, style_of_polarity.
  destruct (Py.gt x 0.2); [now left|]. destruct (Py.lt x (-0.2)); [right; now left|right; now right].
Qed.

Lemma weekend_flag (t : Z) :
  TimeFeatures.tf_is_weekend (TimeFeatures._extract_time_features t) = 0%Z \/
  TimeFeatures.tf_is_weekend (TimeFeatures._extract_time_features t) = 1%Z.
Proof.
  cbn [TimeFeatures._extract_time_features TimeFeatures.tf_is_weekend].
  destruct (_ || _)%bool; [now right|now left].
Qed.

(** The response time written into the row of a post. *)
Lemma written_response_time (category_of : string -> ResponseCategory) (n : Z) (r : RawPost) :
  post_avg_response_time
    (post (set_post (written_columns category_of (post (derive_row polarity subjectivity n r)))
                    (derive_row polarity subjectivity n r)))
  = cf_avg_response_time
      (_extract_comment_features (_process_comments polarity (raw_comments r))).
Proof. reflexivity. Qed.

(** [preprocess_data] fails on an empty collection and when the sentence
    tokenizer fails on the text of a post.  Otherwise it returns one row per
    collected post, in order, in which the derived columns are filled in:
    the hour lies in 0..23, the weekend flag is 0 or 1, [total_comments]
    counts the comments that were kept, the response time is missing exactly
    when two or more comments were kept and one of them has no timestamp,
    and is not negative otherwise, and the engagement level, the response
    category and the communication style are never missing. *)
Theorem preprocess_data_fills_every_column (df : list RawPost) :
  (df = [] -> exists k, preprocess_data polarity subjectivity sentences df
                        = Py.Raise (Py.KeyError k)) /\
  (forall r e,
      In r df -> sentences (Text._clean_text (raw_text r)) = Py.Raise e ->
      exists e', preprocess_data polarity subjectivity sentences df = Py.Raise e') /\
  (df <> [] ->
   (forall r, In r df -> exists n, sentences (Text._clean_text (raw_text r)) = Py.Ok n) ->
   exists out,
     preprocess_data polarity subjectivity sentences df = Py.Ok out /\
     Forall2
       (fun r p =>
          let kept := _process_comments polarity (raw_comments r) in
          author (post p) = raw_author r /\
          hour_posted (post p) = TimeFeatures.hour (raw_created_utc r) /\
          (0 <= hour_posted (post p) < 24)%Z /\
          (is_weekend (post p) = 0%Z \/ is_weekend (post p) = 1%Z) /\
          sentences (clean_text p) = Py.Ok (sentence_count p) /\
          total_comments (post p) = Some (of_nat (List.length kept)) /\
          (post_avg_response_time (post p) = None <->
           (2 <= List.length kept)%nat /\ In None (map c_created_utc kept)) /\
          (forall v, post_avg_response_time (post p) = Some v -> 0 <= v) /\
          (exists l, post_engagement_level (post p) = Some l) /\
          (exists c, user_response_category (post p) = Some c) /\
          style_label (communication_style (post p)))
       df out).
Proof.
  split; [|split].
  - intros ->. eexists. reflexivity.
  - intros r e Hin He. unfold Preprocess.preprocess_data.
    destruct df as [|r0 df0]; [destruct Hin|].
    destruct (derive_raises (r0 :: df0) r e Hin He) as [e' ->]. eexists. reflexivity.
  - intros Hne Hall. destruct (derive_all df Hall) as [ps Hps].
    destruct (preprocess_data_of_rows df ps Hne Hps) as [category_of Hout].
    eexists. split; [exact Hout|].
    pose proof (derived_rows df ps Hps) as Hrows. clear Hps Hout Hne Hall.
    induction Hrows as [|r p df ps [n [Hn ->]] _ IH]; cbn [map]; constructor; [|exact IH].
    cbv zeta. cbn [post set_post clean_text sentence_count derive_row].
    split; [reflexivity|]. split; [reflexivity|].
    split; [apply TimeFacts.hour_range|].
    split.
    { cbn [written_columns set_communication_style set_user_response_category
           set_engagement_level concat_comment_features is_weekend].
      apply weekend_flag. }
    split; [exact Hn|].
    split.
    { cbn [written_columns set_communication_style set_user_response_category
           set_engagement_level concat_comment_features total_comments].
      destruct (_process_comments polarity (raw_comments r)); reflexivity. }
    split.
    { cbn [written_columns set_communication_style set_user_response_category
           set_engagement_level concat_comment_features post_avg_response_time].
      apply CommentFacts.response_time_missing_iff. }
    split.
    { cbn [written_columns set_communication_style set_user_response_category
           set_engagement_level concat_comment_features post_avg_response_time].
      apply CommentFacts.avg_response_time_nonneg. }
    split; [apply written_level_present|].
    split; [eexists; reflexivity|].
    apply style_of_polarity_label.
Qed.

(** The frame returned by [preprocess_data] is always accepted by
    [analyze_user_behavior]: the table has one profile per author of the
    collection, the message frequencies add up to the number of posts, and in
    every profile the active hours lie in 1..24, the weekend share in [0, 1],
    the response time is not negative and the engagement level is one of the
    three labels. *)
Theorem preprocessed_frame_is_analyzable (df : list RawPost) (out : list ProcessedPost) :
  preprocess_data polarity subjectivity sentences df = Py.Ok out ->
  exists table,
    analyze_user_behavior (map post out) = Py.Ok table /\
    map fst table = unique String.eqb (map raw_author df) /\
    total_frequency table = Z.of_nat (List.length df) /\
    Forall (fun r => (1 <= active_hours (snd r) <= 24)%Z /\
                     (active_hours (snd r) <= message_frequency (snd r))%Z /\
                     0 <= weekend_activity (snd r) <= 1 /\
                     0 <= avg_response_time (snd r) /\
                     valid_level (engagement_level (snd r))) table.
Proof.
  intros H. destruct (preprocess_data_inv df out H) as [_ [category_of Hout]].
  set (rows := map post out).
  assert (Hauthors : map author rows = map raw_author df).
  { unfold rows. clear H. induction Hout as [|r p df out [n [_ ->]] _ IH]; [reflexivity|].
    cbn [map]. f_equal. exact IH. }
  assert (Hlen : List.length rows = List.length df).
  { unfold rows. rewrite length_map. symmetry. exact (Forall2_length Hout). }
  assert (Hrow : forall p, In p rows ->
            post_engagement_level p <> None /\
            (0 <= hour_posted p < 24)%Z /\
            (is_weekend p = 0%Z \/ is_weekend p = 1%Z) /\
            (forall v, post_avg_response_time p = Some v -> 0 <= v)).
  { intros p Hp. unfold rows in Hp. apply in_map_iff in Hp. destruct Hp as [q [<- Hq]].
    clear H Hauthors Hlen.
    induction Hout as [|r p' df out [n [_ ->]] _ IH]; [destruct Hq|].
    destruct Hq as [<-|Hq]; [|exact (IH Hq)].
    cbn [post set_post].
    split; [|split; [|split]].
    - destruct (written_level_present category_of
                  (post (derive_row polarity subjectivity n r))) as [l ->]. discriminate.
    - apply TimeFacts.hour_range.
    - apply weekend_flag.
    - apply CommentFacts.avg_response_time_nonneg. }
  destruct (analyze_ok rows) as [table Ht].
  { apply Forall_forall. intros p Hp. apply (Hrow p Hp). }
  exists table. split; [exact Ht|].
  split; [rewrite (PyFacts.traverse_keys _ _ _ Ht), Hauthors; reflexivity|].
  split.
  - unfold total_frequency.
    rewrite (table_frequency_sum rows _ table (analyze_rows rows table Ht)).
    + rewrite <- Hlen. apply group_sizes_add_up; [apply unique_NoDup|].
      intros p Hp. apply unique_complete. now apply in_map.
    + intros u. apply unique_incl.
  - apply Forall_forall. intros r Hr.
    destruct (table_rows rows table r Ht Hr) as [Hu Hm].
    destruct (user_metrics_counts rows (fst r) (snd r) Hu Hm) as [_ [Hact Hlab]].
    destruct (user_metrics_ranges rows (fst r) (snd r) Hu Hm) as [H24 [Hw Hart]].
    assert (A1 : (active_hours (snd r) <= 24)%Z).
    { apply H24. apply Forall_forall. intros p Hp. apply (Hrow p Hp). }
    assert (A2 : 0 <= weekend_activity (snd r) <= 1).
    { apply Hw. apply Forall_forall. intros p Hp. apply (Hrow p Hp). }
    assert (A3 : 0 <= avg_response_time (snd r)).
    { apply Hart. apply Forall_forall. intros p Hp. apply (Hrow p Hp). }
    repeat split; try lia; try tauto.
Qed.

End Pipeline.

Lemma preprocessed_frame_is_analyzable_witness :
  exists out table,
    preprocess_data (fun _ => 0) (fun _ => 0) (fun _ => Py.Ok 1%Z) raw_frame = Py.Ok out /\
    analyze_user_behavior (map post out) = Py.Ok table /\
    map fst table = ["ann"; "bob"]%string /\
    total_frequency table = 3%Z.
Proof.
  destruct (preprocess_data (fun _ => 0) (fun _ => 0) (fun _ => Py.Ok 1%Z) raw_frame)
    as [out|e] eqn:E.
  - destruct (preprocessed_frame_is_analyzable _ _ _ raw_frame out E)
      as [table [Ht [Hk [Hsum _]]]].
    exists out, table. repeat split; assumption.
  - vm_compute in E. discriminate E.
Defined.

End PipelineFacts.

(** ** Text cleaning and word features *)

Module TextFacts.

Import Text.

Local Open Scope string_scope.

(** Decides a statement about one character by going through the 256 of
    them. *)
Ltac each_char c :=
  destruct c as [[] [] [] [] [] [] [] []]; vm_compute; try reflexivity; try discriminate; auto.

Lemma word_not_space (c : ascii) : isword c = true -> isspace c = false.
Proof. each_char c. Qed.

Lemma lower_char_not_upper (c : ascii) : isupper (lower_char c) = false.
Proof. each_char c. Qed.

Lemma lower_char_fixed (c : ascii) : isupper c = false -> lower_char c = c.
Proof. unfold lower_char. now intros ->. Qed.

Lemma clean_char_cases (c : ascii) :
  clean_char c = true -> isupper c = false /\ (isword c || isspace c = true)%bool.
Proof. each_char c. Qed.

Lemma space_not_prefix (a c : ascii) :
  isspace a = false -> isspace c = true -> Ascii.eqb a c = false.
Proof.
  intros Ha Hc. destruct (Ascii.eqb_spec a c) as [->|_]; [congruence|reflexivity].
Qed.

(** *** [all] *)

Lemma all_impl (P Q : ascii -> bool) (s : string) :
  (forall c, P c = true -> Q c = true) -> all P s = true -> all Q s = true.
Proof.
  intros H. induction s as [|c r IH]; simpl; [reflexivity|].
  intros Hs. apply andb_true_iff in Hs. destruct Hs as [Hc Hr].
  rewrite (H c Hc), (IH Hr). reflexivity.
Qed.

Lemma all_app (P : ascii -> bool) (u v : string) :
  all P (u ++ v) = (all P u && all P v)%bool.
Proof. induction u as [|c u IH]; simpl; [reflexivity|]. rewrite IH. apply andb_assoc. Qed.

Lemma append_nil_r (s : string) : s ++ "" = s.
Proof. induction s as [|c s IH]; simpl; [reflexivity|now rewrite IH]. Qed.

Lemma append_assoc (u v w : string) : (u ++ v) ++ w = u ++ (v ++ w).
Proof. induction u as [|c u IH]; simpl; [reflexivity|now rewrite IH]. Qed.

(** *** [lower] *)

Lemma lower_no_upper (s : string) : all (fun c => negb (isupper c)) (lower s) = true.
Proof.
  induction s as [|c r IH]; simpl; [reflexivity|].
  now rewrite lower_char_not_upper, IH.
Qed.

Lemma lower_fixed (s : string) : all (fun c => negb (isupper c)) s = true -> lower s = s.
Proof.
  induction s as [|c r IH]; simpl; [reflexivity|].
  intros H. apply andb_true_iff in H. destruct H as [Hc Hr].
  rewrite (IH Hr), lower_char_fixed; [reflexivity|].
  now apply negb_true_iff.
Qed.

(** *** [strip_urls] *)

Lemma strip_urls_all (P : ascii -> bool) (s : string) (skipping : bool) :
  all P s = true -> all P (strip_urls skipping s) = true.
Proof.
  revert skipping. induction s as [|c r IH]; intros skipping; simpl; [reflexivity|].
  intros H. apply andb_true_iff in H. destruct H as [Hc Hr].
  destruct skipping.
  - destruct (isspace c); [simpl; rewrite Hc; now apply IH|now apply IH].
  - destruct (url_starts (String c r)); [now apply IH|].
    simpl. rewrite Hc. now apply IH.
Qed.

(** What is left of a match starts with white space. *)
Lemma strip_urls_skipping (s : string) :
  strip_urls true s = "" \/
  exists c r, strip_urls true s = String c r /\ isspace c = true.
Proof.
  induction s as [|c r IH]; simpl; [now left|].
  destruct (isspace c) eqn:E; [right; eauto|exact IH].
Qed.

(** A kept character that is not white space was at the head of the input. *)
Lemma strip_urls_head (s : string) (c : ascii) (out : string) :
  strip_urls false s = String c out -> isspace c = false ->
  url_starts s = false /\ exists r, s = String c r /\ out = strip_urls false r.
Proof.
  destruct s as [|b r]; simpl; [discriminate|].
  destruct (url_starts (String b r)) eqn:E.
  - intros H Hc. destruct (strip_urls_skipping r) as [H0|[c' [r' [H0 Hs]]]];
      rewrite H0 in H; [discriminate H|].
    injection H as -> _. congruence.
  - intros H _. injection H as -> <-. split; [reflexivity|eauto].
Qed.

Lemma starts_head (p s : string) :
  all (fun c => negb (isspace c)) p = true -> starts p s = true ->
  exists c r, s = String c r /\ isspace c = false.
Proof.
  unfold starts. destruct p as [|a p]; simpl.
  - intros _. destruct s as [|c r]; [discriminate|].
    intros H. exists c, r. split; [reflexivity|now apply negb_true_iff].
  - intros Hp. apply andb_true_iff in Hp. destruct Hp as [Ha _].
    destruct s as [|b r]; [discriminate|].
    destruct (Ascii.eqb_spec a b) as [->|_]; [|discriminate].
    intros _. exists b, r. split; [reflexivity|now apply negb_true_iff].
Qed.

Lemma starts_strip_urls (p s : string) :
  all (fun c => negb (isspace c)) p = true ->
  starts p (strip_urls false s) = true -> starts p s = true.
Proof.
  revert s. induction p as [|a p IH]; intros s Hp H.
  - destruct (starts_head "" _ Hp H) as [c [out [E Hc]]].
    destruct (strip_urls_head s c out E Hc) as [_ [r [-> _]]].
    unfold starts. simpl. now rewrite Hc.
  - destruct (starts_head _ _ Hp H) as [c [out [E Hc]]].
    destruct (strip_urls_head s c out E Hc) as [_ [r [-> ->]]].
    rewrite E in H. unfold starts in *. simpl in *.
    apply andb_true_iff in Hp. destruct Hp as [_ Hp].
    destruct (Ascii.eqb a c); [|discriminate H].
    apply (IH r Hp H).
Qed.

Lemma url_starts_head (s : string) :
  url_starts s = true -> exists c r, s = String c r /\ isspace c = false.
Proof.
  unfold url_starts. intros H.
  apply orb_true_iff in H. destruct H as [H|H]; [apply orb_true_iff in H; destruct H as [H|H]|];
    eapply starts_head; try exact H; reflexivity.
Qed.

Lemma url_starts_strip_urls (s : string) : url_starts (strip_urls false s) = false.
Proof.
  destruct (url_starts (strip_urls false s)) eqn:E; [|reflexivity].
  destruct (url_starts_head _ E) as [c [out [Eo Hc]]].
  destruct (strip_urls_head s c out Eo Hc) as [Hs _].
  unfold url_starts in E, Hs.
  apply orb_false_iff in Hs. destruct Hs as [Hs H3].
  apply orb_false_iff in Hs. destruct Hs as [H1 H2].
  apply orb_true_iff in E. destruct E as [E|E]; [apply orb_true_iff in E; destruct E as [E|E]|];
    apply starts_strip_urls in E; try reflexivity; congruence.
Qed.

Lemma space_no_url_start (c : ascii) (r : string) :
  isspace c = true -> url_starts (String c r) = false.
Proof.
  intros Hc. destruct (url_starts (String c r)) eqn:E; [|reflexivity].
  destruct (url_starts_head _ E) as [c' [r' [Eq Hc']]]. injection Eq as <- _. congruence.
Qed.

Lemma no_url_strip_urls (s : string) (skipping : bool) :
  no_url (strip_urls skipping s) = true.
Proof.
  revert skipping. induction s as [|c r IH]; intros skipping; [reflexivity|].
  destruct skipping.
  - simpl. destruct (isspace c) eqn:Ec; [|apply IH].
    change (negb (url_starts (String c (strip_urls false r))) && no_url (strip_urls false r) = true)%bool.
    rewrite (space_no_url_start c _ Ec), IH. reflexivity.
  - pose proof (url_starts_strip_urls (String c r)) as Hout.
    simpl in *. destruct (url_starts (String c r)); [apply IH|].
    change (negb (url_starts (String c (strip_urls false r))) && no_url (strip_urls false r) = true)%bool.
    rewrite Hout, IH. reflexivity.
Qed.

Lemma strip_urls_fixed (s : string) : no_url s = true -> strip_urls false s = s.
Proof.
  induction s as [|c r IH]; [reflexivity|].
  intros H. change (negb (url_starts (String c r)) && no_url r = true)%bool in H.
  apply andb_true_iff in H. destruct H as [Hc Hr].
  apply negb_true_iff in Hc. simpl. rewrite Hc, (IH Hr). reflexivity.
Qed.

(** *** [blank_punctuation] *)

Lemma blank_punctuation_chars (s : string) :
  all (fun c => isword c || isspace c)%bool (blank_punctuation s) = true.
Proof.
  induction s as [|c r IH]; simpl; [reflexivity|]. rewrite IH, andb_true_r.
  destruct (isword c || isspace c)%bool eqn:E; [exact E|reflexivity].
Qed.

Lemma blank_punctuation_no_upper (s : string) :
  all (fun c => negb (isupper c)) s = true ->
  all (fun c => negb (isupper c)) (blank_punctuation s) = true.
Proof.
  induction s as [|c r IH]; simpl; [reflexivity|].
  intros H. apply andb_true_iff in H. destruct H as [Hc Hr]. rewrite (IH Hr), andb_true_r.
  destruct (isword c || isspace c)%bool; [exact Hc|reflexivity].
Qed.

Lemma blank_punctuation_fixed (s : string) :
  all (fun c => isword c || isspace c)%bool s = true -> blank_punctuation s = s.
Proof.
  induction s as [|c r IH]; simpl; [reflexivity|].
  intros H. apply andb_true_iff in H. destruct H as [Hc Hr]. now rewrite Hc, (IH Hr).
Qed.

(** A character of the output that is not white space is the character of
    the input. *)
Lemma blank_punctuation_head (s : string) (c : ascii) (out : string) :
  blank_punctuation s = String c out -> isspace c = false ->
  exists r, s = String c r /\ out = blank_punctuation r.
Proof.
  destruct s as [|b r]; simpl; [discriminate|].
  intros H Hc. injection H as Hb <-. exists r. split; [|reflexivity].
  destruct (isword b || isspace b)%bool; [now subst|].
  subst c. discriminate Hc.
Qed.

Lemma starts_blank_punctuation (p s : string) :
  all (fun c => negb (isspace c)) p = true ->
  starts p (blank_punctuation s) = true -> starts p s = true.
Proof.
  revert s. induction p as [|a p IH]; intros s Hp H.
  - destruct (starts_head "" _ Hp H) as [c [out [E Hc]]].
    destruct (blank_punctuation_head s c out E Hc) as [r [-> _]].
    unfold starts. simpl. now rewrite Hc.
  - destruct (starts_head _ _ Hp H) as [c [out [E Hc]]].
    destruct (blank_punctuation_head s c out E Hc) as [r [-> ->]].
    rewrite E in H. unfold starts in *. simpl in *.
    apply andb_true_iff in Hp. destruct Hp as [_ Hp].
    destruct (Ascii.eqb a c); [|discriminate H].
    apply (IH r Hp H).
Qed.

Lemma url_starts_blank_punctuation (s : string) :
  url_starts s = false -> url_starts (blank_punctuation s) = false.
Proof.
  intros Hs. destruct (url_starts (blank_punctuation s)) eqn:E; [|reflexivity].
  unfold url_starts in E, Hs.
  apply orb_false_iff in Hs. destruct Hs as [Hs H3].
  apply orb_false_iff in Hs. destruct Hs as [H1 H2].
  apply orb_true_iff in E. destruct E as [E|E]; [apply orb_true_iff in E; destruct E as [E|E]|];
    apply starts_blank_punctuation in E; try reflexivity; congruence.
Qed.

Lemma no_url_blank_punctuation (s : string) :
  no_url s = true -> no_url (blank_punctuation s) = true.
Proof.
  induction s as [|c r IH]; [reflexivity|].
  intros H. change (negb (url_starts (String c r)) && no_url r = true)%bool in H.
  apply andb_true_iff in H. destruct H as [Hc Hr]. apply negb_true_iff in Hc.
  change (negb (url_starts (blank_punctuation (String c r)))
          && no_url (blank_punctuation r) = true)%bool.
  rewrite (url_starts_blank_punctuation _ Hc), (IH Hr). reflexivity.
Qed.

(** *** White space inside a text *)

Lemma after_app_space (p u : string) (c : ascii) (rest : string) :
  all (fun a => negb (isspace a)) p = true -> isspace c = true ->
  starts p (u ++ String c rest) = starts p u.
Proof.
  intros Hp Hc. revert u. induction p as [|a p IH]; intros u.
  - unfold starts. simpl. destruct u as [|b u]; simpl; [now rewrite Hc|reflexivity].
  - simpl in Hp. apply andb_true_iff in Hp. destruct Hp as [Ha Hp].
    apply negb_true_iff in Ha.
    destruct u as [|b u].
    + unfold starts. simpl. now rewrite (space_not_prefix a c Ha Hc).
    + specialize (IH Hp u). unfold starts in *. simpl.
      destruct (Ascii.eqb a b); [exact IH|reflexivity].
Qed.

Lemma url_starts_app_space (u : string) (c : ascii) (rest : string) :
  isspace c = true -> url_starts (u ++ String c rest) = url_starts u.
Proof.
  intros Hc. unfold url_starts.
  rewrite !(fun p H => after_app_space p u c rest H Hc) by reflexivity. reflexivity.
Qed.

Lemma no_url_app_space (u : string) (c : ascii) (rest : string) :
  isspace c = true ->
  no_url (u ++ String c rest) = (no_url u && no_url rest)%bool.
Proof.
  intros Hc. induction u as [|b u IH].
  - change (negb (url_starts (String c rest)) && no_url rest = no_url rest)%bool.
    now rewrite (space_no_url_start c rest Hc).
  - change ((negb (url_starts (String b u ++ String c rest)) && no_url (u ++ String c rest))
            = (negb (url_starts (String b u)) && no_url u && no_url rest))%bool.
    rewrite (url_starts_app_space (String b u) c rest Hc), IH. apply andb_assoc.
Qed.

(** *** [split] and [join] *)

Lemma all_snoc (P : ascii -> bool) (w : string) (c : ascii) :
  all P w = true -> P c = true -> all P (w ++ String c "") = true.
Proof. intros Hw Hc. rewrite all_app, Hw. simpl. now rewrite Hc. Qed.

Lemma snoc_not_empty (w : string) (c : ascii) : w ++ String c "" <> "".
Proof. destruct w; discriminate. Qed.

Lemma split_from_words (P : ascii -> bool) (s w : string) :
  all (fun c => negb (isspace c) && P c)%bool w = true ->
  all (fun c => isspace c || P c)%bool s = true ->
  Forall (is_word P) (split_from w s).
Proof.
  revert w. induction s as [|c r IH]; intros w Hw Hs; simpl.
  - destruct w; [constructor|]. constructor; [|constructor]. split; [discriminate|exact Hw].
  - simpl in Hs. apply andb_true_iff in Hs. destruct Hs as [Hc Hr].
    destruct (isspace c) eqn:Ec.
    + destruct w.
      * apply IH; [reflexivity|exact Hr].
      * constructor; [split; [discriminate|exact Hw]|]. apply IH; [reflexivity|exact Hr].
    + apply IH; [|exact Hr]. apply all_snoc; [exact Hw|].
      rewrite Ec in *. exact Hc.
Qed.

Lemma split_from_no_url (s w : string) :
  no_url (w ++ s) = true -> Forall (fun x => no_url x = true) (split_from w s).
Proof.
  revert w. induction s as [|c r IH]; intros w H; simpl.
  - rewrite append_nil_r in H. destruct w; [constructor|]. constructor; [exact H|constructor].
  - destruct (isspace c) eqn:Ec.
    + rewrite (no_url_app_space w c r Ec) in H. apply andb_true_iff in H. destruct H as [Hw Hr].
      destruct w.
      * now apply IH.
      * constructor; [exact Hw|]. now apply IH.
    + apply IH. now rewrite append_assoc.
Qed.

Lemma split_from_app (w2 w1 s : string) :
  all (fun c => negb (isspace c)) w2 = true ->
  split_from w1 (w2 ++ s) = split_from (w1 ++ w2) s.
Proof.
  revert w1. induction w2 as [|a w2 IH]; intros w1 H; simpl.
  - now rewrite append_nil_r.
  - simpl in H. apply andb_true_iff in H. destruct H as [Ha Hw].
    apply negb_true_iff in Ha. rewrite Ha, (IH _ Hw), append_assoc. reflexivity.
Qed.

Lemma join_cons (w w' : string) (ws : list string) :
  join (w :: w' :: ws) = w ++ String " " (join (w' :: ws)).
Proof. reflexivity. Qed.

Lemma is_word_no_space (P : ascii -> bool) (w : string) :
  is_word P w -> all (fun c => negb (isspace c)) w = true.
Proof.
  intros [_ H]. eapply all_impl; [|exact H].
  intros c Hc. apply andb_true_iff in Hc. tauto.
Qed.

Lemma split_join (P : ascii -> bool) (ws : list string) :
  Forall (is_word P) ws -> split (join ws) = ws.
Proof.
  unfold split. induction 1 as [|w ws Hw Hws IH]; [reflexivity|].
  pose proof (is_word_no_space P w Hw) as Hns. destruct Hw as [Hne _].
  destruct ws as [|w' ws].
  - change (join [w]) with w. rewrite <- (append_nil_r w) at 1.
    rewrite (split_from_app w "" "" Hns). simpl. destruct w; [contradiction|reflexivity].
  - rewrite join_cons, (split_from_app w "" _ Hns). simpl.
    destruct w; [contradiction|]. now rewrite IH.
Qed.

Lemma join_all (P : ascii -> bool) (ws : list string) :
  P " "%char = true -> Forall (fun w => all P w = true) ws -> all P (join ws) = true.
Proof.
  intros Hsp. induction 1 as [|w ws Hw Hws IH]; [reflexivity|].
  destruct ws as [|w' ws]; [exact Hw|].
  rewrite join_cons, all_app, Hw. simpl. now rewrite Hsp, IH.
Qed.

Lemma join_no_url (ws : list string) :
  Forall (fun w => no_url w = true) ws -> no_url (join ws) = true.
Proof.
  induction 1 as [|w ws Hw Hws IH]; [reflexivity|].
  destruct ws as [|w' ws]; [exact Hw|].
  rewrite join_cons, (no_url_app_space w " " _ eq_refl), Hw, IH. reflexivity.
Qed.

(** *** [strip] *)

Lemma rstrip_fixed (s : string) : ends_in_word s = true -> rstrip s = s.
Proof.
  induction s as [|c r IH]; [reflexivity|].
  destruct r as [|c' r'].
  - simpl. intros H. apply negb_true_iff in H. now rewrite H.
  - intros H. change (ends_in_word (String c' r') = true) in H.
    change (rstrip (String c (String c' r')))
      with (match rstrip (String c' r') with
            | EmptyString => if isspace c then EmptyString else String c EmptyString
            | r0 => String c r0
            end).
    rewrite (IH H). reflexivity.
Qed.

Lemma ends_in_word_app (u v : string) :
  v <> "" -> ends_in_word (u ++ v) = ends_in_word v.
Proof.
  intros Hv. induction u as [|c u IH]; [reflexivity|].
  simpl. destruct (u ++ v) eqn:E; [|exact IH].
  destruct u; [simpl in E; contradiction|discriminate E].
Qed.

Lemma word_ends_in_word (w : string) :
  all (fun c => negb (isspace c)) w = true -> ends_in_word w = true.
Proof.
  induction w as [|c r IH]; [reflexivity|].
  simpl. intros H. apply andb_true_iff in H. destruct H as [Hc Hr].
  destruct r; [exact Hc|now apply IH].
Qed.

Lemma join_not_empty (P : ascii -> bool) (w : string) (ws : list string) :
  is_word P w -> join (w :: ws) <> "".
Proof.
  intros [Hne _]. destruct ws as [|w' ws]; [exact Hne|].
  rewrite join_cons. destruct w; [contradiction|discriminate].
Qed.

Lemma join_ends_in_word (P : ascii -> bool) (ws : list string) :
  Forall (is_word P) ws -> ends_in_word (join ws) = true.
Proof.
  induction 1 as [|w ws Hw Hws IH]; [reflexivity|].
  destruct ws as [|w' ws].
  - apply word_ends_in_word. now apply (is_word_no_space P).
  - rewrite join_cons.
    change (w ++ String " " (join (w' :: ws))) with (w ++ (String " " (join (w' :: ws)))).
    rewrite ends_in_word_app by discriminate.
    inversion Hws; subst.
    destruct (join (w' :: ws)) eqn:E; [|exact IH].
    exfalso. eapply join_not_empty; eauto.
Qed.

Lemma lstrip_join (P : ascii -> bool) (ws : list string) :
  Forall (is_word P) ws -> lstrip (join ws) = join ws.
Proof.
  intros H. destruct H as [|w ws Hw Hws]; [reflexivity|].
  pose proof (is_word_no_space P w Hw) as Hns. destruct Hw as [Hne _].
  destruct w as [|c w]; [contradiction|].
  simpl in Hns. apply andb_true_iff in Hns. destruct Hns as [Hc _]. apply negb_true_iff in Hc.
  destruct ws as [|w' ws].
  - simpl. now rewrite Hc.
  - rewrite join_cons. simpl. now rewrite Hc.
Qed.

Lemma strip_join (P : ascii -> bool) (ws : list string) :
  Forall (is_word P) ws -> strip (join ws) = join ws.
Proof.
  intros H. unfold strip. rewrite (lstrip_join P ws H).
  apply rstrip_fixed. now apply (join_ends_in_word P).
Qed.

(** *** The cleaned text *)

Lemma all_and (P Q : ascii -> bool) (s : string) :
  all P s = true -> all Q s = true -> all (fun c => P c && Q c)%bool s = true.
Proof.
  induction s as [|c r IH]; simpl; [reflexivity|].
  intros HP HQ. apply andb_true_iff in HP. apply andb_true_iff in HQ.
  destruct HP as [-> HP]. destruct HQ as [-> HQ]. now rewrite IH.
Qed.

Lemma clean_text_words (t : string) :
  exists ws,
    _clean_text (Some t) = join ws /\
    Forall (is_word lower_word_char) ws /\
    Forall (fun w => no_url w = true) ws.
Proof.
  unfold _clean_text. cbv zeta.
  set (s3 := blank_punctuation (strip_urls false (lower t))).
  assert (Hws : Forall (is_word lower_word_char) (split s3)).
  { apply split_from_words; [reflexivity|].
    eapply all_impl; [|apply (all_and _ _ s3 (blank_punctuation_chars _)
                                (blank_punctuation_no_upper _
                                   (strip_urls_all _ _ false (lower_no_upper t))))].
    intros c. unfold lower_word_char. cbv beta.
    destruct (isword c), (isspace c), (isupper c); simpl; auto. }
  exists (split s3). split; [apply (strip_join _ _ Hws)|]. split; [exact Hws|].
  apply split_from_no_url. simpl. apply no_url_blank_punctuation, no_url_strip_urls.
Qed.

(** The cleaned text is in a normal form: it has lower-case letters, digits,
    underscores and blanks only, its words are separated by single blanks
    with nothing before the first or behind the last, the URL pattern matches
    nowhere in it, and cleaning it once more changes nothing. *)
Theorem clean_text_is_normal_form (t : string) :
  is_ascii t = true ->
  let x := _clean_text (Some t) in
  all clean_char x = true /\
  join (split x) = x /\
  no_url x = true /\
  _clean_text (Some x) = x.
Proof.
  intros _. cbv zeta.
  destruct (clean_text_words t) as [ws [-> [Hws Hurl]]].
  assert (Hchars : all clean_char (join ws) = true).
  { apply join_all; [reflexivity|].
    eapply Forall_impl; [|exact Hws]. intros w [_ Hw]. eapply all_impl; [|exact Hw].
    intros c Hc. unfold clean_char. fold (lower_word_char c).
    apply andb_true_iff in Hc. destruct Hc as [_ ->]. reflexivity. }
  assert (Hsplit : join (split (join ws)) = join ws) by now rewrite (split_join _ _ Hws).
  assert (Hno : no_url (join ws) = true) by now apply join_no_url.
  repeat split; try assumption.
  unfold _clean_text. cbv zeta.
  rewrite lower_fixed.
  2:{ eapply all_impl; [|exact Hchars]. intros c Hc.
      destruct (clean_char_cases c Hc) as [-> _]. reflexivity. }
  rewrite (strip_urls_fixed _ Hno).
  rewrite blank_punctuation_fixed.
  2:{ eapply all_impl; [|exact Hchars]. intros c Hc.
      now destruct (clean_char_cases c Hc) as [_ ->]. }
  rewrite Hsplit. apply (strip_join _ _ Hws).
Qed.

Lemma clean_text_is_normal_form_witness :
  is_ascii "Hello, WORLD!  see http://x.y/z?a=1 and www.foo.com now" = true /\
  _clean_text (Some (_clean_text (Some "Hello, WORLD!  see http://x.y/z?a=1 and www.foo.com now")))
  = "hello world see and now".
Proof.
  split; [reflexivity|].
  destruct (clean_text_is_normal_form
              "Hello, WORLD!  see http://x.y/z?a=1 and www.foo.com now" eq_refl)
    as [_ [_ [_ H]]].
  rewrite H. reflexivity.
Defined.

(** *** Word features *)








End TextFacts.

(** ** Processing the comments *)

Module CommentProcessingFacts.

Import DataProcessor Preprocess Notions.

Section Comments.

Variable polarity : string -> Q.

(** What is kept of a comment that can be read. *)
Lemma process_comment_readable (c : RawComment) :
  readable c = true ->
  process_comment polarity c
  = Py.Ok {| c_author := str (value (rc_author c));
             c_text := Text._clean_text (value (rc_text c));
             c_score := value (rc_score c);
             c_created_utc := time_of c;
             c_word_count := Text.word_count (str (value (rc_text c)));
             c_sentiment := polarity (str (value (rc_text c))) |}.
Proof.
  unfold readable, process_comment, time_of.
  destruct (rc_author c) as [| |a], (rc_text c) as [| |t], (rc_score c) as [| |s],
           (rc_created_utc c) as [| |[u|]]; try discriminate; intros _; reflexivity.
Qed.

Lemma process_comment_unreadable (c : RawComment) :
  readable c = false -> exists e, process_comment polarity c = Py.Raise e.
Proof.
  unfold readable, process_comment.
  destruct (rc_author c) as [| |a], (rc_text c) as [| |t], (rc_score c) as [| |s],
           (rc_created_utc c) as [| |[u|]]; try discriminate; intros _; eexists; reflexivity.
Qed.

(** A comment is left out without a trace when one of its four keys is
    absent or its time cannot be read.  Every other comment is kept, in the
    order given: a field that is [null] gives the author 'None', the empty
    text (counted as one word, since the words and the sentiment are those
    of the text 'None'), no score and no timestamp. *)
Theorem unreadable_comments_are_skipped (comments : list RawComment) :
  let kept := filter readable comments in
  _process_comments polarity comments = _process_comments polarity kept /\
  Forall2 (fun c p =>
             c_author p = str (value (rc_author c)) /\
             c_text p = Text._clean_text (value (rc_text c)) /\
             c_score p = value (rc_score c) /\
             c_created_utc p = time_of c /\
             c_word_count p = Text.word_count (str (value (rc_text c))) /\
             c_sentiment p = polarity (str (value (rc_text c))))
          kept (_process_comments polarity comments) /\
  cf_total_comments (_extract_comment_features (_process_comments polarity comments))
  = of_nat (List.length kept) /\
  (forall c, rc_text c = Null ->
             str (value (rc_text c)) = "None"%string /\
             Text._clean_text (value (rc_text c)) = EmptyString /\
             Text.word_count (str (value (rc_text c))) = 1%Z).
Proof.
  cbv zeta.
  assert (H : _process_comments polarity comments
              = _process_comments polarity (filter readable comments) /\
              Forall2 (fun c p =>
                         c_author p = str (value (rc_author c)) /\
                         c_text p = Text._clean_text (value (rc_text c)) /\
                         c_score p = value (rc_score c) /\
                         c_created_utc p = time_of c /\
                         c_word_count p = Text.word_count (str (value (rc_text c))) /\
                         c_sentiment p = polarity (str (value (rc_text c))))
                      (filter readable comments) (_process_comments polarity comments)).
  { induction comments as [|c cs [IH1 IH2]]; [split; [reflexivity|constructor]|].
    cbn [filter _process_comments]. destruct (readable c) eqn:E.
    - cbn [_process_comments]. rewrite (process_comment_readable c E).
      split; [now rewrite <- IH1|]. constructor; [repeat split|exact IH2].
    - destruct (process_comment_unreadable c E) as [e ->]. split; assumption. }
  destruct H as [H1 H2]. split; [exact H1|]. split; [exact H2|]. split.
  - rewrite (Forall2_length H2).
    destruct (_process_comments polarity comments); reflexivity.
  - intros c ->. repeat split.
Qed.

End Comments.

(** Of three comments, the one without the key [text] is dropped; the one
    whose text and time are [null] is kept, as an empty text of one word
    without a timestamp, so that the post has two comments and no response
    time. *)
Example null_fields_are_kept :
  let comments :=
    [ {| rc_author := Value "bob"%string; rc_text := Value "A walk!"%string;
         rc_score := Value 2%Z; rc_created_utc := Value (Some 3600000000000%Z) |};
      {| rc_author := Value "cy"%string; rc_text := Absent;
         rc_score := Value 1%Z; rc_created_utc := Value (Some 7200000000000%Z) |};
      {| rc_author := Null; rc_text := Null;
         rc_score := Null; rc_created_utc := Null |} ] in
  let kept := _process_comments (fun _ => 0) comments in
  map c_author kept = ["bob"; "None"]%string /\
  map c_text kept = ["a walk"; ""]%string /\
  map c_word_count kept = [2; 1]%Z /\
  map c_created_utc kept = [Some 3600000000000%Z; None] /\
  cf_total_comments (_extract_comment_features kept) = 2 /\
  cf_avg_response_time (_extract_comment_features kept) = None.
Proof. repeat split. Qed.

End CommentProcessingFacts.

(** ** The collection that is loaded *)

Module SavedFileFacts.

Import Interactive Collector Samples.
Local Open Scope string_scope.

Lemma digit_compare (a b : nat) :
  (a < 10)%nat -> (b < 10)%nat -> Ascii.compare (digit a) (digit b) = (a ?= b)%nat.
Proof.
  intros Ha Hb.
  do 10 (destruct a as [|a]; [do 10 (destruct b as [|b]; [reflexivity|]); lia|]); lia.
Qed.

Lemma then_by_div_mod (k a b : nat) (rest : comparison) :
  (0 < k)%nat ->
  then_by (a / k ?= b / k)%nat (then_by (a mod k ?= b mod k)%nat rest)
  = then_by (a ?= b)%nat rest.
Proof.
  intros Hk.
  pose proof (Nat.div_mod_eq a k) as Ea. pose proof (Nat.div_mod_eq b k) as Eb.
  pose proof (Nat.mod_upper_bound a k ltac:(lia)) as Ua.
  pose proof (Nat.mod_upper_bound b k ltac:(lia)) as Ub.
  destruct (Nat.compare_spec (a / k) (b / k)) as [Hq|Hq|Hq]; cbn [then_by].
  - destruct (Nat.compare_spec (a mod k) (b mod k)) as [Hr|Hr|Hr]; cbn [then_by].
    + assert (a = b) by congruence. subst. now rewrite Nat.compare_refl.
    + assert (H : (a < b)%nat) by (rewrite Ea, Eb, Hq; lia).
      apply Nat.compare_lt_iff in H. now rewrite H.
    + assert (H : (b < a)%nat) by (rewrite Ea, Eb, Hq; lia).
      apply Nat.compare_gt_iff in H. now rewrite H.
  - assert (H : (a < b)%nat) by nia.
    apply Nat.compare_lt_iff in H. now rewrite H.
  - assert (H : (b < a)%nat) by nia.
    apply Nat.compare_gt_iff in H. now rewrite H.
Qed.

Lemma compare_two_digits (a b : nat) (s t : string) :
  (a < 100)%nat -> (b < 100)%nat ->
  String.compare (two_digits a ++ s) (two_digits b ++ t)
  = then_by (a ?= b)%nat (String.compare s t).
Proof.
  intros Ha Hb. unfold two_digits. cbn [append String.compare].
  assert (Da : (a / 10 < 10)%nat) by (apply Nat.Div0.div_lt_upper_bound; lia).
  assert (Db : (b / 10 < 10)%nat) by (apply Nat.Div0.div_lt_upper_bound; lia).
  rewrite (digit_compare _ _ Da Db).
  rewrite (digit_compare (a mod 10) (b mod 10))
    by (apply Nat.mod_upper_bound; lia).
  rewrite <- (then_by_div_mod 10 a b) by lia. reflexivity.
Qed.

Lemma compare_same_prefix (p s t : string) :
  String.compare (p ++ s) (p ++ t) = String.compare s t.
Proof.
  induction p as [|c p IH]; [reflexivity|].
  cbn [append String.compare]. now rewrite InteractiveFacts.ascii_compare_refl.
Qed.

Lemma valid_ranges (now : datetime) :
  valid now = true ->
  (dt_year now / 100 < 100 /\ dt_year now mod 100 < 100 /\ dt_month now < 100 /\
   dt_day now < 100 /\ dt_hour now < 100 /\ dt_minute now < 100 /\ dt_second now < 100)%nat.
Proof.
  unfold valid. rewrite !andb_true_iff, !Nat.leb_le, Nat.ltb_lt. intros H.
  assert (dt_year now / 100 < 100)%nat by (apply Nat.Div0.div_lt_upper_bound; lia).
  pose proof (Nat.mod_upper_bound (dt_year now) 100 ltac:(lia)). lia.
Qed.

(** The names of saved files are ordered like the clock readings. *)
Lemma file_names_by_time (filename : string) (a b : datetime) :
  valid a = true -> valid b = true ->
  String.compare (file_name filename a) (file_name filename b) = clock_compare a b.
Proof.
  intros Va Vb.
  destruct (valid_ranges a Va) as [A1 [A2 [A3 [A4 [A5 [A6 A7]]]]]].
  destruct (valid_ranges b Vb) as [B1 [B2 [B3 [B4 [B5 [B6 B7]]]]]].
  unfold file_name, strftime, four_digits, clock_compare.
  rewrite compare_same_prefix. cbn [append String.compare].
  rewrite InteractiveFacts.ascii_compare_refl.
  rewrite !TextFacts.append_assoc.
  rewrite (compare_two_digits _ _ _ _ A1 B1), (compare_two_digits _ _ _ _ A2 B2),
          (compare_two_digits _ _ _ _ A3 B3), (compare_two_digits _ _ _ _ A4 B4).
  cbn [append String.compare]. rewrite InteractiveFacts.ascii_compare_refl.
  rewrite !TextFacts.append_assoc.
  rewrite (compare_two_digits _ _ _ _ A5 B5), (compare_two_digits _ _ _ _ A6 B6),
          (compare_two_digits _ _ _ _ A7 B7).
  rewrite InteractiveFacts.compare_refl.
  rewrite (then_by_div_mod 100) by lia.
  destruct (dt_second a ?= dt_second b)%nat; reflexivity.
Qed.

Lemma prefix_app (p s : string) : String.prefix p (p ++ s) = true.
Proof.
  induction p as [|c p IH]; [destruct s; reflexivity|].
  simpl. destruct (ascii_dec c c) as [_|H]; [exact IH|contradiction].
Qed.

(** [load_latest_data] opens the collection that was saved last.  When the
    names of the raw directory that start with [dating_posts_] are the
    names given by [save_data] at the clock readings [saves] (other files do
    not matter), the file opened is the path that [save_data] returned at a
    reading that no other reading follows. *)
Theorem newest_saved_file_is_loaded (saves : list datetime) (listing : list string) :
  saves <> [] ->
  Forall (fun now => valid now = true) saves ->
  (forall now, In now saves -> In (file_name "dating_posts" now) listing) ->
  (forall f, In f listing -> String.prefix "dating_posts_" f = true ->
             exists now, In now saves /\ f = file_name "dating_posts" now) ->
  exists latest,
    In latest saves /\
    (forall now, In now saves -> clock_compare now latest <> Gt) /\
    latest_data_file listing = Some (save_data "dating_posts" latest).
Proof.
  intros Hne Hvalid Hsaved Hnames. unfold latest_data_file.
  assert (Hpre : forall now, String.prefix "dating_posts_" (file_name "dating_posts" now) = true).
  { intros now. unfold file_name.
    change ("dating_posts" ++ "_" ++ strftime now ++ ".json")
      with ("dating_posts_" ++ (strftime now ++ ".json")).
    apply prefix_app. }
  destruct (filter (String.prefix "dating_posts_") listing) as [|f0 fs] eqn:E.
  - destruct saves as [|now saves]; [contradiction|].
    assert (Hin : In (file_name "dating_posts" now)
                     (filter (String.prefix "dating_posts_") listing)).
    { apply filter_In. split; [apply Hsaved; now left|apply Hpre]. }
    rewrite E in Hin. contradiction.
  - destruct (InteractiveFacts.max_name_spec f0 fs) as [Hin Hmax].
    rewrite <- E in Hin, Hmax. apply filter_In in Hin. destruct Hin as [Hin P].
    destruct (Hnames _ Hin P) as [latest [Hlatest Ename]].
    exists latest. split; [exact Hlatest|]. split.
    + intros now Hnow.
      assert (Hleb : String.leb (file_name "dating_posts" now) (max_name f0 fs) = true).
      { apply Hmax. apply filter_In. split; [now apply Hsaved|apply Hpre]. }
      rewrite Forall_forall in Hvalid.
      rewrite Ename, <- (file_names_by_time "dating_posts" now latest) in *
        by (apply Hvalid; assumption).
      unfold String.leb in Hleb. intros Hgt. rewrite Hgt in Hleb. discriminate.
    + unfold save_data. now rewrite Ename.
Qed.

Lemma newest_saved_file_is_loaded_witness :
  exists latest,
    In latest saves /\
    latest_data_file raw_listing = Some "data/raw/dating_posts_20240301_090000.json".
Proof.
  destruct (newest_saved_file_is_loaded saves raw_listing) as [latest [Hin [_ Hload]]].
  - discriminate.
  - repeat constructor.
  - intros now Hnow. simpl in Hnow.
    destruct Hnow as [<-|[<-|[<-|[]]]]; vm_compute; auto.
  - intros f Hf P. simpl in Hf.
    destruct Hf as [<-|[<-|[<-|[<-|[]]]]]; try discriminate P.
    + eexists. split; [left; reflexivity|reflexivity].
    + eexists. split; [right; left; reflexivity|reflexivity].
    + eexists. split; [right; right; left; reflexivity|reflexivity].
  - exists latest. split; [exact Hin|]. rewrite Hload.
    simpl in Hin. destruct Hin as [<-|[<-|[<-|[]]]]; try reflexivity.
    all: exfalso; vm_compute in Hload; discriminate Hload.
Defined.

End SavedFileFacts.

(** ** The compatibility factors *)

Module PrinterFacts.

Import BehaviorAnalyzer Text Printer.
Local Open Scope string_scope.

(** *** Rounding *)

Lemma round_half_even_nonneg (y : Q) : 0 <= y -> (0 <= Py.round_half_even y)%Z.
Proof.
  intros Hy. unfold Py.round_half_even.
  assert (Hn : (0 <= Qnum y)%Z) by (unfold Qle in Hy; simpl in Hy; lia).
  pose proof (Z.div_pos (Qnum y) (Z.pos (Qden y)) Hn ltac:(lia)) as Hq.
  cbv zeta. destruct (2 * (Qnum y mod Z.pos (Qden y)) ?= Z.pos (Qden y))%Z;
    [destruct (Z.even _)|..]; lia.
Qed.

(** Below an even bound: strictly below the half before it. *)
Lemma round_half_even_below_even (y : Q) (k : Z) :
  (Py.round_half_even y < 2 * k)%Z <-> y < (4 * k - 1) # 2.
Proof.
  unfold Py.round_half_even, Qlt. cbn [Qnum Qden]. cbv zeta.
  pose proof (Z.div_mod (Qnum y) (Z.pos (Qden y)) ltac:(lia)) as Hdm.
  pose proof (Z.mod_pos_bound (Qnum y) (Z.pos (Qden y)) ltac:(lia)) as Hr.
  set (q := (Qnum y / Z.pos (Qden y))%Z) in *.
  set (r := (Qnum y mod Z.pos (Qden y))%Z) in *.
  set (d := Z.pos (Qden y)) in *.
  destruct (Z.compare_spec (2 * r) d) as [E|L|G].
  - destruct (Z.even q) eqn:Ev.
    + apply Z.even_spec in Ev. destruct Ev as [m Hm]. split; intros H; nia.
    + assert (Ho : Z.odd q = true) by (rewrite <- Z.negb_even, Ev; reflexivity).
      apply Z.odd_spec in Ho. destruct Ho as [m Hm]. split; intros H; nia.
  - split; intros H; nia.
  - split; intros H; nia.
Qed.

(** Below an odd bound: up to the half before it. *)
Lemma round_half_even_below_odd (y : Q) (k : Z) :
  (Py.round_half_even y < 2 * k + 1)%Z <-> y <= (4 * k + 1) # 2.
Proof.
  unfold Py.round_half_even, Qle. cbn [Qnum Qden]. cbv zeta.
  pose proof (Z.div_mod (Qnum y) (Z.pos (Qden y)) ltac:(lia)) as Hdm.
  pose proof (Z.mod_pos_bound (Qnum y) (Z.pos (Qden y)) ltac:(lia)) as Hr.
  set (q := (Qnum y / Z.pos (Qden y))%Z) in *.
  set (r := (Qnum y mod Z.pos (Qden y))%Z) in *.
  set (d := Z.pos (Qden y)) in *.
  destruct (Z.compare_spec (2 * r) d) as [E|L|G].
  - destruct (Z.even q) eqn:Ev.
    + apply Z.even_spec in Ev. destruct Ev as [m Hm]. split; intros H; nia.
    + assert (Ho : Z.odd q = true) by (rewrite <- Z.negb_even, Ev; reflexivity).
      apply Z.odd_spec in Ho. destruct Ho as [m Hm]. split; intros H; nia.
  - split; intros H; nia.
  - split; intros H; nia.
Qed.

(** *** Printed numbers *)

Lemma digit_is_numeric (c : ascii) : isdigit c = true -> numeric c = true.
Proof. unfold numeric. now intros ->. Qed.

Lemma numeric_not_space (c : ascii) : numeric c = true -> negb (isspace c) = true.
Proof. TextFacts.each_char c. Qed.

Lemma numeric_not_percent (c : ascii) : numeric c = true -> Ascii.eqb c "%" = false.
Proof. TextFacts.each_char c. Qed.

Lemma digit_not_point (c : ascii) : isdigit c = true -> Ascii.eqb c "." = false.
Proof. TextFacts.each_char c. Qed.

Lemma digit_not_sign (c : ascii) :
  isdigit c = true -> Ascii.eqb c "-" = false /\ Ascii.eqb c "+" = false.
Proof. TextFacts.each_char c. Qed.

Lemma string_of_uint_digits (d : Decimal.uint) :
  all isdigit (NilEmpty.string_of_uint d) = true.
Proof. induction d; simpl; [reflexivity|..]; exact IHd. Qed.

(** The decimal notation of a natural number: digits, at least one, that
    write the number. *)
Lemma str_of_Z_digits (n : Z) :
  (0 <= n)%Z ->
  exists c r,
    Py.str_of_Z n = String c r /\ all isdigit (String c r) = true /\
    digits (String c r) = Some n.
Proof.
  intros Hn. unfold Py.str_of_Z.
  assert (H : exists d, d <> Decimal.Nil /\ Z.to_int n = Decimal.Pos d /\ Z.of_uint d = n).
  { destruct n as [|p|p]; [| |lia].
    - exists (Decimal.D0 Decimal.Nil). repeat split. discriminate.
    - exists (Pos.to_uint p). split; [apply DecimalPos.Unsigned.to_uint_nonnil|].
      split; [reflexivity|]. unfold Z.of_uint. now rewrite DecimalPos.Unsigned.of_to. }
  destruct H as [d [Hd [-> Hv]]]. cbn [NilZero.string_of_int].
  assert (E : NilZero.string_of_uint d = NilEmpty.string_of_uint d)
    by (destruct d; [contradiction|reflexivity..]).
  rewrite E.
  pose proof (string_of_uint_digits d) as Hall.
  pose proof (NilEmpty.usu d) as Husu.
  destruct (NilEmpty.string_of_uint d) as [|c r] eqn:Es.
  - destruct d; discriminate Es || contradiction.
  - exists c, r. split; [reflexivity|]. split; [exact Hall|].
    unfold digits. rewrite Husu. cbn [option_map]. now rewrite Hv.
Qed.

Lemma cut_at_point_digits (u rest : string) :
  all isdigit u = true -> cut_at_point (u ++ String "." rest) = (u, Some rest).
Proof.
  induction u as [|c u IH]; [reflexivity|].
  simpl. intros H. apply andb_true_iff in H. destruct H as [Hc Hu].
  now rewrite (digit_not_point c Hc), (IH Hu).
Qed.

Lemma one_digit (m : Z) :
  (0 <= m < 10)%Z -> exists c, Py.str_of_Z m = String c "" /\ digits (String c "") = Some m.
Proof.
  intros H.
  assert (C : (m = 0 \/ m = 1 \/ m = 2 \/ m = 3 \/ m = 4 \/ m = 5 \/ m = 6 \/ m = 7 \/ m = 8
               \/ m = 9)%Z) by lia.
  repeat (destruct C as [->|C]; [eexists; split; reflexivity|]).
  subst. eexists; split; reflexivity.
Qed.

(** The tenths [t] printed as [t / 10], a point and [t mod 10] are read
    back as [t / 10]. *)
Lemma unsigned_float_tenths (t : Z) :
  (0 <= t)%Z ->
  exists c r v,
    (Py.str_of_Z (t / 10) ++ "." ++ Py.str_of_Z (t mod 10)) = String c r /\
    isdigit c = true /\
    all numeric (String c r) = true /\
    unsigned_float (String c r) = Py.Ok v /\ v == inject_Z t / 10.
Proof.
  intros Ht.
  destruct (str_of_Z_digits (t / 10) ltac:(apply Z.div_pos; lia)) as [c [r [E [Hd Hv]]]].
  destruct (one_digit (t mod 10) ltac:(apply Z.mod_pos_bound; lia)) as [c' [E' Hv']].
  rewrite E, E'. cbn [append].
  exists c, (r ++ String "." (String c' "")).
  assert (Hc' : isdigit c' = true).
  { destruct (str_of_Z_digits (t mod 10) ltac:(apply Z.mod_pos_bound; lia))
      as [c2 [r2 [E2 [Hd2 _]]]].
    rewrite E' in E2. injection E2 as <- <-. simpl in Hd2.
    now apply andb_true_iff in Hd2. }
  eexists. split; [reflexivity|].
  pose proof Hd as Hd0. cbn [all] in Hd0. apply andb_true_iff in Hd0. destruct Hd0 as [Hc Hr].
  split; [exact Hc|]. split.
  - cbn [all]. rewrite (digit_is_numeric c Hc). cbn [andb].
    rewrite TextFacts.all_app.
    rewrite (TextFacts.all_impl isdigit numeric r digit_is_numeric Hr).
    cbn [all andb]. now rewrite (digit_is_numeric c' Hc').
  - unfold unsigned_float.
    change (String c (r ++ String "." (String c' ""))) with (String c r ++ String "." (String c' "")).
    rewrite (cut_at_point_digits (String c r) (String c' "") Hd).
    rewrite Hv, Hv'. cbn [String.length]. split; [reflexivity|].
    change (inject_Z (10 ^ Z.of_nat 1)) with 10.
    rewrite (Z.div_mod t 10) at 3 by lia.
    rewrite inject_Z_plus, inject_Z_mult. field.
Qed.

(** What [float] reads in a number printed with one decimal. *)
Lemma float_format_1f (x : Q) :
  exists v,
    float (Py.format_1f x) = Py.Ok v /\
    all numeric (Py.format_1f x) = true /\
    Py.format_1f x <> "" /\
    (0 <= x -> v == inject_Z (Py.round_half_even (x * 10)) / 10) /\
    (x < 0 -> v <= 0).
Proof.
  unfold Py.format_1f. cbv zeta.
  set (t := Py.round_half_even (Qabs x * 10)).
  assert (Ht : (0 <= t)%Z).
  { apply round_half_even_nonneg. pose proof (Qabs_nonneg x). nra. }
  destruct (unsigned_float_tenths t Ht) as [c [r [v [E [Hc [Hnum [Hf Hv]]]]]]].
  rewrite E. destruct (Py.lt x 0) eqn:Hneg.
  - exists (- v). cbn [append float]. cbn. rewrite Hf. cbn [Py.bind].
    split; [reflexivity|]. split; [exact Hnum|]. split; [discriminate|].
    apply PyFacts.lt_iff in Hneg. split; [intros H; lra|].
    intros _. rewrite Hv.
    assert (H0 : 0 <= inject_Z t) by (change 0 with (inject_Z 0); now rewrite <- Zle_Qle).
    assert (H1 : 0 <= inject_Z t / 10) by (apply Qle_shift_div_l; [reflexivity|lra]).
    revert H1. generalize (inject_Z t / 10). intros w Hw. lra.
  - exists v. cbn [append float].
    destruct (digit_not_sign c Hc) as [-> ->].
    split; [exact Hf|]. split; [exact Hnum|]. split; [discriminate|].
    apply PyFacts.lt_false_iff in Hneg. split; [|intros H; lra].
    intros _. rewrite Hv. unfold t.
    assert (Eabs : Qabs x = x).
    { destruct x as [n d]. unfold Qabs. f_equal. apply Z.abs_eq.
      unfold Qle in Hneg. simpl in Hneg. lia. }
    rewrite Eabs. reflexivity.
Qed.

(** *** Reading the strings of a view *)

Lemma first_word (num : string) :
  num <> "" -> all numeric num = true ->
  item0 (split (num ++ " hours")) = Py.Ok num.
Proof.
  intros Hne Hnum. unfold split.
  rewrite (TextFacts.split_from_app num "" " hours")
    by (exact (TextFacts.all_impl _ _ _ numeric_not_space Hnum)).
  cbn [append]. destruct num; [contradiction|reflexivity].
Qed.

Lemma rstrip_char_end (c : ascii) (s : string) :
  all (fun a => negb (Ascii.eqb a c)) s = true ->
  rstrip_char c (s ++ String c "") = s.
Proof.
  induction s as [|a s IH]; intros H.
  - simpl. now rewrite Ascii.eqb_refl.
  - cbn [all] in H. apply andb_true_iff in H. destruct H as [Ha Hs].
    apply negb_true_iff in Ha.
    change (rstrip_char c (String a s ++ String c ""))
      with (match rstrip_char c (s ++ String c "") with
            | EmptyString => if Ascii.eqb a c then EmptyString else String a EmptyString
            | r' => String a r'
            end).
    rewrite (IH Hs). destruct s; [now rewrite Ha|reflexivity].
Qed.

Lemma strip_percent (num : string) :
  all numeric num = true -> strip_char "%" (num ++ "%") = num.
Proof.
  intros Hnum. unfold strip_char.
  destruct num as [|c0 r0]; [reflexivity|]. remember (String c0 r0) as num eqn:Enum.
  assert (Hno : all (fun a => negb (Ascii.eqb a "%")) num = true).
  { eapply TextFacts.all_impl; [|exact Hnum].
    intros c Hc. now rewrite (numeric_not_percent c Hc). }
  assert (El : lstrip_char "%" (num ++ "%") = num ++ "%").
  { subst num.
    cbn [all] in Hno. apply andb_true_iff in Hno. destruct Hno as [Hc _].
    apply negb_true_iff in Hc. cbn [append lstrip_char]. now rewrite Hc. }
  rewrite El. now apply rstrip_char_end.
Qed.

(** *** The factors *)

Lemma factor_lists (b1 b2 b3 b4 b5 b6 b7 : bool) :
  let fs :=
    ((if b1 then ["Positive communicator"] else if b2 then ["Balanced communicator"] else [])
     ++ (if b3 then ["Quick responder"] else if b4 then ["Timely responder"] else [])
     ++ (if b5 then ["Highly engaged"] else if b6 then ["Consistently engaged"] else [])
     ++ (if b7 then ["Active on weekends"] else []))%list in
  (In "Positive communicator" fs <-> b1 = true) /\
  (In "Balanced communicator" fs <-> b1 = false /\ b2 = true) /\
  (In "Quick responder" fs <-> b3 = true) /\
  (In "Timely responder" fs <-> b3 = false /\ b4 = true) /\
  (In "Highly engaged" fs <-> b5 = true) /\
  (In "Consistently engaged" fs <-> b5 = false /\ b6 = true) /\
  (In "Active on weekends" fs <-> b7 = true).
Proof.
  cbv zeta.
  repeat apply conj; intros X;
    destruct b1, b2, b3, b4, b5, b6, b7; cbn [app In] in *;
      repeat match goal with
             | Y : _ \/ _ |- _ => destruct Y as [Y|Y]
             | Y : _ /\ _ |- _ => destruct Y
             end;
      try discriminate; try contradiction; try (split; reflexivity); auto 10.
Qed.

Lemma tenths_below (t k : Z) :
  inject_Z t / 10 < inject_Z k <-> (t < 10 * k)%Z.
Proof.
  rewrite Zlt_Qlt, inject_Z_mult. change (inject_Z 10) with 10.
  assert (E : inject_Z t / 10 == inject_Z t * (1 # 10)) by field. rewrite E.
  generalize (inject_Z t) (inject_Z k). intros a b. split; intros H; lra.
Qed.

Lemma times_ten_below (x : Q) (a : Z) : x * 10 < a # 2 <-> x < a # 20.
Proof.
  unfold Qlt, Qmult. cbn [Qnum Qden]. rewrite Pos.mul_1_r. lia.
Qed.

Lemma times_ten_upto (x : Q) (a : Z) : x * 10 <= a # 2 <-> x <= a # 20.
Proof.
  unfold Qle, Qmult. cbn [Qnum Qden]. rewrite Pos.mul_1_r. lia.
Qed.

(** A printed value is below the whole number [k] exactly when the value
    itself is below [k - 0.05]. *)
Lemma below_tenths (v x : Q) (k : Z) :
  (0 <= x -> v == inject_Z (Py.round_half_even (x * 10)) / 10) ->
  (x < 0 -> v <= 0) ->
  (0 < k)%Z ->
  (Py.lt v (inject_Z k) = true <-> x < (20 * k - 1) # 20).
Proof.
  intros Hpos Hneg Hk. rewrite PyFacts.lt_iff.
  destruct (Qlt_le_dec x 0) as [Hx|Hx].
  - specialize (Hneg Hx).
    assert (H1 : 1 <= inject_Z k) by (change 1 with (inject_Z 1); rewrite <- Zle_Qle; lia).
    assert (E : 0 <= (20 * k - 1) # 20) by (unfold Qle; cbn [Qnum Qden]; lia).
    revert E. generalize ((20 * k - 1) # 20). intros b E.
    split; intros _; lra.
  - rewrite (Hpos Hx), tenths_below.
    pose proof (round_half_even_below_even (x * 10) (5 * k)) as R.
    replace (4 * (5 * k) - 1)%Z with (20 * k - 1)%Z in R by ring.
    replace (2 * (5 * k))%Z with (10 * k)%Z in R by ring.
    rewrite R. apply times_ten_below.
Qed.

(** A printed percentage is above 50 exactly when the percentage is above
    50.05. *)
Lemma above_fifty (v y : Q) :
  (0 <= y -> v == inject_Z (Py.round_half_even (y * 10)) / 10) ->
  (y < 0 -> v <= 0) ->
  (Py.gt v 50 = true <-> 1001 # 20 < y).
Proof.
  intros Hpos Hneg. rewrite PyFacts.gt_iff.
  destruct (Qlt_le_dec y 0) as [Hx|Hx].
  - specialize (Hneg Hx). split; intros H; lra.
  - rewrite (Hpos Hx).
    pose proof (round_half_even_below_odd (y * 10) 250) as R.
    change (2 * 250 + 1)%Z with 501%Z in R. change (4 * 250 + 1)%Z with 1001%Z in R.
    rewrite times_ten_upto in R.
    assert (E : inject_Z (Py.round_half_even (y * 10)) / 10
                == inject_Z (Py.round_half_even (y * 10)) * (1 # 10)) by field.
    rewrite E.
    assert (Hz : 50 < inject_Z (Py.round_half_even (y * 10)) * (1 # 10)
                 <-> ~ (Py.round_half_even (y * 10) < 501)%Z).
    { set (t := Py.round_half_even (y * 10)). split; intros H.
      - intros C.
        assert (H5 : inject_Z t <= 500)
          by (change 500 with (inject_Z 500); rewrite <- Zle_Qle; lia).
        lra.
      - assert (H5 : 500 < inject_Z t)
          by (change 500 with (inject_Z 500); rewrite <- Zlt_Qlt; lia).
        lra. }
    rewrite Hz, R. split; intros H.
    + apply Qnot_le_lt in H. lra.
    + apply Qlt_not_le. lra.
Qed.

(** The compatibility factors shown for a user of the table never fail to
    be computed, and the factors for speed and weekends follow the numbers as
    printed in the profile view, not the numbers of the table: for a
    response time of the table, a double, "Quick responder" is shown below
    0.95 hours and "Timely responder" from there up to 2.95 hours; "Active
    on weekends" is shown when the weekend share times 100, as a double, is
    above 50.05.  The engagement factors follow the engagement level of the
    table. *)
Theorem factors_follow_printed_values
    (user : string) (behavior_data : list (string * UserBehavior)) (row : UserBehavior) :
  loc behavior_data user = Some row ->
  F64.is_double (avg_response_time row) = true ->
  exists factors,
    compatibility_factors (get_user_profile user behavior_data) = Py.Ok factors /\
    (In "Quick responder" factors <-> avg_response_time row < 0.95) /\
    (In "Timely responder" factors <-> 0.95 <= avg_response_time row < 2.95) /\
    (In "Active on weekends" factors <-> 50.05 < F64.mul (weekend_activity row) 100) /\
    (In "Highly engaged" factors <-> engagement_level row = "high") /\
    (In "Consistently engaged" factors <-> engagement_level row = "medium").
Proof.
  intros Hloc _. unfold get_user_profile. rewrite Hloc. unfold compatibility_factors.
  cbn [view_response_time view_communication_style view_engagement_level
       view_weekend_activity].
  destruct (float_format_1f (avg_response_time row)) as [v [Hv [Hnum [Hne [Hpos Hneg]]]]].
  destruct (float_format_1f (F64.mul (weekend_activity row) 100))
    as [w [Hw [Hnumw [_ [Hposw Hnegw]]]]].
  rewrite (first_word _ Hne Hnum). cbn [Py.bind]. rewrite Hv. cbn [Py.bind].
  rewrite (strip_percent _ Hnumw), Hw. cbn [Py.bind].
  eexists. split; [reflexivity|].
  match goal with
  | |- context [ ((if ?b1 then _ else if ?b2 then _ else [])
                  ++ (if ?b3 then _ else if ?b4 then _ else [])
                  ++ (if ?b5 then _ else if ?b6 then _ else [])
                  ++ (if ?b7 then _ else []))%list ] =>
      destruct (factor_lists b1 b2 b3 b4 b5 b6 b7) as [F1 [F2 [F3 [F4 [F5 [F6 F7]]]]]]
  end.
  cbv zeta in F1, F2, F3, F4, F5, F6, F7.
  rewrite F3, F4, F5, F6, F7.
  pose proof (below_tenths v (avg_response_time row) 1 Hpos Hneg ltac:(lia)) as Q1.
  pose proof (below_tenths v (avg_response_time row) 3 Hpos Hneg ltac:(lia)) as Q3.
  change (inject_Z 1) with 1 in Q1. change (inject_Z 3) with 3 in Q3.
  change ((20 * 1 - 1) # 20) with (19 # 20) in Q1.
  change ((20 * 3 - 1) # 20) with (59 # 20) in Q3.
  pose proof (above_fifty w (F64.mul (weekend_activity row) 100) Hposw Hnegw) as W.
  split; [rewrite Q1; split; intros H; lra|].
  split.
  { split.
    - intros [Hq Ht]. apply Q3 in Ht.
      assert (Hn : ~ avg_response_time row < 19 # 20)
        by (intros C; apply Q1 in C; congruence).
      apply Qnot_lt_le in Hn. split; lra.
    - intros [Hlo Hhi]. split.
      + apply not_true_is_false. intros E. apply Q1 in E. lra.
      + apply Q3. lra. }
  split; [rewrite W; split; intros H; lra|].
  split; [apply String.eqb_eq|].
  split.
  - intros [_ H]. now apply String.eqb_eq.
  - intros H. rewrite H. split; reflexivity.
Qed.

Lemma factors_follow_printed_values_witness :
  F64.is_double 1 = true /\
  exists factors,
    compatibility_factors (get_user_profile "alice" Examples.one_user_table) = Py.Ok factors /\
    ~ In "Quick responder" factors /\
    In "Timely responder" factors.
Proof.
  split; [vm_compute; reflexivity|].
  destruct (loc Examples.one_user_table "alice") as [row|] eqn:E;
    [|vm_compute in E; discriminate E].
  assert (Er : avg_response_time row = 1).
  { vm_compute in E. injection E as <-. reflexivity. }
  assert (Hd : F64.is_double (avg_response_time row) = true).
  { rewrite Er. vm_compute. reflexivity. }
  destruct (factors_follow_printed_values "alice" Examples.one_user_table row E Hd)
    as [factors [Hf [HQ [HT _]]]].
  exists factors. split; [exact Hf|]. split.
  - intros H. apply HQ in H. rewrite Er in H. lra.
  - apply HT. rewrite Er. lra.
Defined.

(** The response time 0.95 of a table is the double below 19/20: it is
    printed "0.9 hours" and the user is shown as a quick responder. *)
Example double_written_095_is_quick :
  let row := {| avg_response_time := F64.round 0.95; message_frequency := 1;
                avg_message_length := 0; sentiment_mean := 0; engagement_level := "low";
                active_hours := 1; weekend_activity := 0 |} in
  let view := get_user_profile "u" [("u"%string, row)] in
  view_response_time view = "0.9 hours"%string /\
  compatibility_factors view = Py.Ok ["Balanced communicator"; "Quick responder"]%string.
Proof. split; vm_compute; reflexivity. Qed.

End PrinterFacts.
